(** * Matrix.Benchmarks/plotter/plotter.py: the benchmark report plotter

    A shallow embedding of the script and of the parts of Python, pandas
    and matplotlib it calls, followed by the properties of the report
    renderer.

    - [Py]: Python strings (sequences of code points), [str.strip],
      [in], [str.replace], [float(...)] on strings, [str(...)];
    - [Pd]: pandas series and data frames, as far as the script uses them;
    - [Plt]: the pyplot state machine (current figure, saved files);
    - the script itself: [convert_to_us] and the module body, one
      definition per statement group, in a state and exception monad. *)

From Stdlib Require Import ZArith NArith Ascii String List Bool Lia.
From Stdlib Require Import Floats.SpecFloat DecimalString Permutation.
From stdpp Require Import base option list gmap strings.

Local Open Scope N_scope.

(** ** Python values *)

Module Py.

(** A Python [str] is a sequence of Unicode code points. *)
Definition pystr := list N.

(** An ASCII literal of the source as a [str]. *)
Definition lit (s : string) : pystr := List.map N_of_ascii (list_ascii_of_string s).

(** Python floats are IEEE 754 binary64 numbers. *)
Definition prec : Z := 53.
Definition emax : Z := 1024.
Abbreviation float := spec_float.

Definition nan : float := S754_nan.
Definition float_of_int (n : Z) : float := binary_normalize prec emax n 0 false.
Definition float_div : float -> float -> float := SFdiv prec emax.
Definition float_mul : float -> float -> float := SFmul prec emax.

(** What the interpreter brings along and the script does not fix: the
    decimal digits of the Unicode database beyond ASCII (the digit value
    of a code point of category Nd), and the digits [repr] prints for a
    finite float. *)
Class Runtime := {
  Py_UNICODE_TODECIMAL : N -> option N;
  float_repr_finite : bool -> positive -> Z -> pystr
}.

(** [str.isspace] on one code point. *)
Definition Py_UNICODE_ISSPACE (c : N) : bool :=
  ((0x09 <=? c) && (c <=? 0x0D)) || ((0x1C <=? c) && (c <=? 0x20))
  || (c =? 0x85) || (c =? 0xA0) || (c =? 0x1680)
  || ((0x2000 <=? c) && (c <=? 0x200A))
  || (c =? 0x2028) || (c =? 0x2029) || (c =? 0x202F) || (c =? 0x205F)
  || (c =? 0x3000).

(** [s.lstrip()], [s.rstrip()], [s.strip()] *)
Fixpoint lstrip (s : pystr) : pystr :=
  match s with
  | c :: s' => if Py_UNICODE_ISSPACE c then lstrip s' else s
  | [] => []
  end.

Definition rstrip (s : pystr) : pystr := rev (lstrip (rev s)).

Definition strip (s : pystr) : pystr := rstrip (lstrip s).

(** [s.startswith(p)] *)
Fixpoint startswith (p s : pystr) : bool :=
  match p, s with
  | [], _ => true
  | _ :: _, [] => false
  | a :: p', b :: s' => (a =? b) && startswith p' s'
  end.

(** [p in s] *)
Fixpoint contains (p s : pystr) : bool :=
  startswith p s ||
  match s with
  | [] => false
  | _ :: s' => contains p s'
  end.

(** [s.replace(old, new)]: every occurrence of [old], found from the left
    and not overlapping, gives way to [new]. [skip] counts the code points
    of a matched occurrence that are still to be passed over. *)
Fixpoint replace_from (old new : pystr) (skip : nat) (s : pystr) : pystr :=
  match s with
  | [] => []
  | c :: s' =>
      match skip with
      | S k => replace_from old new k s'
      | O =>
          if startswith old s
          then new ++ replace_from old new (length old - 1) s'
          else c :: replace_from old new 0 s'
      end
  end.

Definition replace (old new s : pystr) : pystr :=
  match old with
  | [] => new ++ flat_map (fun c => c :: new) s
  | _ :: _ => replace_from old new 0 s
  end.

(** *** Objects and exceptions *)

(** The objects found in a report table: text, integers and floats. A
    missing field is the float NaN. *)
Inductive value :=
| VStr (s : pystr)
| VInt (n : Z)
| VFloat (f : float).

Definition NaN : value := VFloat nan.

#[export] Instance float_eq_dec : EqDecision float.
Proof. solve_decision. Defined.

#[export] Instance value_eq_dec : EqDecision value.
Proof. unfold pystr. solve_decision. Defined.

Inductive exn :=
| FileNotFoundError
| KeyError (key : string)
| AttributeError
| ValueError
| OverflowError.

Inductive result (A : Type) :=
| Ok (a : A)
| Raise (e : exn).
Arguments Ok {A} a.
Arguments Raise {A} e.

#[export] Instance result_ret : MRet result := fun A a => Ok a.
#[export] Instance result_bind : MBind result := fun A B f m =>
  match m with
  | Ok a => f a
  | Raise e => Raise e
  end.
#[export] Instance result_fmap : FMap result := fun A B f m =>
  match m with
  | Ok a => Ok (f a)
  | Raise e => Raise e
  end.

(** *** [float(s)] for a string [s] *)

Definition is_digit (c : N) : bool := (48 <=? c) && (c <=? 57).

(** Whitespace for the C level of the parser: [Py_ISSPACE]. *)
Definition Py_ISSPACE (c : N) : bool := ((9 <=? c) && (c <=? 13)) || (c =? 32).

Definition Py_TOLOWER (c : N) : N := if (65 <=? c) && (c <=? 90) then c + 32 else c.

Section Float.
Context {rt : Runtime}.

(** [_PyUnicode_TransformDecimalAndSpaceToASCII]: spaces become [' '],
    decimal digits their ASCII digit; the result ends with ['?'] at the
    first other code point from 127 on. *)
Fixpoint transform_loop (s : pystr) : pystr :=
  match s with
  | [] => []
  | c :: s' =>
      if c <? 127 then c :: transform_loop s'
      else if Py_UNICODE_ISSPACE c then 32 :: transform_loop s'
      else match Py_UNICODE_TODECIMAL c with
           | Some d => (48 + d) :: transform_loop s'
           | None => [63]
           end
  end.

Definition transform_decimal_and_space (s : pystr) : pystr :=
  if forallb (fun c => c <? 128) s then s else transform_loop s.

(** [_Py_string_to_number_with_underscores]: an underscore is allowed
    between two digits only. [prev] is the code point before. *)
Fixpoint drop_underscores (prev : N) (s : pystr) : option pystr :=
  match s with
  | [] => if prev =? 95 then None else Some []
  | c :: s' =>
      if c =? 95 then
        if is_digit prev then drop_underscores c s' else None
      else if (prev =? 95) && negb (is_digit c) then None
      else option_map (cons c) (drop_underscores c s')
  end.

Definition without_underscores (s : pystr) : option pystr :=
  if existsb (N.eqb 95) s then drop_underscores 0 s else Some s.

(** Leading and trailing whitespace of [float_from_string_inner]. *)
Fixpoint skip_spaces (s : pystr) : pystr :=
  match s with
  | c :: s' => if Py_ISSPACE c then skip_spaces s' else s
  | [] => []
  end.

Definition trim_spaces (s : pystr) : pystr := rev (skip_spaces (rev (skip_spaces s))).

(** The longest prefix of digits, as digit values, and what follows. *)
Fixpoint span_digits (s : pystr) : list N * pystr :=
  match s with
  | c :: s' =>
      if is_digit c
      then let '(ds, r) := span_digits s' in ((c - 48) :: ds, r)
      else ([], s)
  | [] => ([], [])
  end.

Definition digits_value (ds : list N) : Z :=
  fold_left (fun acc d => (10 * acc + Z.of_N d)%Z) ds 0%Z.

Definition take_sign (s : pystr) : bool * pystr :=
  match s with
  | 45 :: r => (true, r)
  | 43 :: r => (false, r)
  | _ => (false, s)
  end.

(** The decimal exponent part: nothing, or [e]/[E], a sign and digits. *)
Definition parse_exponent (s : pystr) : option Z :=
  match s with
  | [] => Some 0%Z
  | c :: r =>
      if (c =? 101) || (c =? 69) then
        let '(neg, r1) := take_sign r in
        match span_digits r1 with
        | ((_ :: _) as ds, []) =>
            Some (if neg then (- digits_value ds)%Z else digits_value ds)
        | _ => None
        end
      else None
  end.

(** A decimal numeral: sign, mantissa digits read as an integer, and the
    power of ten that scales it. *)
Definition parse_decimal (s : pystr) : option (bool * Z * Z) :=
  let '(neg, r) := take_sign s in
  let '(ip, r1) := span_digits r in
  let '(fp, r2) :=
    match r1 with
    | 46 :: r' => span_digits r'
    | _ => ([], r1)
    end in
  match ip ++ fp with
  | [] => None
  | ds =>
      match parse_exponent r2 with
      | Some e => Some (neg, digits_value ds, (e - Z.of_nat (length fp))%Z)
      | None => None
      end
  end.

(** [_Py_parse_inf_or_nan], on the whole string. *)
Definition parse_inf_or_nan (s : pystr) : option float :=
  let '(neg, r) := take_sign s in
  let low := List.map Py_TOLOWER r in
  if decide (low = lit "inf" \/ low = lit "infinity") then Some (S754_infinity neg)
  else if decide (low = lit "nan") then Some S754_nan
  else None.

(** The binary64 number nearest to [m * 10 ^ e], ties to even. *)
Definition decimal_to_float (neg : bool) (m e : Z) : float :=
  match m with
  | Zpos _ =>
      let num := (if 0 <=? e then m * 10 ^ e else m)%Z in
      let den := (if 0 <=? e then 1 else 10 ^ (- e))%Z in
      let '(q, e2, l) := SFdiv_core_binary prec emax num 0 den 0 in
      binary_round_aux prec emax neg q e2 l
  | _ => S754_zero neg
  end.

(** [float(s)]: [None] stands for the [ValueError] it raises. *)
Definition float_of_str (s : pystr) : option float :=
  match without_underscores (transform_decimal_and_space s) with
  | None => None
  | Some t =>
      let u := trim_spaces t in
      match parse_decimal u with
      | Some (neg, m, e) => Some (decimal_to_float neg m e)
      | None => parse_inf_or_nan u
      end
  end.

(** *** [str(x)], [float(x)], [x == y] *)

(** [repr] of a float; the digits of a finite one are the runtime's. *)
Definition float_repr (f : float) : pystr :=
  match f with
  | S754_nan => lit "nan"
  | S754_infinity s => if s then lit "-inf" else lit "inf"
  | S754_zero s => if s then lit "-0.0" else lit "0.0"
  | S754_finite s m e => float_repr_finite s m e
  end.

(** [str(x)] *)
Definition str (x : value) : pystr :=
  match x with
  | VStr s => s
  | VInt n => lit (NilZero.string_of_int (Z.to_int n))
  | VFloat f => float_repr f
  end.

(** [float(x)] *)
Definition float_new (x : value) : result float :=
  match x with
  | VStr s =>
      match float_of_str s with
      | Some f => Ok f
      | None => Raise ValueError
      end
  | VInt n =>
      match float_of_int n with
      | S754_infinity _ => Raise OverflowError
      | f => Ok f
      end
  | VFloat f => Ok f
  end.

(** An integer and a float are compared by their exact values. *)
Definition int_eq_float (n : Z) (f : float) : bool :=
  match f with
  | S754_zero _ => (n =? 0)%Z
  | S754_finite s m e =>
      let v := if s then Zneg m else Zpos m in
      (if 0 <=? e then n =? v * 2 ^ e else n * 2 ^ (- e) =? v)%Z
  | _ => false
  end.

(** [x == y] *)
Definition eqb (x y : value) : bool :=
  match x, y with
  | VStr s, VStr t => bool_decide (s = t)
  | VInt m, VInt n => (m =? n)%Z
  | VFloat f, VFloat g => SFeqb f g
  | VInt n, VFloat f | VFloat f, VInt n => int_eq_float n f
  | _, _ => false
  end.

End Float.

End Py.

(** ** pandas *)

Module Pd.
Import Py.

Inductive dtype := object_ | int64 | float64 | bool_.

(** A column: its dtype and its values by position. An object column of a
    report read from a file holds text, and NaN where the field is empty. *)
Record Series := { dtype_of : dtype; values : list value }.

(** A table: the dtype of every column, and the rows by position. A row
    maps column names to cells; a cell it lacks is NaN. *)
Record DataFrame := { columns : gmap string dtype; rows : list (gmap string value) }.

Definition cell (r : gmap string value) (c : string) : value := default NaN (r !! c).

Definition isna (v : value) : bool :=
  match v with
  | VFloat S754_nan => true
  | _ => false
  end.

(** Positions of [l] where a boolean mask holds. *)
Fixpoint select {A} (mask : list bool) (l : list A) : list A :=
  match mask, l with
  | b :: mask', x :: l' => if b then x :: select mask' l' else select mask' l'
  | _, _ => []
  end.

(** [df[c]] *)
Definition getitem (df : DataFrame) (c : string) : result Series :=
  match columns df !! c with
  | Some t => Ok {| dtype_of := t; values := List.map (fun r => cell r c) (rows df) |}
  | None => Raise (KeyError c)
  end.

(** [df[mask]] for a boolean mask *)
Definition loc (df : DataFrame) (mask : list bool) : DataFrame :=
  {| columns := columns df; rows := select mask (rows df) |}.

(** [df[c] = s] *)
Definition setitem (df : DataFrame) (c : string) (s : Series) : result DataFrame :=
  if (length (values s) =? length (rows df))%nat
  then Ok {| columns := <[c := dtype_of s]> (columns df);
             rows := zip_with (fun r v => <[c := v]> r) (rows df) (values s) |}
  else Raise ValueError.

(** [df.empty] *)
Definition empty (df : DataFrame) : bool :=
  bool_decide (rows df = [] \/ columns df = ∅).

(** [s.notna()] *)
Definition notna (s : Series) : list bool := List.map (fun v => negb (isna v)) (values s).

Section Ops.
Context {rt : Runtime}.

(** The float64 column of the numbers [fs]. *)
Definition float64_series (fs : list float) : Series :=
  {| dtype_of := float64; values := List.map VFloat fs |}.

(** The dtype of [s.apply(f)] for a function that returns floats: float64
    when [s] has rows; a column without rows comes back with its own
    dtype. *)
Definition apply_dtype {A} (t : dtype) (l : list A) : dtype :=
  match l with
  | [] => t
  | _ :: _ => float64
  end.

(** [s.apply(f)] for a function that returns floats *)
Definition apply (f : value -> result float) (s : Series) : result Series :=
  fs ← mapM f (values s);
  Ok {| dtype_of := apply_dtype (dtype_of s) (values s); values := List.map VFloat fs |}.

(** [s.str]: only a column of object dtype has the accessor. *)
Definition str_accessor (s : Series) : result (list value) :=
  match dtype_of s with
  | object_ => Ok (values s)
  | _ => Raise AttributeError
  end.

(** [s.str.contains(pat, na=na)], for a pattern without metacharacters *)
Definition str_contains (pat : pystr) (na : bool) (s : Series) : result (list bool) :=
  vs ← str_accessor s;
  Ok (List.map (fun v => match v with VStr t => contains pat t | _ => na end) vs).

(** [s.str.replace(old, new)], for a pattern without metacharacters *)
Definition str_replace (old new : pystr) (s : Series) : result Series :=
  vs ← str_accessor s;
  Ok {| dtype_of := object_;
        values := List.map (fun v => match v with
                                     | VStr t => VStr (replace old new t)
                                     | _ => NaN
                                     end) vs |}.

(** [s.astype(float)]: the numbers of the float64 column it returns *)
Definition astype_float (s : Series) : result (list float) :=
  mapM float_new (values s).

(** [a / n] for the numbers [a] of a float64 column and an integer *)
Definition truediv (a : list float) (n : Z) : list float :=
  List.map (fun f => float_div f (float_of_int n)) a.

(** [s.isin(vs)] *)
Definition isin (vs : list value) (s : Series) : list bool :=
  List.map (fun v => existsb (eqb v) vs) (values s).

(** [s == x] *)
Definition eq (s : Series) (x : value) : list bool :=
  List.map (fun v => eqb v x) (values s).

(** [s.unique()]: the distinct values in the order of their first
    appearance; all NaN count as one value. *)
Definition same_key (x y : value) : bool := eqb x y || (isna x && isna y).

Fixpoint unique_from (seen : list value) (l : list value) : list value :=
  match l with
  | [] => []
  | v :: l' =>
      if existsb (same_key v) seen then unique_from seen l'
      else v :: unique_from (v :: seen) l'
  end.

Definition unique (s : Series) : list value := unique_from [] (values s).

End Ops.

End Pd.

(** ** matplotlib.pyplot *)

Module Plt.
Import Py Pd.

Inductive scale := linear | log.

(** One line series: what [plt.plot(x, y, marker=.., label=..)] draws. *)
Record Line := { xdata : list value; ydata : list value; marker : string; label : value }.

(** A figure, as far as the script determines its data: the line series
    in drawing order and the scale of the Y axis. Axis texts, legend, grid
    and layout decorate the figure and are never read back. *)
Record Figure := { lines : list Line; yscale : scale }.

(** The state of pyplot: the current figure, the files written by
    [savefig], the figures handed to [show]. *)
Record State := { gcf : Figure; saved : gmap string Figure; shown : list Figure }.

Definition new_figure : Figure := {| lines := []; yscale := linear |}.

Definition initial : State := {| gcf := new_figure; saved := ∅; shown := [] |}.

(** [plt.figure(figsize=..)] *)
Definition figure (st : State) : State :=
  {| gcf := new_figure; saved := saved st; shown := shown st |}.

(** [plt.plot(x, y, marker=m, label=l, linewidth=2)] *)
Definition plot (x y : Series) (m : string) (l : value) (st : State) : State :=
  let ln := {| xdata := values x; ydata := values y; marker := m; label := l |} in
  {| gcf := {| lines := lines (gcf st) ++ [ln]; yscale := yscale (gcf st) |};
     saved := saved st; shown := shown st |}.

(** [plt.yscale(sc)] *)
Definition set_yscale (sc : scale) (st : State) : State :=
  {| gcf := {| lines := lines (gcf st); yscale := sc |};
     saved := saved st; shown := shown st |}.

(** [plt.savefig(name, dpi=300)] *)
Definition savefig (name : string) (st : State) : State :=
  {| gcf := gcf st; saved := <[name := gcf st]> (saved st); shown := shown st |}.

(** [plt.show()] *)
Definition show (st : State) : State :=
  {| gcf := gcf st; saved := saved st; shown := shown st ++ [gcf st] |}.

End Plt.

(** ** The script *)

Import Py Pd.
Local Open Scope string_scope.
Local Open Scope list_scope.

(** The state the module body runs in: the global [df] and pyplot. *)
Record World := { df : DataFrame; plt : Plt.State }.

(** Statements: they read and change the world, and return or raise. The
    world at the point of the exception is kept: files saved so far stay. *)
Definition M (A : Type) : Type := World -> result A * World.

#[export] Instance M_ret : MRet M := fun A a w => (Ok a, w).
#[export] Instance M_bind : MBind M := fun A B f m w =>
  match m w with
  | (Ok a, w') => f a w'
  | (Raise e, w') => (Raise e, w')
  end.

Definition lift {A} (r : result A) : M A := fun w => (r, w).
Definition get_df : M DataFrame := fun w => (Ok (df w), w).
Definition set_df (d : DataFrame) : M unit := fun w => (Ok tt, {| df := d; plt := plt w |}).
Definition pyplot (f : Plt.State -> Plt.State) : M unit :=
  fun w => (Ok tt, {| df := df w; plt := f (plt w) |}).

(** [for x in l: body] *)
Fixpoint for_ {A} (l : list A) (body : A -> M unit) : M unit :=
  match l with
  | [] => mret tt
  | x :: l' => body x ;; for_ l' body
  end.

(** The literal for microseconds with the Greek letter mu (U+03BC). *)
Definition mu_s : pystr := [0x3BC; 0x73]%N.

Section Script.
Context {rt : Runtime}.

(** [def convert_to_us(time_str)] *)
Definition convert_to_us (time_str : value) : result float :=
  let time_str := strip (str time_str) in
  if contains (lit "ns") time_str then
    x ← float_new (VStr (replace (lit ",") [] (replace (lit "ns") [] time_str)));
    Ok (float_div x (float_of_int 1000))
  else if contains (lit "us") time_str || contains mu_s time_str then
    float_new (VStr (replace (lit ",") []
                       (replace mu_s [] (replace (lit "us") [] time_str))))
  else if contains (lit "ms") time_str then
    x ← float_new (VStr (replace (lit ",") [] (replace (lit "ms") [] time_str)));
    Ok (float_mul x (float_of_int 1000))
  else
    float_new (VStr (replace (lit ",") [] time_str)).

(** [df['Mean_us'] = df['Mean'].apply(convert_to_us)] *)
Definition add_Mean_us : M unit :=
  d ← get_df;
  mean ← lift (getitem d "Mean");
  mean_us ← lift (apply convert_to_us mean);
  d' ← lift (setitem d "Mean_us" mean_us);
  set_df d'.

(** [df[df['Method'].str.contains(pat, na=False)]] *)
Definition fill_methods (d : DataFrame) : result DataFrame :=
  m ← getitem d "Method";
  mask ← str_contains (lit "Fill") false m;
  Ok (loc d mask).

Definition foreach_methods (d : DataFrame) : result DataFrame :=
  m ← getitem d "Method";
  mask ← str_contains (lit "ForEach") false m;
  Ok (loc d mask).

(** [df[df['Method'].isin(['GetRow', 'GetColumn'])]] *)
Definition read_methods (d : DataFrame) : result DataFrame :=
  m ← getitem d "Method";
  Ok (loc d (isin [VStr (lit "GetRow"); VStr (lit "GetColumn")] m)).

(** [df[df['Allocated'].notna()]] *)
Definition allocated_data (d : DataFrame) : result DataFrame :=
  a ← getitem d "Allocated";
  Ok (loc d (notna a)).

(** Graph 1. The calls that only decorate the figure ([xlabel], [ylabel],
    [title], [legend], [grid], [tight_layout]) are left out, here and in
    the other graphs. *)
Definition graph1 : M unit :=
  d ← get_df;
  fill_methods ← lift (fill_methods d);
  pyplot Plt.figure;;
  methods ← lift (getitem fill_methods "Method");
  for_ (unique methods) (fun method =>
    col ← lift (getitem fill_methods "Method");
    let data := loc fill_methods (eq col method) in
    x ← lift (getitem data "Size");
    y ← lift (getitem data "Mean_us");
    pyplot (Plt.plot x y "o" method));;
  pyplot (Plt.set_yscale Plt.log);;
  pyplot (Plt.savefig "fill_comparison.png");;
  pyplot Plt.show.

(** Graph 2 *)
Definition graph2 : M unit :=
  d ← get_df;
  foreach_methods ← lift (foreach_methods d);
  pyplot Plt.figure;;
  methods ← lift (getitem foreach_methods "Method");
  for_ (unique methods) (fun method =>
    col ← lift (getitem foreach_methods "Method");
    let data := loc foreach_methods (eq col method) in
    x ← lift (getitem data "Size");
    y ← lift (getitem data "Mean_us");
    pyplot (Plt.plot x y "s" method));;
  pyplot (Plt.set_yscale Plt.log);;
  pyplot (Plt.savefig "foreach_comparison.png");;
  pyplot Plt.show.

(** Graph 3 *)
Definition graph3 : M unit :=
  d ← get_df;
  read_methods ← lift (read_methods d);
  pyplot Plt.figure;;
  methods ← lift (getitem read_methods "Method");
  for_ (unique methods) (fun method =>
    col ← lift (getitem read_methods "Method");
    let data := loc read_methods (eq col method) in
    x ← lift (getitem data "Size");
    y ← lift (getitem data "Mean_us");
    pyplot (Plt.plot x y "^" method));;
  pyplot (Plt.set_yscale Plt.log);;
  pyplot (Plt.savefig "read_operations.png");;
  pyplot Plt.show.

(** [data['Allocated'].str.replace(' B', '').str.replace(',', '').astype(float) / 1024] *)
Definition allocated_kb (data : DataFrame) : result Series :=
  a ← getitem data "Allocated";
  a1 ← str_replace (lit " B") [] a;
  a2 ← str_replace (lit ",") [] a1;
  f ← astype_float a2;
  Ok (float64_series (truediv f 1024)).

(** Graph 4 *)
Definition graph4 : M unit :=
  d ← get_df;
  allocated_data ← lift (allocated_data d);
  d ← get_df;
  fill_methods ← lift (fill_methods d);
  pyplot Plt.figure;;
  methods ← lift (getitem fill_methods "Method");
  for_ (unique methods) (fun method =>
    col ← lift (getitem allocated_data "Method");
    let data := loc allocated_data (eq col method) in
    if negb (empty data) then
      allocated_kb ← lift (allocated_kb data);
      x ← lift (getitem data "Size");
      pyplot (Plt.plot x allocated_kb "o" method)
    else mret tt);;
  pyplot (Plt.savefig "memory_allocation.png");;
  pyplot Plt.show.

(** The module body after the table is loaded. *)
Definition body : M unit :=
  add_Mean_us;; graph1;; graph2;; graph3;; graph4.

(** [pd.read_csv(path, delimiter=';')]: the files of the machine are
    given by their parsed tables; a path without a file raises. *)
Definition read_csv (fs : gmap string DataFrame) (path : string) : result DataFrame :=
  match fs !! path with
  | Some d => Ok d
  | None => Raise FileNotFoundError
  end.

Definition report_csv : string :=
  "../BenchmarkDotNet.Artifacts/results/Matrix.Benchmarks.MatrixBenchmarks-report.csv".

(** A run of the script: the load fails, or the body runs on the loaded
    table and ends, normally or not, in some world. *)
Inductive run := NotLoaded (e : exn) | Ran (r : result unit) (w : World).

Definition main (fs : gmap string DataFrame) : run :=
  match read_csv fs report_csv with
  | Raise e => NotLoaded e
  | Ok d => let '(r, w) := body {| df := d; plt := Plt.initial |} in Ran r w
  end.

End Script.

(** ** The operations in the words of the specification *)

Section Views.
Context {rt : Runtime}.

(** *** Normalize timing unit *)

Inductive time_unit := Nanoseconds | Microseconds | Milliseconds | Bare.

(** The unit substrings are looked for in this order. *)
Definition detect_unit (t : pystr) : time_unit :=
  if contains (lit "ns") t then Nanoseconds
  else if contains (lit "us") t || contains mu_s t then Microseconds
  else if contains (lit "ms") t then Milliseconds
  else Bare.

Definition strip_unit (u : time_unit) (t : pystr) : pystr :=
  match u with
  | Nanoseconds => replace (lit "ns") [] t
  | Microseconds => replace mu_s [] (replace (lit "us") [] t)
  | Milliseconds => replace (lit "ms") [] t
  | Bare => t
  end.

Definition remove_separators (t : pystr) : pystr := replace (lit ",") [] t.

(** The text that is parsed as a number. *)
Definition numeric_text (mean : pystr) : pystr :=
  let t := strip mean in
  remove_separators (strip_unit (detect_unit t) t).

Definition to_microseconds (u : time_unit) (x : float) : float :=
  match u with
  | Nanoseconds => float_div x (float_of_int 1000)
  | Microseconds | Bare => x
  | Milliseconds => float_mul x (float_of_int 1000)
  end.

Definition normalize_timing_unit (mean : pystr) : result float :=
  match float_of_str (numeric_text mean) with
  | Some x => Ok (to_microseconds (detect_unit (strip mean)) x)
  | None => Raise ValueError
  end.

(** *** The selections, row by row *)

Definition method_contains (pat : pystr) (r : gmap string value) : bool :=
  match cell r "Method" with
  | VStr s => contains pat s
  | _ => false
  end.

Definition method_in (names : list pystr) (r : gmap string value) : bool :=
  match cell r "Method" with
  | VStr s => bool_decide (s ∈ names)
  | _ => false
  end.

Definition method_is (method : value) (r : gmap string value) : bool :=
  eqb (cell r "Method") method.

Definition allocated_present (r : gmap string value) : bool :=
  negb (isna (cell r "Allocated")).

Definition column (c : string) (rs : list (gmap string value)) : list value :=
  List.map (fun r => cell r c) rs.

(** The table with the rows that satisfy [p], in their order. *)
Definition where_ (p : gmap string value -> bool) (d : DataFrame) : DataFrame :=
  {| columns := columns d; rows := List.filter p (rows d) |}.

(** *** Memory allocation *)

(** An [Allocated] cell in kilobytes: the [" B"] and the separators go,
    the rest is parsed and divided by 1024. *)
Definition kilobytes (allocated : value) : result float :=
  match allocated with
  | VStr s =>
      match float_of_str (remove_separators (replace (lit " B") [] s)) with
      | Some x => Ok (float_div x (float_of_int 1024))
      | None => Raise ValueError
      end
  | _ => Ok nan
  end.

(** The series of one method: its rows among those with [Allocated]
    present; none if there is no such row. *)
Definition memory_series_of (present : list (gmap string value)) (method : value)
    : result (list Plt.Line) :=
  match List.filter (method_is method) present with
  | [] => Ok []
  | data =>
      kb ← mapM (fun r => kilobytes (cell r "Allocated")) data;
      Ok [{| Plt.xdata := column "Size" data; Plt.ydata := List.map VFloat kb;
             Plt.marker := "o"; Plt.label := method |}]
  end.

Definition memory_view (rs : list (gmap string value)) : result (list Plt.Line) :=
  let present := List.filter allocated_present rs in
  let fill := List.filter (method_contains (lit "Fill")) rs in
  lss ← mapM (memory_series_of present) (unique_from [] (column "Method" fill));
  Ok (concat lss).

(** *** What a render pass computes and what it leaves *)

Definition line_of (mk : string) (method : value) (x y : Series) : Plt.Line :=
  {| Plt.xdata := values x; Plt.ydata := values y; Plt.marker := mk; Plt.label := method |}.

(** One round of the loop of a timing chart. *)
Definition timing_series (sel : DataFrame) (mk : string) (method : value)
    : result (list Plt.Line) :=
  col ← getitem sel "Method";
  let data := loc sel (eq col method) in
  x ← getitem data "Size";
  y ← getitem data "Mean_us";
  Ok [line_of mk method x y].

Definition timing_lines (mk : string) (sel : DataFrame) : result (list Plt.Line) :=
  methods ← getitem sel "Method";
  lss ← mapM (timing_series sel mk) (unique methods);
  Ok (concat lss).

(** One round of the loop of the memory chart. *)
Definition memory_series (allocated : DataFrame) (method : value) : result (list Plt.Line) :=
  col ← getitem allocated "Method";
  let data := loc allocated (eq col method) in
  if negb (empty data) then
    kb ← allocated_kb data;
    x ← getitem data "Size";
    Ok [line_of "o" method x kb]
  else Ok [].

Definition memory_lines (d : DataFrame) : result (list Plt.Line) :=
  a ← allocated_data d;
  sel ← fill_methods d;
  methods ← getitem sel "Method";
  lss ← mapM (memory_series a) (unique methods);
  Ok (concat lss).

(** The lines each pass draws, as a function of the table. *)
Definition fill_lines (d : DataFrame) : result (list Plt.Line) :=
  fill_methods d ≫= timing_lines "o".
Definition foreach_lines (d : DataFrame) : result (list Plt.Line) :=
  foreach_methods d ≫= timing_lines "s".
Definition read_lines (d : DataFrame) : result (list Plt.Line) :=
  read_methods d ≫= timing_lines "^".

Definition add_lines (ls : list Plt.Line) (w : World) : World :=
  {| df := df w;
     plt := {| Plt.gcf := {| Plt.lines := Plt.lines (Plt.gcf (plt w)) ++ ls;
                             Plt.yscale := Plt.yscale (Plt.gcf (plt w)) |};
               Plt.saved := Plt.saved (plt w); Plt.shown := Plt.shown (plt w) |} |}.

(** The world after a pass has drawn [fig], saved it as [name] and shown it. *)
Definition finished (name : string) (fig : Plt.Figure) (w : World) : World :=
  {| df := df w;
     plt := {| Plt.gcf := fig; Plt.saved := <[name := fig]> (Plt.saved (plt w));
               Plt.shown := Plt.shown (plt w) ++ [fig] |} |}.

(** Same table, same files, same figures shown; the current figure may differ. *)
Definition same_files (w w' : World) : Prop :=
  df w' = df w /\ Plt.saved (plt w') = Plt.saved (plt w)
  /\ Plt.shown (plt w') = Plt.shown (plt w).

Definition pass_outcome (name : string) (sc : Plt.scale) (r : result (list Plt.Line))
    (w : World) (out : result unit * World) : Prop :=
  match r with
  | Ok ls => out = (Ok tt, finished name {| Plt.lines := ls; Plt.yscale := sc |} w)
  | Raise e => out.1 = Raise e /\ same_files w out.2
  end.

(** The four render passes, and a run of some of them in some order. *)
Definition passes : list (M unit) := [graph1; graph2; graph3; graph4].

Fixpoint run_passes (l : list (M unit)) : M unit :=
  match l with
  | [] => mret tt
  | p :: l' => p ;; run_passes l'
  end.

End Views.

(** A chart: the file it is saved to, the scale of its Y axis, and its
    lines as a function of the table. *)
Record chart := {
  artifact : string;
  axis : Plt.scale;
  lines_of : DataFrame -> result (list Plt.Line)
}.

(** The pass [p] draws the chart [c]. *)
Definition renders (p : M unit) (c : chart) : Prop :=
  forall w, pass_outcome (artifact c) (axis c) (lines_of c (df w)) w (p w).

(** Two worlds with the same table and the same files. *)
Definition same_data (w w' : World) : Prop :=
  df w = df w' /\ Plt.saved (plt w) = Plt.saved (plt w').

Section ChartsOfPasses.
Context {rt : Runtime}.

Definition charts : list chart :=
  [ {| artifact := "fill_comparison.png"; axis := Plt.log; lines_of := fill_lines |};
    {| artifact := "foreach_comparison.png"; axis := Plt.log; lines_of := foreach_lines |};
    {| artifact := "read_operations.png"; axis := Plt.log; lines_of := read_lines |};
    {| artifact := "memory_allocation.png"; axis := Plt.linear; lines_of := memory_lines |} ].

End ChartsOfPasses.

(** A runtime that knows no digit beyond ASCII and prints no digits: it
    serves to evaluate the script on tables of ASCII text, integers and
    NaN, where neither is asked for. *)
Definition ascii_runtime : Runtime :=
  {| Py_UNICODE_TODECIMAL := fun _ => None; float_repr_finite := fun _ _ _ => [] |}.

(** *** Example tables *)

Definition report_columns : gmap string dtype :=
  <["Method" := object_]> (<["Size" := int64]> (<["Mean" := object_]>
    (<["Allocated" := object_]> ∅))).

Definition report_row (method : string) (size : Z) (mean allocated : value)
    : gmap string value :=
  <["Method" := VStr (lit method)]> (<["Size" := VInt size]> (<["Mean" := mean]>
    (<["Allocated" := allocated]> ∅))).

(** Two Fill measurements, the second without a Mean, and one read. *)
Definition example_report : DataFrame :=
  {| columns := report_columns;
     rows := [ report_row "Fill_100" 100 (VStr (lit "50us")) (VStr (lit "1,024 B"));
               report_row "Fill_100" 200 NaN (VStr (lit "2,048 B"));
               report_row "GetRow" 100 (VStr (lit "1,000ns")) NaN ] |}.

(** A report of one measurement that no chart selects. *)
Definition unselected_report : DataFrame :=
  {| columns := report_columns;
     rows := [ report_row "GetRowFast" 100 (VStr (lit "1us")) (VStr (lit "1 B")) ] |}.

(** The same report under a header without Size. *)
Definition report_without_Size : DataFrame :=
  {| columns := delete "Size" report_columns;
     rows := List.map (delete "Size") (rows unselected_report) |}.

(** The two measurements of the specification's end-to-end scenario. *)
Definition scenario_report : DataFrame :=
  {| columns := report_columns;
     rows := [ report_row "Fill_100" 100 (VStr (lit "50us")) (VStr (lit "1,024 B"));
               report_row "Fill_200" 200 (VStr (lit "100us")) (VStr (lit "2,048 B")) ] |}.

Definition world_of (d : DataFrame) : World := {| df := d; plt := Plt.initial |}.

(** The world after the example report is loaded and normalized. *)
Definition example_world : World :=
  (add_Mean_us (rt := ascii_runtime) (world_of example_report)).2.

(** The example report under a header without Mean. *)
Definition report_without_Mean : DataFrame :=
  {| columns := delete "Mean" report_columns;
     rows := List.map (delete "Mean") (rows example_report) |}.

(** ** Further views of the script *)

(** *** The timing charts, row by row *)

(** The series of a timing chart: one for each distinct Method of the
    selected rows, in the order of first appearance, with the Size and the
    Mean_us of the rows of that method, in row order. *)
Definition timing_view (p : gmap string value -> bool) (mk : string)
    (rs : list (gmap string value)) : list Plt.Line :=
  let sel := List.filter p rs in
  List.map (fun m =>
              let data := List.filter (method_is m) sel in
              {| Plt.xdata := column "Size" data; Plt.ydata := column "Mean_us" data;
                 Plt.marker := mk; Plt.label := m |})
    (unique_from [] (column "Method" sel)).

(** The number of points of a chart. *)
Definition points (ls : list Plt.Line) : nat :=
  list_sum (List.map (fun ln => length (Plt.xdata ln)) ls).

(** The figure of a chart with the lines [ls]. *)
Definition chart_of (sc : Plt.scale) (ls : list Plt.Line) : Plt.Figure :=
  {| Plt.lines := ls; Plt.yscale := sc |}.

(** A measurement as a chart shows it: the method, the size and the time. *)
Definition measurement (r : gmap string value) : value * value * value :=
  (cell r "Method", cell r "Size", cell r "Mean_us").

(** The points of a chart, each under the label of its series. *)
Definition plotted (ls : list Plt.Line) : list (value * value * value) :=
  flat_map (fun ln => List.map (fun xy => (Plt.label ln, xy.1, xy.2))
                        (zip (Plt.xdata ln) (Plt.ydata ln))) ls.

(** The series of a chart are drawn from at least one row each, with as
    many abscissas as ordinates. *)
Definition well_formed_series (ls : list Plt.Line) : Prop :=
  Forall (fun ln => Plt.xdata ln <> [] /\ length (Plt.xdata ln) = length (Plt.ydata ln)) ls.

(** What a returned pass has left under [name], for the selection [p]:
    a figure whose series have distinct labels and plot the selected
    measurements, each once. *)
Definition plots_each_once (p : gmap string value -> bool) (name : string)
    (w w' : World) : Prop :=
  exists fig,
    Plt.saved (plt w') !! name = Some fig
    /\ NoDup (List.map Plt.label (Plt.lines fig))
    /\ plotted (Plt.lines fig) ≡ₚ List.map measurement (List.filter p (rows (df w)))
    /\ well_formed_series (Plt.lines fig).

(** *** The run, chart by chart *)

(** The dtype of the Mean_us column that the normalization adds: float64,
    and the dtype of Mean itself on a table without rows. *)
Definition Mean_us_dtype (d : DataFrame) : dtype :=
  match columns d !! "Mean" with
  | Some t => apply_dtype t (rows d)
  | None => float64
  end.

(** The table after the normalization has computed the times [vs]. *)
Definition normalized (d : DataFrame) (vs : list float) : DataFrame :=
  {| columns := <["Mean_us" := Mean_us_dtype d]> (columns d);
     rows := zip_with (fun r v => <["Mean_us" := VFloat v]> r) (rows d) vs |}.

(** The charts [cs] drawn in order from the table [d]: the files of the
    charts before the first whose lines raise, and how the drawing ends. *)
Fixpoint draw (cs : list chart) (d : DataFrame) : list (string * Plt.Figure) * result unit :=
  match cs with
  | [] => ([], Ok tt)
  | c :: cs' =>
      match lines_of c d with
      | Ok ls =>
          let '(figs, r) := draw cs' d in
          ((artifact c, {| Plt.lines := ls; Plt.yscale := axis c |}) :: figs, r)
      | Raise e => ([], Raise e)
      end
  end.

(** The files after [figs] are saved in order over [files]. *)
Definition files_after (figs : list (string * Plt.Figure)) (files : gmap string Plt.Figure)
    : gmap string Plt.Figure :=
  fold_left (fun m nf => <[nf.1 := nf.2]> m) figs files.

(** A row that some timing chart selects. *)
Definition charted (r : gmap string value) : bool :=
  method_contains (lit "Fill") r || method_contains (lit "ForEach") r
  || method_in [lit "GetRow"; lit "GetColumn"] r.

(** *** The characters of a number *)

(** The ASCII characters that [float] can accept in a text: digits,
    whitespace, signs, the point, the underscore, and the letters of an
    exponent, of [inf], [infinity] and [nan], in either case. *)
Definition float_char (c : N) : bool :=
  (is_digit c || Py_ISSPACE c || (c =? 43) || (c =? 45) || (c =? 46) || (c =? 95))%N
  || existsb (N.eqb (Py_TOLOWER c)) (lit "einfinityan").

(** An ASCII character that no number contains. *)
Definition foreign (c : N) : Prop := (c < 127)%N /\ float_char c = false.

(** The code points of the unit names: n, s, u, m and μ. *)
Definition unit_letters : pystr := lit "nsum" ++ [0x3BC]%N.

(** [x / 1000] and [x * 1000] on the outcome of a conversion. *)
Definition scaled (scale : float -> float) (r : result float) : result float :=
  x ← r; Ok (scale x).

(** *** The memory chart, row by row *)

Section MemoryPoints.
Context {rt : Runtime}.

(** The point of a row on the memory chart: its method, its size and its
    allocation in kilobytes. *)
Definition allocation (r : gmap string value) : result (value * value * value) :=
  kb ← kilobytes (cell r "Allocated");
  Ok (cell r "Method", cell r "Size", VFloat kb).

End MemoryPoints.

(** The rows the memory chart is drawn from. *)
Definition fill_with_allocation (r : gmap string value) : bool :=
  method_contains (lit "Fill") r && allocated_present r.

(** *** Further example tables *)

(** The example report under a header without Size: it has Fill rows. *)
Definition example_without_Size : DataFrame :=
  {| columns := delete "Size" report_columns;
     rows := List.map (delete "Size") (rows example_report) |}.

(** The example report under a header without Allocated. *)
Definition report_without_Allocated : DataFrame :=
  {| columns := delete "Allocated" report_columns;
     rows := List.map (delete "Allocated") (rows example_report) |}.

(** A report with a Mean that is no time. *)
Definition report_with_word : DataFrame :=
  {| columns := report_columns;
     rows := [ report_row "Fill_100" 100 (VStr (lit "50us")) (VStr (lit "1,024 B"));
               report_row "Fill_200" 200 (VStr (lit "fast")) (VStr (lit "2,048 B")) ] |}.

(** A report whose methods are numbers: pandas reads the column as int64. *)
Definition report_numbered_methods : DataFrame :=
  {| columns := <["Method" := int64]> report_columns;
     rows := [ <["Method" := VInt 1]>
                 (report_row "1" 100 (VStr (lit "50us")) (VStr (lit "1,024 B"))) ] |}.

(** A report with an allocation in kilobytes. *)
Definition report_in_kilobytes : DataFrame :=
  {| columns := report_columns;
     rows := [ report_row "Fill_100" 100 (VStr (lit "50us")) (VStr (lit "1.02 KB")) ] |}.

(** A report whose allocations are bare numbers: pandas reads the column
    as int64. *)
Definition report_numeric_allocated : DataFrame :=
  {| columns := <["Allocated" := int64]> report_columns;
     rows := [ report_row "Fill_100" 100 (VStr (lit "50us")) (VInt 1024) ] |}.

(** A report none of whose rows has a Method: pandas reads the column as
    float64. *)
Definition report_missing_methods : DataFrame :=
  {| columns := <["Method" := float64]> report_columns;
     rows := [ <["Method" := NaN]>
                 (report_row "-" 100 (VStr (lit "50us")) (VStr (lit "1,024 B")));
               <["Method" := NaN]>
                 (report_row "-" 200 (VStr (lit "60us")) (VStr (lit "2,048 B"))) ] |}.

(** A report without rows: only the header; every column is of object
    dtype. *)
Definition rowless_report : DataFrame :=
  {| columns := report_columns; rows := [] |}.

(** ** Properties *)

(** *** Strings *)

(** [startswith] and [contains] are prefix and substring. *)
Lemma startswith_spec (p s : pystr) :
  startswith p s = true <-> exists b, s = p ++ b.
Proof.
  revert s. induction p as [|a p IH]; intros s.
  - split; [intros _; by exists s|reflexivity].
  - destruct s as [|c s]; cbn [startswith].
    + split; [discriminate|]. intros [b Hb]. discriminate.
    + rewrite andb_true_iff, N.eqb_eq, IH. split.
      * intros [-> [b ->]]. by exists b.
      * intros [b [= -> ->]]. split; [reflexivity|]. by exists b.
Qed.

Lemma contains_unfold (p s : pystr) :
  contains p s = startswith p s || match s with [] => false | _ :: s' => contains p s' end.
Proof. by destruct s. Qed.

Lemma contains_spec (p s : pystr) :
  contains p s = true <-> exists a b, s = a ++ p ++ b.
Proof.
  split.
  - induction s as [|c s IH]; rewrite contains_unfold, orb_true_iff.
    + intros [Hst|?]; [|discriminate]. apply startswith_spec in Hst as [b ->]. by exists [], b.
    + intros [Hst|Hin].
      * apply startswith_spec in Hst as [b ->]. by exists [], b.
      * destruct (IH Hin) as (a & b & ->). by exists (c :: a), b.
  - intros (a & b & ->). induction a as [|c a IH]; rewrite contains_unfold.
    + cbn [app]. rewrite (proj2 (startswith_spec p (p ++ b))); [reflexivity|by exists b].
    + cbn [app]. rewrite IH. apply orb_true_r.
Qed.

(** Without an occurrence, [replace] changes nothing. *)
Lemma replace_absent (old new s : pystr) :
  old <> [] -> contains old s = false -> replace old new s = s.
Proof.
  intros Hold. unfold replace. destruct old as [|o old]; [done|].
  induction s as [|c s IH]; [reflexivity|].
  rewrite contains_unfold. intros Hno. apply orb_false_elim in Hno as [Hst Hin].
  cbn [replace_from]. rewrite Hst. f_equal. by apply IH.
Qed.

(** [strip] takes whitespace, and only whitespace, off both ends, up to
    the first and the last code point that is none. *)
Lemma lstrip_spec (s : pystr) :
  exists a, s = a ++ lstrip s /\ forallb Py_UNICODE_ISSPACE a = true
    /\ match lstrip s with c :: _ => Py_UNICODE_ISSPACE c = false | [] => True end.
Proof.
  induction s as [|c s (a & Hs & Ha & Hc)]; [by exists []|].
  cbn [lstrip]. destruct (Py_UNICODE_ISSPACE c) eqn:Hws.
  - exists (c :: a). cbn [app forallb]. rewrite Hws, Ha. by rewrite <- Hs.
  - by exists [].
Qed.

Lemma strip_spec (s : pystr) :
  exists a b, s = a ++ strip s ++ b
    /\ forallb Py_UNICODE_ISSPACE a = true /\ forallb Py_UNICODE_ISSPACE b = true
    /\ match strip s with c :: _ => Py_UNICODE_ISSPACE c = false | [] => True end
    /\ match rev (strip s) with c :: _ => Py_UNICODE_ISSPACE c = false | [] => True end.
Proof.
  destruct (lstrip_spec s) as (a & Hs & Ha & Hfirst).
  destruct (lstrip_spec (rev (lstrip s))) as (b & Hr & Hb & Hlast).
  unfold strip, rstrip. exists a, (rev b).
  assert (Hl : lstrip s = rev (lstrip (rev (lstrip s))) ++ rev b).
  { rewrite <- rev_app_distr, <- Hr. by rewrite rev_involutive. }
  split; [by rewrite <- Hl|]. split; [exact Ha|]. split.
  { rewrite forallb_forall in *. intros c Hc. apply Hb. by apply in_rev. }
  split; [|by rewrite rev_involutive].
  destruct (rev (lstrip (rev (lstrip s)))) as [|c t] eqn:Hstrip; [exact I|].
  rewrite Hl in Hfirst. exact Hfirst.
Qed.

Lemma lit_sp_B : lit " B" = [32; 66]%N.
Proof. reflexivity. Qed.

(** A [" B"] at the end of a text that has no other one is the only
    occurrence [replace] finds. *)
Lemma replace_B_suffix (body : pystr) :
  contains (lit " B") body = false ->
  replace (lit " B") [] (body ++ lit " B") = body.
Proof.
  rewrite lit_sp_B. unfold replace.
  induction body as [|c body IH]; intros Hno; [reflexivity|].
  cbn [contains] in Hno. apply orb_false_elim in Hno as [Hhd Htl].
  change ((c :: body) ++ [32; 66]%N) with (c :: (body ++ [32; 66]%N)).
  cbn [replace_from].
  assert (Hstart : startswith [32; 66]%N (c :: body ++ [32; 66]%N) = false).
  { cbn [startswith] in *. destruct (32 =? c)%N; [|reflexivity].
    destruct body as [|c2 body']; [reflexivity|].
    cbn [app andb] in *. exact Hhd. }
  rewrite Hstart. f_equal. apply IH. exact Htl.
Qed.

(** *** The monads *)

Lemma result_bind_eq {A B} (r : result A) (f : A -> result B) :
  r ≫= f = match r with Ok a => f a | Raise e => Raise e end.
Proof. reflexivity. Qed.

Lemma run_bind {A B} (m : M A) (f : A -> M B) (w : World) :
  (m ≫= f) w = match m w with
               | (Ok a, w') => f a w'
               | (Raise e, w') => (Raise e, w')
               end.
Proof. reflexivity. Qed.

Lemma run_lift_bind {A B} (r : result A) (f : A -> M B) (w : World) :
  (lift r ≫= f) w = match r with
                    | Ok a => f a w
                    | Raise e => (Raise e, w)
                    end.
Proof. rewrite run_bind. unfold lift. by destruct r. Qed.

Lemma run_get_df_bind {B} (f : DataFrame -> M B) (w : World) :
  (get_df ≫= f) w = f (df w) w.
Proof. reflexivity. Qed.

Lemma run_pyplot_bind {B} (g : Plt.State -> Plt.State) (f : unit -> M B) (w : World) :
  (pyplot g ≫= f) w = f tt {| df := df w; plt := g (plt w) |}.
Proof. reflexivity. Qed.

Lemma mapM_result_map {A B C} (g : A -> B) (f : B -> result C) (l : list A) :
  mapM f (List.map g l) = mapM (fun a => f (g a)) l.
Proof. induction l as [|a l IH]; simpl; [reflexivity|]. by rewrite IH. Qed.

Lemma mapM_result_ext {A B} (f g : A -> result B) (l : list A) :
  (forall a, a ∈ l -> f a = g a) -> mapM f l = mapM g l.
Proof.
  induction l as [|a l IH]; intros Hfg; simpl; [reflexivity|].
  rewrite Hfg by apply list_elem_of_here.
  rewrite IH; [reflexivity|]. intros b Hb. apply Hfg. by apply list_elem_of_further.
Qed.

Lemma mapM_result_length {A B} (f : A -> result B) (l : list A) (k : list B) :
  mapM f l = Ok k -> length k = length l.
Proof.
  revert k. induction l as [|a l IH]; intros k; simpl.
  - intros [= <-]. reflexivity.
  - rewrite result_bind_eq. destruct (f a) as [b|e]; [|discriminate].
    rewrite result_bind_eq. destruct (mapM f l) as [k'|e]; [|discriminate].
    intros [= <-]. simpl. f_equal. by apply IH.
Qed.

(** *** Masks and selections *)

Lemma select_map_filter {A} (p : A -> bool) (l : list A) :
  select (List.map p l) l = List.filter p l.
Proof. induction l as [|x l IH]; simpl; [reflexivity|]. rewrite IH. by destruct (p x). Qed.

Lemma column_values (d : DataFrame) (c : string) (t : dtype) :
  columns d !! c = Some t ->
  getitem d c = Ok {| dtype_of := t; values := column c (rows d) |}.
Proof. unfold getitem. by intros ->. Qed.

Lemma getitem_missing (d : DataFrame) (c : string) :
  columns d !! c = None -> getitem d c = Raise (KeyError c).
Proof. unfold getitem. by intros ->. Qed.

Lemma loc_where (d : DataFrame) (p : gmap string value -> bool) :
  loc d (List.map p (rows d)) = where_ p d.
Proof. unfold loc, where_. by rewrite select_map_filter. Qed.

Section Selections.
Context {rt : Runtime}.

Lemma contains_mask (pat : pystr) (rs : list (gmap string value)) :
  List.map (fun v => match v with VStr t => contains pat t | _ => false end) (column "Method" rs)
  = List.map (method_contains pat) rs.
Proof. unfold column. rewrite List.map_map. reflexivity. Qed.

Lemma eqb_VStr (v : value) (s : pystr) : eqb v (VStr s) = true <-> v = VStr s.
Proof.
  destruct v as [t|n|f]; simpl; split; try discriminate.
  - intros Hd. apply bool_decide_eq_true in Hd. by subst.
  - intros [= ->]. by apply bool_decide_eq_true.
Qed.

Lemma isin_mask (names : list pystr) (rs : list (gmap string value)) (t : dtype) :
  isin (List.map VStr names) {| dtype_of := t; values := column "Method" rs |}
  = List.map (method_in names) rs.
Proof.
  unfold isin, column; simpl. rewrite List.map_map. apply List.map_ext. intros r.
  unfold method_in. destruct (cell r "Method") as [s|n|f].
  - induction names as [|a names IH].
    + reflexivity.
    + cbn [List.map existsb eqb]. rewrite IH. destruct (decide (s = a)) as [->|Hne].
      * rewrite (bool_decide_eq_true_2 (a = a)) by done. cbn [orb].
        symmetry. apply bool_decide_eq_true_2. apply list_elem_of_here.
      * rewrite (bool_decide_eq_false_2 (s = a)) by done. cbn [orb].
        apply bool_decide_ext. rewrite elem_of_cons. clear IH. intuition congruence.
  - induction names; simpl; auto.
  - induction names; simpl; auto.
Qed.

Lemma select_by_substring (pat : pystr) (d : DataFrame) :
  columns d !! "Method" = Some object_ ->
  (m ← getitem d "Method"; mask ← str_contains pat false m; Ok (loc d mask))
  = Ok (where_ (method_contains pat) d).
Proof.
  intros Hcol. rewrite (column_values _ _ _ Hcol). rewrite result_bind_eq.
  unfold str_contains, str_accessor. cbn [dtype_of values]. rewrite !result_bind_eq.
  rewrite contains_mask. by rewrite loc_where.
Qed.

Lemma fill_methods_rows (d : DataFrame) :
  columns d !! "Method" = Some object_ ->
  fill_methods d = Ok (where_ (method_contains (lit "Fill")) d).
Proof. apply select_by_substring. Qed.

Lemma foreach_methods_rows (d : DataFrame) :
  columns d !! "Method" = Some object_ ->
  foreach_methods d = Ok (where_ (method_contains (lit "ForEach")) d).
Proof. apply select_by_substring. Qed.

(** A Method column that is not of object dtype has no [.str]. *)
Lemma fill_methods_needs_text (d : DataFrame) (t : dtype) :
  columns d !! "Method" = Some t -> t <> object_ ->
  fill_methods d = Raise AttributeError /\ foreach_methods d = Raise AttributeError.
Proof.
  intros Hcol Ht. unfold fill_methods, foreach_methods.
  rewrite (column_values _ _ _ Hcol). unfold str_contains, str_accessor.
  cbn [mbind result_bind dtype_of]. by destruct t.
Qed.

Lemma read_methods_rows (d : DataFrame) (t : dtype) :
  columns d !! "Method" = Some t ->
  read_methods d = Ok (where_ (method_in [lit "GetRow"; lit "GetColumn"]) d).
Proof.
  intros Hcol. unfold read_methods. rewrite (column_values _ _ _ Hcol), result_bind_eq.
  change [VStr (lit "GetRow"); VStr (lit "GetColumn")]
    with (List.map VStr [lit "GetRow"; lit "GetColumn"]).
  rewrite isin_mask. by rewrite loc_where.
Qed.

Lemma allocated_data_rows (d : DataFrame) (t : dtype) :
  columns d !! "Allocated" = Some t ->
  allocated_data d = Ok (where_ allocated_present d).
Proof.
  intros Hcol. unfold allocated_data. rewrite (column_values _ _ _ Hcol), result_bind_eq.
  unfold notna, column; cbn [values]. rewrite List.map_map.
  change (List.map (fun r => negb (isna (cell r "Allocated"))) (rows d))
    with (List.map allocated_present (rows d)).
  by rewrite loc_where.
Qed.

End Selections.

(** *** The render passes as functions of the table *)

Lemma add_lines_nil (w : World) : add_lines [] w = w.
Proof. destruct w as [d [[ls sc] sv sh]]. unfold add_lines; simpl. by rewrite app_nil_r. Qed.

Lemma add_lines_app (a b : list Plt.Line) (w : World) :
  add_lines (a ++ b) w = add_lines b (add_lines a w).
Proof. unfold add_lines; simpl. by rewrite app_assoc. Qed.

(** A loop whose rounds draw lines computed from the table draws the
    lines of all rounds, or stops at the first round that raises. *)
Lemma for_lines {A} (g : A -> result (list Plt.Line)) (body : A -> M unit) (l : list A) :
  (forall x w, body x w = match g x with
                          | Ok ls => (Ok tt, add_lines ls w)
                          | Raise e => (Raise e, w)
                          end) ->
  forall w,
    match mapM g l with
    | Ok lss => for_ l body w = (Ok tt, add_lines (concat lss) w)
    | Raise e => exists ls, for_ l body w = (Raise e, add_lines ls w)
    end.
Proof.
  intros Hbody. induction l as [|x l IH]; intros w.
  - simpl. by rewrite add_lines_nil.
  - cbn [mapM for_]. rewrite run_bind, Hbody, result_bind_eq.
    destruct (g x) as [ls|e].
    + specialize (IH (add_lines ls w)). rewrite result_bind_eq.
      destruct (mapM g l) as [lss|e].
      * cbn. rewrite IH. by rewrite add_lines_app.
      * destruct IH as [ls' IH]. exists (ls ++ ls'). rewrite IH. by rewrite add_lines_app.
    + exists []. by rewrite add_lines_nil.
Qed.

Section Passes.
Context {rt : Runtime}.

Lemma timing_body (sel : DataFrame) (mk : string) (method : value) (w : World) :
  (col ← lift (getitem sel "Method");
   let data := loc sel (eq col method) in
   x ← lift (getitem data "Size");
   y ← lift (getitem data "Mean_us");
   pyplot (Plt.plot x y mk method)) w
  = match timing_series sel mk method with
    | Ok ls => (Ok tt, add_lines ls w)
    | Raise e => (Raise e, w)
    end.
Proof.
  unfold timing_series. rewrite run_lift_bind, result_bind_eq.
  destruct (getitem sel "Method") as [col|e]; [|reflexivity].
  cbv zeta. rewrite run_lift_bind, result_bind_eq.
  destruct (getitem _ "Size") as [x|e]; [|reflexivity].
  rewrite run_lift_bind, result_bind_eq.
  destruct (getitem _ "Mean_us") as [y|e]; reflexivity.
Qed.

Lemma memory_body (allocated : DataFrame) (method : value) (w : World) :
  (col ← lift (getitem allocated "Method");
   let data := loc allocated (eq col method) in
   if negb (empty data) then
     kb ← lift (allocated_kb data);
     x ← lift (getitem data "Size");
     pyplot (Plt.plot x kb "o" method)
   else mret tt) w
  = match memory_series allocated method with
    | Ok ls => (Ok tt, add_lines ls w)
    | Raise e => (Raise e, w)
    end.
Proof.
  unfold memory_series. rewrite run_lift_bind, result_bind_eq.
  destruct (getitem allocated "Method") as [col|e]; [|reflexivity].
  cbv zeta. destruct (negb (empty _)).
  - rewrite run_lift_bind, result_bind_eq.
    destruct (allocated_kb _) as [kb|e]; [|reflexivity].
    rewrite run_lift_bind, result_bind_eq.
    destruct (getitem _ "Size") as [x|e]; reflexivity.
  - cbn. by rewrite add_lines_nil.
Qed.

(** The three timing charts run the same statements. *)
Lemma timing_pass_outcome (select : DataFrame -> result DataFrame)
    (mk name : string) (w : World) :
  pass_outcome name Plt.log (select (df w) ≫= timing_lines mk) w
    ((d ← get_df;
      sel ← lift (select d);
      pyplot Plt.figure;;
      methods ← lift (getitem sel "Method");
      for_ (unique methods) (fun method =>
        col ← lift (getitem sel "Method");
        let data := loc sel (eq col method) in
        x ← lift (getitem data "Size");
        y ← lift (getitem data "Mean_us");
        pyplot (Plt.plot x y mk method));;
      pyplot (Plt.set_yscale Plt.log);;
      pyplot (Plt.savefig name);;
      pyplot Plt.show) w).
Proof.
  unfold pass_outcome. rewrite run_get_df_bind, run_lift_bind, result_bind_eq.
  destruct (select (df w)) as [sel|e]; [|by repeat split].
  match goal with
  | |- context [for_ _ ?b] =>
      pose proof (fun l => for_lines (timing_series sel mk) b l (timing_body sel mk)) as Hloop
  end.
  rewrite run_pyplot_bind. unfold timing_lines. rewrite run_lift_bind, result_bind_eq.
  destruct (getitem sel "Method") as [methods|e]; [|by repeat split].
  rewrite run_bind, result_bind_eq.
  specialize (Hloop (unique methods) {| df := df w; plt := Plt.figure (plt w) |}).
  destruct (mapM _ _) as [lss|e].
  - rewrite Hloop. reflexivity.
  - destruct Hloop as [ls ->]. by repeat split.
Qed.

Lemma graph1_outcome (w : World) :
  pass_outcome "fill_comparison.png" Plt.log (fill_lines (df w)) w (graph1 w).
Proof. apply (timing_pass_outcome fill_methods). Qed.

Lemma graph2_outcome (w : World) :
  pass_outcome "foreach_comparison.png" Plt.log (foreach_lines (df w)) w (graph2 w).
Proof. apply (timing_pass_outcome foreach_methods). Qed.

Lemma graph3_outcome (w : World) :
  pass_outcome "read_operations.png" Plt.log (read_lines (df w)) w (graph3 w).
Proof. apply (timing_pass_outcome read_methods). Qed.

Lemma graph4_outcome (w : World) :
  pass_outcome "memory_allocation.png" Plt.linear (memory_lines (df w)) w (graph4 w).
Proof.
  unfold graph4, memory_lines, pass_outcome.
  rewrite run_get_df_bind, run_lift_bind, result_bind_eq.
  destruct (allocated_data (df w)) as [a|e]; [|by repeat split].
  rewrite run_get_df_bind, run_lift_bind, result_bind_eq.
  destruct (fill_methods (df w)) as [sel|e]; [|by repeat split].
  match goal with
  | |- context [for_ _ ?b] =>
      pose proof (fun l => for_lines (memory_series a) b l (memory_body a)) as Hloop
  end.
  rewrite run_pyplot_bind, run_lift_bind, result_bind_eq.
  destruct (getitem sel "Method") as [methods|e]; [|by repeat split].
  rewrite run_bind, result_bind_eq.
  specialize (Hloop (unique methods) {| df := df w; plt := Plt.figure (plt w) |}).
  destruct (mapM _ _) as [lss|e].
  - rewrite Hloop. reflexivity.
  - destruct Hloop as [ls ->]. by repeat split.
Qed.

End Passes.

(** *** The memory chart, row by row *)

Section Memory.
Context {rt : Runtime}.

Lemma eq_mask (rs : list (gmap string value)) (t : dtype) (method : value) :
  eq {| dtype_of := t; values := column "Method" rs |} method = List.map (method_is method) rs.
Proof. unfold eq, column; cbn [values]. by rewrite List.map_map. Qed.

Lemma empty_where (p : gmap string value -> bool) (d : DataFrame) (c : string) (t : dtype) :
  columns d !! c = Some t ->
  empty (where_ p d) = match List.filter p (rows d) with [] => true | _ => false end.
Proof.
  intros Hcol. unfold empty, where_; cbn [rows columns].
  destruct (List.filter p (rows d)) as [|r rs].
  - apply bool_decide_eq_true_2. by left.
  - apply bool_decide_eq_false_2. intros [Hr|Hc]; [discriminate|].
    rewrite Hc in Hcol. by rewrite lookup_empty in Hcol.
Qed.

(** The chain of column operations of [allocated_kb] is [kilobytes] on
    every cell. *)
Lemma astype_truediv (vs : list value) :
  match mapM float_new
          (List.map (fun v => match v with
                              | VStr t => VStr (replace (lit ",") [] t)
                              | _ => NaN
                              end)
             (List.map (fun v => match v with
                                 | VStr t => VStr (replace (lit " B") [] t)
                                 | _ => NaN
                                 end) vs)) with
  | Ok fs => Ok (truediv fs 1024)
  | Raise e => Raise e
  end = mapM kilobytes vs.
Proof.
  induction vs as [|v vs IH]; [reflexivity|].
  cbn [List.map mapM]. rewrite <- IH.
  destruct v as [s|n|f]; cbn [float_new kilobytes NaN]; unfold remove_separators;
    try destruct (float_of_str _) as [x|]; try reflexivity;
    cbn [mbind result_bind];
    destruct (mapM _ _) as [fs|e]; reflexivity.
Qed.

Lemma allocated_kb_rows (d : DataFrame) :
  columns d !! "Allocated" = Some object_ ->
  allocated_kb d =
  match mapM (fun r => kilobytes (cell r "Allocated")) (rows d) with
  | Ok kb => Ok (float64_series kb)
  | Raise e => Raise e
  end.
Proof.
  intros Hcol. unfold allocated_kb. rewrite (column_values _ _ _ Hcol), result_bind_eq.
  unfold str_replace, str_accessor. cbn [dtype_of values]. rewrite !result_bind_eq.
  cbn [dtype_of values]. rewrite !result_bind_eq.
  unfold astype_float. cbn [values].
  rewrite <- (mapM_result_map (fun r => cell r "Allocated") kilobytes).
  fold (column "Allocated" (rows d)). rewrite <- astype_truediv.
  destruct (mapM _ _) as [fs|e]; reflexivity.
Qed.

Lemma memory_series_rows (d : DataFrame) (tS : dtype) (p : gmap string value -> bool)
    (method : value) :
  columns d !! "Method" = Some object_ ->
  columns d !! "Allocated" = Some object_ ->
  columns d !! "Size" = Some tS ->
  memory_series (where_ p d) method = memory_series_of (List.filter p (rows d)) method.
Proof.
  intros HM HA HS. unfold memory_series, memory_series_of.
  rewrite (column_values (where_ p d) _ _ HM). cbn [mbind result_bind]. cbv zeta.
  cbn [rows where_]. rewrite eq_mask.
  change (loc (where_ p d) (List.map (method_is method) (List.filter p (rows d))))
    with (loc (where_ p d) (List.map (method_is method) (rows (where_ p d)))).
  rewrite loc_where. rewrite (empty_where _ (where_ p d) _ _ HM). cbn [rows where_].
  destruct (List.filter (method_is method) (List.filter p (rows d))) as [|r rs] eqn:Hdata;
    [reflexivity|].
  cbn [negb]. rewrite allocated_kb_rows by exact HA. cbn [rows where_]. rewrite Hdata.
  destruct (mapM _ (r :: rs)) as [kb|e]; [|reflexivity].
  rewrite (column_values (where_ (method_is method) (where_ p d)) _ _ HS).
  cbn [rows where_]. rewrite Hdata. reflexivity.
Qed.

Lemma memory_lines_view (d : DataFrame) (tS : dtype) :
  columns d !! "Method" = Some object_ ->
  columns d !! "Allocated" = Some object_ ->
  columns d !! "Size" = Some tS ->
  memory_lines d = memory_view (rows d).
Proof.
  intros HM HA HS. unfold memory_lines, memory_view.
  rewrite (allocated_data_rows _ _ HA), result_bind_eq.
  rewrite (fill_methods_rows _ HM), result_bind_eq.
  rewrite (column_values (where_ _ d) _ _ HM), result_bind_eq.
  unfold unique. cbn [values rows where_].
  rewrite (mapM_result_ext _ (memory_series_of (List.filter allocated_present (rows d))));
    [reflexivity|].
  intros m _. by apply (memory_series_rows d tS).
Qed.

End Memory.

(** *** The timing normalizer *)

Section Normalizer.
Context {rt : Runtime}.

(** The branches of [convert_to_us] are those of the unit detection. *)
Lemma convert_to_us_branches (s : pystr) :
  convert_to_us (VStr s) =
  match float_of_str (numeric_text s) with
  | Some x => Ok (to_microseconds (detect_unit (strip s)) x)
  | None => Raise ValueError
  end.
Proof.
  unfold convert_to_us, numeric_text, detect_unit, remove_separators.
  cbn [str float_new].
  destruct (contains (lit "ns") (strip s)).
  - cbn [strip_unit to_microseconds].
    destruct (float_of_str _); reflexivity.
  - destruct (contains (lit "us") (strip s) || contains mu_s (strip s)).
    + cbn [strip_unit to_microseconds]. destruct (float_of_str _); reflexivity.
    + destruct (contains (lit "ms") (strip s)).
      * cbn [strip_unit to_microseconds].
        destruct (float_of_str _); reflexivity.
      * cbn [strip_unit to_microseconds]. destruct (float_of_str _); reflexivity.
Qed.

Lemma float_of_int_1 : float_of_int 1 = S754_finite false 4503599627370496 (-52).
Proof. reflexivity. Qed.

(** C2. convert("1000ns") == 1.0, convert("1us") == 1.0,
    convert("1ms") == 1000.0, convert("1,234us") == 1234.0 and
    convert("500") == 500.0. *)
Theorem convert_to_us_examples :
  convert_to_us (VStr (lit "1000ns")) = Ok (float_of_int 1)
  /\ convert_to_us (VStr (lit "1us")) = Ok (float_of_int 1)
  /\ convert_to_us (VStr (lit "1ms")) = Ok (float_of_int 1000)
  /\ convert_to_us (VStr (lit "1,234us")) = Ok (float_of_int 1234)
  /\ convert_to_us (VStr (lit "500")) = Ok (float_of_int 500).
Proof. repeat split; vm_compute; reflexivity. Qed.

(** C6. Normalization of a Mean string raises (a ValueError, the
    specification's FormatError) exactly when the text left after the unit
    and the "," are removed is not a valid number; when it is a number,
    normalization returns. *)
Theorem convert_to_us_fails_iff (mean : pystr) :
  (forall e, convert_to_us (VStr mean) = Raise e
             <-> e = ValueError /\ float_of_str (numeric_text mean) = None)
  /\ (forall x, float_of_str (numeric_text mean) = Some x ->
                convert_to_us (VStr mean) = Ok (to_microseconds (detect_unit (strip mean)) x)).
Proof.
  rewrite convert_to_us_branches. split.
  - intros e. destruct (float_of_str (numeric_text mean)) as [x|].
    + split; [discriminate|]. intros [_ ?]; discriminate.
    + split; [intros [= <-]; by split|]. by intros [-> _].
  - intros x ->. reflexivity.
Qed.

(** *** The normalization pass *)

Lemma mapM_result_Ok {A B} (f : A -> result B) (l : list A) :
  (forall a, a ∈ l -> exists b, f a = Ok b) ->
  exists k, mapM f l = Ok k /\ Forall2 (fun a b => f a = Ok b) l k.
Proof.
  induction l as [|a l IH]; intros Hf.
  - exists []. by split.
  - destruct (Hf a) as [b Hb]; [apply list_elem_of_here|].
    destruct IH as (k & Hk & Hall); [intros c Hc; apply Hf; by apply list_elem_of_further|].
    exists (b :: k). split; [|by constructor].
    cbn [mapM]. rewrite Hb. cbn [mbind result_bind]. rewrite Hk. reflexivity.
Qed.

Lemma zip_with_map_r {A B C D} (f : A -> C -> D) (g : B -> C) (l : list A) (k : list B) :
  zip_with f l (List.map g k) = zip_with (fun a b => f a (g b)) l k.
Proof.
  revert k. induction l as [|a l IH]; intros [|b k]; cbn; [reflexivity..|]. by rewrite IH.
Qed.

Lemma add_Mean_us_run (w : World) (t : dtype) :
  columns (df w) !! "Mean" = Some t ->
  add_Mean_us w =
  match mapM (fun r => convert_to_us (cell r "Mean")) (rows (df w)) with
  | Ok vs =>
      (Ok tt,
       {| df := {| columns := <["Mean_us" := apply_dtype t (rows (df w))]> (columns (df w));
                   rows := zip_with (fun r v => <["Mean_us" := VFloat v]> r) (rows (df w)) vs |};
          plt := plt w |})
  | Raise e => (Raise e, w)
  end.
Proof.
  intros Hcol. unfold add_Mean_us.
  rewrite run_get_df_bind, run_lift_bind, (column_values _ _ _ Hcol), run_lift_bind.
  unfold apply. cbn [values dtype_of]. unfold column. rewrite mapM_result_map.
  destruct (mapM _ _) as [vs|e] eqn:Hvs; cbn [mbind result_bind]; [|reflexivity].
  rewrite run_lift_bind. unfold setitem. cbn [values dtype_of].
  rewrite length_map, (mapM_result_length _ _ _ Hvs), Nat.eqb_refl.
  rewrite zip_with_map_r. by destruct (rows (df w)).
Qed.

Lemma add_Mean_us_missing (w : World) :
  columns (df w) !! "Mean" = None ->
  add_Mean_us w = (Raise (KeyError "Mean"), w).
Proof.
  intros Hcol. unfold add_Mean_us.
  rewrite run_get_df_bind, run_lift_bind. by rewrite getitem_missing.
Qed.

(** C10. A missing Mean cell (NaN) does not make the normalizer raise:
    [str] gives "nan", which [float] reads as NaN; the normalization pass
    returns and the row gets a NaN [Mean_us]. *)
Theorem missing_Mean_gives_NaN :
  str NaN = lit "nan" /\ float_of_str (lit "nan") = Some nan /\ convert_to_us NaN = Ok nan
  /\ forall w t,
       columns (df w) !! "Mean" = Some t ->
       (forall r, r ∈ rows (df w) -> cell r "Mean" <> NaN ->
                  exists x, convert_to_us (cell r "Mean") = Ok x) ->
       exists w', add_Mean_us w = (Ok tt, w')
         /\ length (rows (df w')) = length (rows (df w))
         /\ forall i r, rows (df w) !! i = Some r -> cell r "Mean" = NaN ->
              exists r', rows (df w') !! i = Some r' /\ r' !! "Mean_us" = Some NaN.
Proof.
  assert (Hnan : convert_to_us NaN = Ok nan) by (vm_compute; reflexivity).
  split; [reflexivity|]. split; [vm_compute; reflexivity|]. split; [exact Hnan|].
  intros w t Hcol Hrest.
  rewrite (add_Mean_us_run _ _ Hcol).
  destruct (mapM_result_Ok (fun r => convert_to_us (cell r "Mean")) (rows (df w)))
    as (vs & -> & Hall).
  { intros r Hr. destruct (decide (cell r "Mean" = NaN)) as [->|Hne].
    - rewrite Hnan. by eexists.
    - by apply Hrest. }
  eexists. split; [reflexivity|]. cbn [df rows].
  pose proof (Forall2_length _ _ _ Hall) as Hlen.
  split.
  - rewrite length_zip_with. lia.
  - intros i r Hi Hmiss.
    destruct (Forall2_lookup_l _ _ _ _ _ Hall Hi) as (v & Hv & Hconv).
    exists (<["Mean_us" := VFloat v]> r). split.
    + rewrite lookup_zip_with. rewrite Hi. cbn. rewrite Hv. reflexivity.
    + rewrite lookup_insert_eq. rewrite Hmiss, Hnan in Hconv. by injection Hconv as <-.
Qed.

End Normalizer.

(** *** The selections *)

Section SelectionClaims.
Context {rt : Runtime}.

Lemma elem_of_filter_bool {A} (p : A -> bool) (l : list A) (x : A) :
  x ∈ List.filter p l <-> x ∈ l /\ p x = true.
Proof. rewrite !list_elem_of_In. apply List.filter_In. Qed.

Lemma method_in_spec (names : list pystr) (r : gmap string value) :
  method_in names r = true <-> exists s, cell r "Method" = VStr s /\ s ∈ names.
Proof.
  unfold method_in. destruct (cell r "Method") as [s|n|f].
  - rewrite bool_decide_eq_true. split; [intros Hs; by exists s|].
    intros (s' & [= <-] & Hs). exact Hs.
  - split; [discriminate|]. intros (s & ? & _); discriminate.
  - split; [discriminate|]. intros (s & ? & _); discriminate.
Qed.

Lemma method_contains_spec (pat : pystr) (r : gmap string value) :
  method_contains pat r = true <-> exists s, cell r "Method" = VStr s /\ contains pat s = true.
Proof.
  unfold method_contains. destruct (cell r "Method") as [s|n|f].
  - split; [intros Hs; by exists s|]. intros (s' & [= <-] & Hs). exact Hs.
  - split; [discriminate|]. intros (s & ? & _); discriminate.
  - split; [discriminate|]. intros (s & ? & _); discriminate.
Qed.

(** C4. The read-operations selection is exactly the rows whose Method
    is "GetRow" or "GetColumn", by equality and not by substring; a row
    whose Method is "GetRowFast" is not selected. *)
Theorem read_methods_exact (d : DataFrame) (t : dtype) :
  columns d !! "Method" = Some t ->
  read_methods d = Ok (where_ (method_in [lit "GetRow"; lit "GetColumn"]) d)
  /\ (forall r, r ∈ rows (where_ (method_in [lit "GetRow"; lit "GetColumn"]) d)
                <-> r ∈ rows d /\ (cell r "Method" = VStr (lit "GetRow")
                                   \/ cell r "Method" = VStr (lit "GetColumn")))
  /\ (forall sel r, read_methods d = Ok sel ->
                    cell r "Method" = VStr (lit "GetRowFast") -> r ∉ rows sel).
Proof.
  intros Hcol. pose proof (read_methods_rows d t Hcol) as Hsel.
  assert (Hin : forall r, method_in [lit "GetRow"; lit "GetColumn"] r = true
                          <-> cell r "Method" = VStr (lit "GetRow")
                              \/ cell r "Method" = VStr (lit "GetColumn")).
  { intros r. rewrite method_in_spec. split.
    - intros (s & Hs & Hmem). rewrite !elem_of_cons in Hmem.
      destruct Hmem as [->| [->|Hnil]]; auto. by apply not_elem_of_nil in Hnil.
    - intros [Hs|Hs]; eexists; (split; [exact Hs|]); rewrite !elem_of_cons; auto. }
  split; [exact Hsel|]. split.
  - intros r. cbn [rows where_]. rewrite elem_of_filter_bool, Hin. reflexivity.
  - intros sel r Hr Hfast Hmem. rewrite Hsel in Hr. injection Hr as <-.
    cbn [rows where_] in Hmem. apply elem_of_filter_bool in Hmem as [_ Hm].
    apply Hin in Hm. rewrite Hfast in Hm. destruct Hm as [Hm|Hm]; vm_compute in Hm; discriminate.
Qed.

(** C5. On a text Method column the Fill selection is exactly the rows
    whose Method is a text that contains "Fill", compared code point by
    code point; rows without a Method are left out. The ForEach selection
    is the same with "ForEach". (On a Method column of another dtype the
    selections raise: [fill_methods_needs_text].) *)
Theorem fill_foreach_methods_exact (d : DataFrame) :
  columns d !! "Method" = Some object_ ->
  fill_methods d = Ok (where_ (method_contains (lit "Fill")) d)
  /\ foreach_methods d = Ok (where_ (method_contains (lit "ForEach")) d)
  /\ (forall pat r, r ∈ rows (where_ (method_contains pat) d)
        <-> r ∈ rows d /\ exists s, cell r "Method" = VStr s /\ contains pat s = true)
  /\ (forall pat s, contains pat s = true <-> exists a b, s = a ++ pat ++ b)
  /\ (forall pat r, cell r "Method" = NaN -> r ∉ rows (where_ (method_contains pat) d))
  /\ contains (lit "Fill") (lit "fill_100") = false.
Proof.
  intros Hcol.
  split; [by apply fill_methods_rows|]. split; [by apply foreach_methods_rows|].
  split; [|split; [exact contains_spec|split; [|reflexivity]]].
  - intros pat r. cbn [rows where_]. by rewrite elem_of_filter_bool, method_contains_spec.
  - intros pat r Hmiss Hmem. cbn [rows where_] in Hmem.
    apply elem_of_filter_bool in Hmem as [_ Hm]. unfold method_contains in Hm.
    rewrite Hmiss in Hm. discriminate.
Qed.

End SelectionClaims.

(** *** What the passes leave *)

Lemma pass_outcome_Ok (name : string) (sc : Plt.scale) (r : result (list Plt.Line))
    (w w' : World) :
  pass_outcome name sc r w (Ok tt, w') ->
  exists ls, r = Ok ls /\ w' = finished name {| Plt.lines := ls; Plt.yscale := sc |} w.
Proof.
  unfold pass_outcome. destruct r as [ls|e].
  - intros [= ->]. by exists ls.
  - intros [? _]; discriminate.
Qed.

Lemma pass_outcome_lines (name : string) (sc : Plt.scale) (r : result (list Plt.Line))
    (w : World) (out : result unit * World) (ls : list Plt.Line) :
  pass_outcome name sc r w out -> r = Ok ls ->
  out = (Ok tt, finished name {| Plt.lines := ls; Plt.yscale := sc |} w).
Proof. intros Hout ->. exact Hout. Qed.

Lemma pass_outcome_df (name : string) (sc : Plt.scale) (r : result (list Plt.Line))
    (w : World) (out : result unit * World) :
  pass_outcome name sc r w out -> df out.2 = df w.
Proof.
  unfold pass_outcome. destruct r as [ls|e].
  - intros ->. reflexivity.
  - intros (_ & Hdf & _). exact Hdf.
Qed.

Section Charts.
Context {rt : Runtime}.

Lemma unique_from_elem (seen l : list value) (v : value) :
  v ∈ unique_from seen l -> v ∈ l.
Proof.
  revert seen. induction l as [|x l IH]; intros seen; cbn [unique_from].
  - intros Hv. by apply not_elem_of_nil in Hv.
  - destruct (existsb _ seen).
    + intros Hv. apply list_elem_of_further. by eapply IH.
    + rewrite !elem_of_cons. intros [->|Hv]; [by left|]. right. by eapply IH.
Qed.

Lemma mapM_all_nil {A B} (g : A -> result (list B)) (l : list A) :
  (forall x, x ∈ l -> g x = Ok []) ->
  (lss ← mapM g l; Ok (concat lss)) = Ok [].
Proof.
  induction l as [|x l IH]; intros Hg; [reflexivity|].
  cbn [mapM]. rewrite Hg by apply list_elem_of_here. cbn [mbind result_bind].
  assert (IH' : (lss ← mapM g l; Ok (concat lss)) = Ok []).
  { apply IH. intros y Hy. apply Hg. by apply list_elem_of_further. }
  cbn [mbind result_bind] in IH'. destruct (mapM g l) as [lss|e]; [|discriminate].
  cbn [mret result_ret]. cbn [concat app]. exact IH'.
Qed.

(** A selection without rows has no method to draw. *)
Lemma timing_lines_no_rows (mk : string) (p : gmap string value -> bool) (d : DataFrame)
    (t : dtype) :
  columns d !! "Method" = Some t ->
  List.filter p (rows d) = [] ->
  timing_lines mk (where_ p d) = Ok [].
Proof.
  intros Hcol Hnone. unfold timing_lines.
  rewrite (column_values (where_ p d) _ _ Hcol). cbn [rows where_]. rewrite Hnone.
  reflexivity.
Qed.

Lemma method_is_contains (pat : pystr) (r r0 : gmap string value) :
  method_contains pat r0 = true -> method_is (cell r0 "Method") r = true ->
  method_contains pat r = true.
Proof.
  unfold method_contains, method_is. destruct (cell r0 "Method") as [s|n|f]; try discriminate.
  intros Hs Heq. apply eqb_VStr in Heq. by rewrite Heq.
Qed.

(** No row with a Fill method and an allocation: no series. *)
Lemma memory_lines_no_rows (d : DataFrame) (tA : dtype) :
  columns d !! "Method" = Some object_ ->
  columns d !! "Allocated" = Some tA ->
  List.filter (fun r => method_contains (lit "Fill") r && allocated_present r) (rows d) = [] ->
  memory_lines d = Ok [].
Proof.
  intros HM HA Hnone. unfold memory_lines.
  rewrite (allocated_data_rows _ _ HA). cbn [mbind result_bind].
  rewrite (fill_methods_rows _ HM). cbn [mbind result_bind].
  rewrite (column_values (where_ _ d) _ _ HM). cbn [mbind result_bind].
  unfold unique. cbn [values rows where_].
  apply mapM_all_nil. intros m Hm. apply unique_from_elem in Hm.
  unfold column in Hm. apply list_elem_of_In, List.in_map_iff in Hm as (r0 & <- & Hr0).
  apply List.filter_In in Hr0 as [_ Hfill].
  unfold memory_series.
  rewrite (column_values (where_ allocated_present d) _ _ HM). cbn [mbind result_bind].
  cbv zeta. cbn [rows where_]. rewrite eq_mask.
  change (loc (where_ allocated_present d)
            (List.map (method_is (cell r0 "Method")) (List.filter allocated_present (rows d))))
    with (loc (where_ allocated_present d)
            (List.map (method_is (cell r0 "Method")) (rows (where_ allocated_present d)))).
  rewrite loc_where, (empty_where _ (where_ allocated_present d) _ _ HM). cbn [rows where_].
  destruct (List.filter _ (List.filter allocated_present (rows d))) as [|r rs] eqn:Hdata;
    [reflexivity|].
  exfalso.
  assert (Hr : List.In r (List.filter (method_is (cell r0 "Method"))
                            (List.filter allocated_present (rows d))))
    by (rewrite Hdata; by left).
  apply List.filter_In in Hr as [Hr Hsame]. apply List.filter_In in Hr as [Hr Hpresent].
  assert (Hboth : List.In r (List.filter (fun r => method_contains (lit "Fill") r
                                                   && allocated_present r) (rows d))).
  { apply List.filter_In. split; [exact Hr|].
    by rewrite (method_is_contains _ _ _ Hfill Hsame), Hpresent. }
  by rewrite Hnone in Hboth.
Qed.

(** C3. The memory view keeps the rows whose Allocated is present; for
    each method that contains "Fill" it takes the rows of that method
    among them, draws no series when there is none, and else plots per
    row the Allocated text without " B" and without ",", read as a float
    and divided by 1024; "2,048 B" is 2.0 kilobytes. *)
Theorem memory_allocation_view :
  (forall w tS,
     columns (df w) !! "Method" = Some object_ ->
     columns (df w) !! "Allocated" = Some object_ ->
     columns (df w) !! "Size" = Some tS ->
     allocated_data (df w) = Ok (where_ allocated_present (df w))
     /\ (forall ls, memory_view (rows (df w)) = Ok ls ->
           graph4 w = (Ok tt, finished "memory_allocation.png"
                                {| Plt.lines := ls; Plt.yscale := Plt.linear |} w))
     /\ (forall e, memory_view (rows (df w)) = Raise e -> (graph4 w).1 = Raise e))
  /\ (forall body, contains (lit " B") body = false ->
        kilobytes (VStr (body ++ lit " B")) =
        match float_of_str (remove_separators body) with
        | Some x => Ok (float_div x (float_of_int 1024))
        | None => Raise ValueError
        end)
  /\ kilobytes (VStr (lit "2,048 B")) = Ok (float_of_int 2).
Proof.
  split; [|split].
  - intros w tS HM HA HS. pose proof (graph4_outcome w) as Hout.
    rewrite (memory_lines_view _ _ HM HA HS) in Hout.
    split; [by apply (allocated_data_rows _ object_)|]. split.
    + intros ls Hls. by apply (pass_outcome_lines _ _ _ _ _ _ Hout).
    + intros e He. rewrite He in Hout. by destruct Hout.
  - intros body Hbody. cbn [kilobytes]. by rewrite replace_B_suffix.
  - vm_compute. reflexivity.
Qed.

(** C8. On a table with a Method column, a pass whose filter matches no
    row draws no series and returns: it saves and shows a chart without
    lines. The Fill, ForEach and memory passes need the Method column to
    be text, the memory pass an Allocated column as well; the read pass
    takes a Method column of any dtype. *)
Theorem no_matching_rows_no_series (w : World) :
  (columns (df w) !! "Method" = Some object_ ->
   (List.filter (method_contains (lit "Fill")) (rows (df w)) = [] ->
    graph1 w = (Ok tt, finished "fill_comparison.png"
                         {| Plt.lines := []; Plt.yscale := Plt.log |} w))
   /\ (List.filter (method_contains (lit "ForEach")) (rows (df w)) = [] ->
       graph2 w = (Ok tt, finished "foreach_comparison.png"
                            {| Plt.lines := []; Plt.yscale := Plt.log |} w))
   /\ (forall tA, columns (df w) !! "Allocated" = Some tA ->
       List.filter (fun r => method_contains (lit "Fill") r && allocated_present r)
         (rows (df w)) = [] ->
       graph4 w = (Ok tt, finished "memory_allocation.png"
                            {| Plt.lines := []; Plt.yscale := Plt.linear |} w)))
  /\ (forall t, columns (df w) !! "Method" = Some t ->
      List.filter (method_in [lit "GetRow"; lit "GetColumn"]) (rows (df w)) = [] ->
      graph3 w = (Ok tt, finished "read_operations.png"
                           {| Plt.lines := []; Plt.yscale := Plt.log |} w)).
Proof.
  split.
  - intros HM. repeat split; [intros Hnone..|intros tA HA Hnone].
    + apply (pass_outcome_lines _ _ _ _ _ _ (graph1_outcome w)).
      unfold fill_lines. rewrite (fill_methods_rows _ HM). cbn [mbind result_bind].
      by apply (timing_lines_no_rows _ _ _ object_).
    + apply (pass_outcome_lines _ _ _ _ _ _ (graph2_outcome w)).
      unfold foreach_lines. rewrite (foreach_methods_rows _ HM). cbn [mbind result_bind].
      by apply (timing_lines_no_rows _ _ _ object_).
    + apply (pass_outcome_lines _ _ _ _ _ _ (graph4_outcome w)).
      by apply (memory_lines_no_rows _ tA).
  - intros t HM Hnone.
    apply (pass_outcome_lines _ _ _ _ _ _ (graph3_outcome w)).
    unfold read_lines. rewrite (read_methods_rows _ _ HM). cbn [mbind result_bind].
    by apply (timing_lines_no_rows _ _ _ t).
Qed.

End Charts.

(** *** The passes only read the table *)

Section ReadOnly.
Context {rt : Runtime}.

Lemma passes_render (p : M unit) :
  p ∈ passes -> exists c, c ∈ charts /\ renders p c.
Proof.
  unfold passes, charts. rewrite !elem_of_cons.
  intros [->|[->|[->|[->|Hnil]]]].
  - eexists. split; [apply list_elem_of_here|]. exact graph1_outcome.
  - eexists. split; [apply list_elem_of_further, list_elem_of_here|]. exact graph2_outcome.
  - eexists. split; [do 2 apply list_elem_of_further; apply list_elem_of_here|].
    exact graph3_outcome.
  - eexists. split; [do 3 apply list_elem_of_further; apply list_elem_of_here|].
    exact graph4_outcome.
  - by apply not_elem_of_nil in Hnil.
Qed.

Lemma charts_artifact_inj (c c' : chart) :
  c ∈ charts -> c' ∈ charts -> artifact c = artifact c' -> c = c'.
Proof.
  unfold charts. rewrite !elem_of_cons.
  intros [->|[->|[->|[->|Hnil]]]] [->|[->|[->|[->|Hnil']]]]; cbn [artifact];
    try discriminate; try reflexivity;
    intros _; exfalso; eapply not_elem_of_nil; eassumption.
Qed.

(** A pass that returns in one world returns in every world with the same
    table, and adds the same file. *)
Lemma renders_step (p : M unit) (c : chart) (w w' wa : World) :
  renders p c -> df w = df w' -> p w = (Ok tt, wa) ->
  exists ls, lines_of c (df w) = Ok ls
    /\ wa = finished (artifact c) {| Plt.lines := ls; Plt.yscale := axis c |} w
    /\ p w' = (Ok tt, finished (artifact c) {| Plt.lines := ls; Plt.yscale := axis c |} w').
Proof.
  intros Hp Hdf Hrun. pose proof (Hp w) as Hw. rewrite Hrun in Hw.
  apply pass_outcome_Ok in Hw as (ls & Hls & ->).
  exists ls. split; [exact Hls|]. split; [reflexivity|].
  apply (pass_outcome_lines _ _ _ _ _ _ (Hp w')). by rewrite <- Hdf.
Qed.

Lemma run_passes_cons (p : M unit) (l : list (M unit)) (w w1 : World) :
  run_passes (p :: l) w = (Ok tt, w1) ->
  exists wa, p w = (Ok tt, wa) /\ run_passes l wa = (Ok tt, w1).
Proof.
  cbn [run_passes]. rewrite run_bind.
  destruct (p w) as [[[]|e] wa]; [|discriminate]. intros Hl. by exists wa.
Qed.

Lemma run_passes_cons_Ok (p : M unit) (l : list (M unit)) (w wa : World) :
  p w = (Ok tt, wa) -> run_passes (p :: l) w = run_passes l wa.
Proof. intros Hp. cbn [run_passes]. by rewrite run_bind, Hp. Qed.

Lemma same_data_finished (name : string) (fig : Plt.Figure) (w w' : World) :
  same_data w w' -> same_data (finished name fig w) (finished name fig w').
Proof. intros [Hdf Hsaved]. split; cbn; [exact Hdf|]. by rewrite Hsaved. Qed.

Lemma run_passes_same_data (l : list (M unit)) :
  Forall (fun p => p ∈ passes) l ->
  forall w w' w1, same_data w w' -> run_passes l w = (Ok tt, w1) ->
    exists w2, run_passes l w' = (Ok tt, w2) /\ same_data w1 w2.
Proof.
  induction 1 as [|p l Hp Hl IH]; intros w w' w1 Hsame Hrun.
  - injection Hrun as <-. by exists w'.
  - apply run_passes_cons in Hrun as (wa & Hpw & Hrest).
    destruct (passes_render p Hp) as (c & _ & Hc).
    destruct (renders_step p c w w' wa Hc (proj1 Hsame) Hpw) as (ls & _ & -> & Hpw').
    rewrite (run_passes_cons_Ok _ _ _ _ Hpw').
    eapply IH; [|exact Hrest]. by apply same_data_finished.
Qed.

Lemma run_passes_perm (l l' : list (M unit)) :
  l ≡ₚ l' -> Forall (fun p => p ∈ passes) l ->
  forall w w' w1, same_data w w' -> run_passes l w = (Ok tt, w1) ->
    exists w2, run_passes l' w' = (Ok tt, w2) /\ same_data w1 w2.
Proof.
  induction 1 as [|p l l' Hperm IH|p q l|l l' l'' Hperm1 IH1 Hperm2 IH2];
    intros Hall w w' w1 Hsame Hrun.
  - by apply (run_passes_same_data [] Hall w w' w1).
  - apply Forall_cons in Hall as [Hp Hl].
    apply run_passes_cons in Hrun as (wa & Hpw & Hrest).
    destruct (passes_render p Hp) as (c & _ & Hc).
    destruct (renders_step p c w w' wa Hc (proj1 Hsame) Hpw) as (ls & _ & -> & Hpw').
    rewrite (run_passes_cons_Ok _ _ _ _ Hpw').
    eapply IH; [exact Hl| |exact Hrest]. by apply same_data_finished.
  - apply Forall_cons in Hall as [Hq Hall]. apply Forall_cons in Hall as [Hp Hl].
    apply run_passes_cons in Hrun as (wa & Hqw & Hrun).
    apply run_passes_cons in Hrun as (wb & Hpw & Hrest).
    destruct (passes_render p Hp) as (cp & Hcp & Hrp).
    destruct (passes_render q Hq) as (cq & Hcq & Hrq).
    destruct (renders_step q cq w w' wa Hrq (proj1 Hsame) Hqw) as (lq & Hlq & -> & Hqw').
    destruct (renders_step p cp (finished (artifact cq)
                {| Plt.lines := lq; Plt.yscale := axis cq |} w) w' wb Hrp (proj1 Hsame) Hpw)
      as (lp & Hlp & -> & Hpw').
    cbn [df finished] in Hlp.
    rewrite (run_passes_cons_Ok _ _ _ _ Hpw').
    destruct (renders_step q cq w (finished (artifact cp)
                {| Plt.lines := lp; Plt.yscale := axis cp |} w') _ Hrq (proj1 Hsame) Hqw)
      as (lq' & Hlq' & _ & Hqw'').
    rewrite Hlq in Hlq'. injection Hlq' as <-.
    rewrite (run_passes_cons_Ok _ _ _ _ Hqw'').
    eapply (run_passes_same_data l Hl); [|exact Hrest].
    destruct Hsame as [Hdf Hsaved]. split; cbn; [exact Hdf|]. rewrite Hsaved.
    destruct (decide (artifact cp = artifact cq)) as [Heq|Hne].
    + pose proof (charts_artifact_inj _ _ Hcp Hcq Heq) as ->.
      rewrite Hlq in Hlp. by injection Hlp as <-.
    + by apply insert_insert_ne.
  - destruct (IH1 Hall w w w1) as (w2 & Hrun2 & Hsame2); [done|exact Hrun|].
    assert (Hall' : Forall (fun p => p ∈ passes) l') by (by rewrite <- Hperm1).
    destruct (IH2 Hall' w w' w2 Hsame Hrun2) as (w3 & Hrun3 & Hsame3).
    exists w3. split; [exact Hrun3|].
    destruct Hsame2 as [? ?], Hsame3 as [? ?]. split; congruence.
Qed.

Lemma run_passes_df (l : list (M unit)) :
  Forall (fun p => p ∈ passes) l ->
  forall w w1, run_passes l w = (Ok tt, w1) -> df w1 = df w.
Proof.
  induction 1 as [|p l Hp Hl IH]; intros w w1 Hrun.
  - by injection Hrun as <-.
  - apply run_passes_cons in Hrun as (wa & Hpw & Hrest).
    destruct (passes_render p Hp) as (c & _ & Hc).
    rewrite (IH _ _ Hrest). pose proof (pass_outcome_df _ _ _ _ _ (Hc w)) as Hdf.
    by rewrite Hpw in Hdf.
Qed.

(** After the normalization pass the body leaves the table as it is. *)
Lemma body_df (w : World) : df (body w).2 = df (add_Mean_us w).2.
Proof.
  unfold body. rewrite run_bind.
  destruct (add_Mean_us w) as [[[]|e] w1]; [|reflexivity]. cbn [snd].
  rewrite run_bind. pose proof (pass_outcome_df _ _ _ _ _ (graph1_outcome w1)) as H1.
  destruct (graph1 w1) as [[[]|e] w2]; cbn [snd] in H1 |- *; [|exact H1].
  rewrite run_bind. pose proof (pass_outcome_df _ _ _ _ _ (graph2_outcome w2)) as H2.
  destruct (graph2 w2) as [[[]|e] w3]; cbn [snd] in H2 |- *; [|congruence].
  rewrite run_bind. pose proof (pass_outcome_df _ _ _ _ _ (graph3_outcome w3)) as H3.
  destruct (graph3 w3) as [[[]|e] w4]; cbn [snd] in H3 |- *; [|congruence].
  pose proof (pass_outcome_df _ _ _ _ _ (graph4_outcome w4)) as H4. congruence.
Qed.

(** C9. After the normalization pass the table is only read: no render
    pass changes it, whether it returns or raises, the module body ends
    with the table the normalization left, and passes run in any order
    leave the same table and the same files. *)
Theorem render_passes_read_only :
  (forall p w, p ∈ passes -> df (p w).2 = df w)
  /\ (forall w, df (body w).2 = df (add_Mean_us w).2)
  /\ (forall l l' w w1,
        Forall (fun p => p ∈ passes) l -> l ≡ₚ l' ->
        run_passes l w = (Ok tt, w1) ->
        exists w2, run_passes l' w = (Ok tt, w2)
          /\ df w1 = df w /\ df w2 = df w
          /\ Plt.saved (plt w2) = Plt.saved (plt w1)).
Proof.
  split; [|split].
  - intros p w Hp. destruct (passes_render p Hp) as (c & _ & Hc).
    apply (pass_outcome_df _ _ _ _ _ (Hc w)).
  - exact body_df.
  - intros l l' w w1 Hall Hperm Hrun.
    destruct (run_passes_perm l l' Hperm Hall w w w1) as (w2 & Hrun2 & Hdf & Hsaved);
      [done|exact Hrun|].
    exists w2. pose proof (run_passes_df l Hall _ _ Hrun) as Hdf1.
    split; [exact Hrun2|]. split; [exact Hdf1|]. split; [congruence|]. by symmetry.
Qed.

End ReadOnly.

(** *** Loading the report *)

Section Load.
Context {rt : Runtime}.

Lemma timing_lines_Ok_Method (mk : string) (select : DataFrame -> result DataFrame)
    (d : DataFrame) (ls : list Plt.Line) :
  (forall sel, select d = Ok sel -> is_Some (columns d !! "Method")) ->
  select d ≫= timing_lines mk = Ok ls -> is_Some (columns d !! "Method").
Proof.
  intros Hsel. cbn [mbind result_bind]. destruct (select d) as [sel|e]; [|discriminate].
  intros _. by apply (Hsel sel).
Qed.

Lemma fill_methods_Ok_Method (d sel : DataFrame) :
  fill_methods d = Ok sel -> is_Some (columns d !! "Method").
Proof.
  unfold fill_methods, getitem. destruct (columns d !! "Method"); [by eexists|discriminate].
Qed.

Lemma memory_lines_Ok_Allocated (d : DataFrame) (ls : list Plt.Line) :
  memory_lines d = Ok ls -> is_Some (columns d !! "Allocated").
Proof.
  unfold memory_lines, allocated_data, getitem.
  destruct (columns d !! "Allocated"); [by eexists|discriminate].
Qed.

(** A body that returns has found Mean, Method and Allocated, and leaves
    the loaded rows, in their order, with their [Mean_us]. *)
Lemma body_Ok (w w' : World) :
  body w = (Ok tt, w') ->
  is_Some (columns (df w) !! "Mean") /\ is_Some (columns (df w) !! "Method")
  /\ is_Some (columns (df w) !! "Allocated")
  /\ exists vs, Forall2 (fun r v => convert_to_us (cell r "Mean") = Ok v)
                  (rows (df w)) vs
       /\ rows (df w') = zip_with (fun r v => <["Mean_us" := VFloat v]> r) (rows (df w)) vs.
Proof.
  unfold body. rewrite run_bind.
  destruct (columns (df w) !! "Mean") as [t|] eqn:HMean;
    [|rewrite add_Mean_us_missing by exact HMean; discriminate].
  rewrite (add_Mean_us_run _ _ HMean).
  destruct (mapM _ _) as [vs|e] eqn:Hvs; [|discriminate].
  set (w1 := {| df := _; plt := plt w |}).
  rewrite run_bind. pose proof (graph1_outcome w1) as H1.
  destruct (graph1 w1) as [[[]|e] w2]; [|discriminate].
  apply pass_outcome_Ok in H1 as (l1 & Hl1 & ->).
  rewrite run_bind. pose proof (graph2_outcome (finished "fill_comparison.png"
    {| Plt.lines := l1; Plt.yscale := Plt.log |} w1)) as H2.
  destruct (graph2 _) as [[[]|e] w3]; [|discriminate].
  apply pass_outcome_Ok in H2 as (l2 & Hl2 & ->).
  rewrite run_bind.
  match goal with |- context [graph3 ?w0] => pose proof (graph3_outcome w0) as H3 end.
  destruct (graph3 _) as [[[]|e] w4]; [|discriminate].
  apply pass_outcome_Ok in H3 as (l3 & Hl3 & ->).
  match goal with |- context [graph4 ?w0] => pose proof (graph4_outcome w0) as H4 end.
  intros Hrun. rewrite Hrun in H4.
  apply pass_outcome_Ok in H4 as (l4 & Hl4 & ->).
  cbn [df finished] in Hl4. cbn [df finished].
  apply (timing_lines_Ok_Method _ _ _ _ (fill_methods_Ok_Method _)) in Hl1.
  apply memory_lines_Ok_Allocated in Hl4.
  subst w1. cbn [df columns] in Hl1, Hl4.
  rewrite lookup_insert_ne in Hl1 by done. rewrite lookup_insert_ne in Hl4 by done.
  split; [by eexists|]. split; [exact Hl1|]. split; [exact Hl4|].
  exists vs. split; [|reflexivity].
  clear -Hvs. revert vs Hvs. induction (rows (df w)) as [|r rs IH]; intros vs.
  - intros [= <-]. constructor.
  - cbn [mapM]. destruct (convert_to_us (cell r "Mean")) as [v|e] eqn:Hv;
      [|discriminate].
    cbn [mbind result_bind]. destruct (mapM _ rs) as [vs'|e]; [|discriminate].
    intros [= <-]. constructor; [exact Hv|]. by apply IH.
Qed.

(** C7, as the script has it. The load raises when the path has no file
    and checks no header. A header without Mean, Method or Allocated makes
    the run raise when the column is first asked for: for Mean a KeyError
    before anything is drawn. A run that returns has the loaded rows, in
    file order, each with its [Mean_us]. *)
Theorem load_report_outcomes (fs : gmap string DataFrame) :
  (fs !! report_csv = None -> main fs = NotLoaded FileNotFoundError)
  /\ (forall d, fs !! report_csv = Some d ->
        read_csv fs report_csv = Ok d
        /\ (columns d !! "Mean" = None ->
            main fs = Ran (Raise (KeyError "Mean")) {| df := d; plt := Plt.initial |})
        /\ (columns d !! "Mean" = None \/ columns d !! "Method" = None
            \/ columns d !! "Allocated" = None ->
            exists e w, main fs = Ran (Raise e) w)
        /\ (forall w, main fs = Ran (Ok tt) w ->
              exists vs,
                Forall2 (fun r v => convert_to_us (cell r "Mean") = Ok v) (rows d) vs
                /\ rows (df w) = zip_with (fun r v => <["Mean_us" := VFloat v]> r) (rows d) vs)).
Proof.
  unfold main, read_csv. split.
  - intros ->. reflexivity.
  - intros d ->. split; [reflexivity|].
    set (w0 := {| df := d; plt := Plt.initial |}).
    split; [|split].
    + intros HMean. unfold body. rewrite run_bind.
      rewrite add_Mean_us_missing by exact HMean. reflexivity.
    + intros Hmissing. destruct (body w0) as [[[]|e] w] eqn:Hbody; [|by exists e, w].
      apply body_Ok in Hbody as ([? HM] & [? HMe] & [? HA] & _). cbn [df w0] in *.
      destruct Hmissing as [Hn|[Hn|Hn]]; congruence.
    + intros w. destruct (body w0) as [[[]|e] w'] eqn:Hbody; [|discriminate].
      intros [= <-]. by apply body_Ok in Hbody as (_ & _ & _ & Hrows).
Qed.

End Load.

(** ** More of the script *)

(** *** The timing charts, row by row *)

Lemma mapM_singletons {A B} (g : A -> B) (f : A -> result (list B)) (l : list A) :
  (forall a, a ∈ l -> f a = Ok [g a]) ->
  (lss ← mapM f l; Ok (concat lss)) = Ok (List.map g l).
Proof.
  induction l as [|a l IH]; intros Hf; [reflexivity|].
  cbn [mapM]. rewrite Hf by apply list_elem_of_here. cbn [mbind result_bind].
  assert (IH' : (lss ← mapM f l; Ok (concat lss)) = Ok (List.map g l)).
  { apply IH. intros b Hb. apply Hf. by apply list_elem_of_further. }
  cbn [mbind result_bind] in IH'. destruct (mapM f l) as [lss|e]; [|discriminate].
  injection IH' as IH'. cbn. by rewrite IH'.
Qed.

Section TimingCharts.
Context {rt : Runtime}.

Lemma timing_lines_view (mk : string) (p : gmap string value -> bool) (d : DataFrame)
    (tM tS tU : dtype) :
  columns d !! "Method" = Some tM ->
  columns d !! "Size" = Some tS ->
  columns d !! "Mean_us" = Some tU ->
  timing_lines mk (where_ p d) = Ok (timing_view p mk (rows d)).
Proof.
  intros HM HS HU. unfold timing_lines, timing_view.
  rewrite (column_values (where_ p d) _ _ HM). cbn [mbind result_bind].
  unfold unique. cbn [values rows where_]. cbv zeta.
  apply mapM_singletons. intros m _. unfold timing_series.
  rewrite (column_values (where_ p d) _ _ HM). cbn [mbind result_bind]. cbv zeta.
  cbn [rows where_]. rewrite eq_mask.
  change (loc (where_ p d) (List.map (method_is m) (List.filter p (rows d))))
    with (loc (where_ p d) (List.map (method_is m) (rows (where_ p d)))).
  rewrite loc_where.
  rewrite (column_values (where_ (method_is m) (where_ p d)) _ _ HS).
  cbn [mbind result_bind].
  rewrite (column_values (where_ (method_is m) (where_ p d)) _ _ HU).
  reflexivity.
Qed.

Lemma fill_lines_view (d : DataFrame) (tS tU : dtype) :
  columns d !! "Method" = Some object_ ->
  columns d !! "Size" = Some tS ->
  columns d !! "Mean_us" = Some tU ->
  fill_lines d = Ok (timing_view (method_contains (lit "Fill")) "o" (rows d)).
Proof.
  intros HM HS HU. unfold fill_lines. rewrite (fill_methods_rows _ HM).
  cbn [mbind result_bind]. by apply (timing_lines_view _ _ _ object_ tS tU).
Qed.

Lemma foreach_lines_view (d : DataFrame) (tS tU : dtype) :
  columns d !! "Method" = Some object_ ->
  columns d !! "Size" = Some tS ->
  columns d !! "Mean_us" = Some tU ->
  foreach_lines d = Ok (timing_view (method_contains (lit "ForEach")) "s" (rows d)).
Proof.
  intros HM HS HU. unfold foreach_lines. rewrite (foreach_methods_rows _ HM).
  cbn [mbind result_bind]. by apply (timing_lines_view _ _ _ object_ tS tU).
Qed.

Lemma read_lines_view (d : DataFrame) (tM tS tU : dtype) :
  columns d !! "Method" = Some tM ->
  columns d !! "Size" = Some tS ->
  columns d !! "Mean_us" = Some tU ->
  read_lines d = Ok (timing_view (method_in [lit "GetRow"; lit "GetColumn"]) "^" (rows d)).
Proof.
  intros HM HS HU. unfold read_lines. rewrite (read_methods_rows _ _ HM).
  cbn [mbind result_bind]. by apply (timing_lines_view _ _ _ tM tS tU).
Qed.

(** X1. On a table with a text Method column, a Size and a Mean_us
    column, the three timing passes cannot raise: each saves, under its
    file name and with a logarithmic Y axis, one series per distinct
    Method of its selection, in the order of first appearance, holding the
    (Size, Mean_us) pairs of the rows of that method in row order. *)
Theorem timing_charts_view (w : World) (tS tU : dtype) :
  columns (df w) !! "Method" = Some object_ ->
  columns (df w) !! "Size" = Some tS ->
  columns (df w) !! "Mean_us" = Some tU ->
  graph1 w = (Ok tt, finished "fill_comparison.png"
                (chart_of Plt.log (timing_view (method_contains (lit "Fill")) "o"
                                     (rows (df w)))) w)
  /\ graph2 w = (Ok tt, finished "foreach_comparison.png"
                   (chart_of Plt.log (timing_view (method_contains (lit "ForEach")) "s"
                                        (rows (df w)))) w)
  /\ graph3 w = (Ok tt, finished "read_operations.png"
                   (chart_of Plt.log (timing_view (method_in [lit "GetRow"; lit "GetColumn"])
                                        "^" (rows (df w)))) w).
Proof.
  intros HM HS HU. split; [|split].
  - apply (pass_outcome_lines _ _ _ _ _ _ (graph1_outcome w)).
    by apply (fill_lines_view _ tS tU).
  - apply (pass_outcome_lines _ _ _ _ _ _ (graph2_outcome w)).
    by apply (foreach_lines_view _ tS tU).
  - apply (pass_outcome_lines _ _ _ _ _ _ (graph3_outcome w)).
    by apply (read_lines_view _ object_ tS tU).
Qed.

End TimingCharts.

(** *** Grouping by method *)

Section Grouping.
Context {rt : Runtime}.

Lemma SFeqb_refl (f : float) : f <> S754_nan -> SFeqb f f = true.
Proof.
  intros Hf. destruct f as [s|s| |s m e]; try done; try by destruct s.
  unfold SFeqb, SFcompare. rewrite Z.compare_refl, Pos.compare_cont_refl. by destruct s.
Qed.

Lemma same_key_refl (v : value) : same_key v v = true.
Proof.
  unfold same_key. destruct v as [s|n|f]; cbn [eqb isna].
  - by rewrite bool_decide_eq_true_2.
  - by rewrite Z.eqb_refl.
  - destruct (decide (f = S754_nan)) as [->|Hf]; [reflexivity|].
    by rewrite SFeqb_refl.
Qed.

Lemma same_key_VStr (s : pystr) (u : value) : same_key (VStr s) u = true <-> u = VStr s.
Proof.
  unfold same_key. cbn [isna]. rewrite andb_false_l, orb_false_r.
  destruct u as [t|n|f]; cbn [eqb]; [|split; discriminate..].
  rewrite bool_decide_eq_true. split; congruence.
Qed.

Lemma unique_from_fresh (seen l : list value) (v : value) :
  v ∈ unique_from seen l -> existsb (same_key v) seen = false.
Proof.
  revert seen. induction l as [|a l IH]; intros seen; cbn [unique_from].
  - by intros ?%elem_of_nil.
  - destruct (existsb (same_key a) seen) eqn:Ha; [apply IH|].
    intros [->|Hv]%elem_of_cons; [exact Ha|].
    apply IH in Hv. cbn [existsb] in Hv. by apply orb_false_elim in Hv as [_ ?].
Qed.

Lemma unique_from_NoDup (seen l : list value) : NoDup (unique_from seen l).
Proof.
  revert seen. induction l as [|a l IH]; intros seen; cbn [unique_from]; [constructor|].
  destruct (existsb (same_key a) seen); [apply IH|].
  constructor; [|apply IH].
  intros Ha%unique_from_fresh. cbn [existsb] in Ha. by rewrite same_key_refl in Ha.
Qed.

Lemma unique_from_text (seen l : list value) (s : pystr) :
  VStr s ∈ l -> existsb (same_key (VStr s)) seen = true \/ VStr s ∈ unique_from seen l.
Proof.
  revert seen. induction l as [|a l IH]; intros seen; [by intros ?%elem_of_nil|].
  cbn [unique_from]. intros [<-|Hs]%elem_of_cons.
  - destruct (existsb _ seen); [by left|right; apply list_elem_of_here].
  - destruct (existsb (same_key a) seen) eqn:Ha; [by apply IH|].
    destruct (IH (a :: seen) Hs) as [Hseen|Hin]; [|right; by apply list_elem_of_further].
    cbn [existsb] in Hseen. apply orb_true_iff in Hseen as [->%same_key_VStr|Hseen];
      [right; apply list_elem_of_here|by left].
Qed.

Lemma method_is_text (s : pystr) (r : gmap string value) :
  method_is (VStr s) r = true <-> cell r "Method" = VStr s.
Proof. unfold method_is. apply eqb_VStr. Qed.

(** The rows of [l], grouped by the distinct methods [ms], are the rows of
    [l] with a method of [ms]. *)
Lemma groups_perm (ms : list value) (l : list (gmap string value)) :
  NoDup ms -> (forall m, m ∈ ms -> exists s, m = VStr s) ->
  flat_map (fun m => List.filter (method_is m) l) ms
  ≡ₚ List.filter (fun r => bool_decide (cell r "Method" ∈ ms)) l.
Proof.
  induction 1 as [|m ms Hm Hms IH]; intros Htext; cbn [flat_map].
  - induction l as [|r l IHl]; [reflexivity|]. cbn [List.filter].
    rewrite bool_decide_eq_false_2 by apply not_elem_of_nil. exact IHl.
  - rewrite IH by (intros m' Hm'; apply Htext; by apply list_elem_of_further).
    destruct (Htext m) as [s ->]; [apply list_elem_of_here|].
    clear IH Htext. induction l as [|r l IHl]; [reflexivity|]. cbn [List.filter].
    destruct (method_is (VStr s) r) eqn:Hr.
    + apply method_is_text in Hr.
      rewrite (bool_decide_eq_false_2 (cell r "Method" ∈ ms)) by (by rewrite Hr).
      rewrite (bool_decide_eq_true_2 (cell r "Method" ∈ VStr s :: ms))
        by (rewrite Hr; apply list_elem_of_here).
      cbn [app]. by rewrite IHl.
    + assert (Hne : cell r "Method" <> VStr s).
      { intros Heq. apply method_is_text in Heq. congruence. }
      destruct (decide (cell r "Method" ∈ ms)) as [Hin|Hout].
      * rewrite (bool_decide_eq_true_2 _ Hin).
        rewrite (bool_decide_eq_true_2 (cell r "Method" ∈ VStr s :: ms))
          by (by apply list_elem_of_further).
        rewrite <- Permutation_middle. by rewrite IHl.
      * rewrite (bool_decide_eq_false_2 _ Hout).
        rewrite (bool_decide_eq_false_2 (cell r "Method" ∈ VStr s :: ms))
          by (intros [?|?]%elem_of_cons; done).
        exact IHl.
Qed.

Lemma filter_bool_ext {A} (p q : A -> bool) (l : list A) :
  (forall a, a ∈ l -> p a = q a) -> List.filter p l = List.filter q l.
Proof.
  induction l as [|a l IH]; intros Hpq; [reflexivity|]. cbn [List.filter].
  rewrite (Hpq a) by apply list_elem_of_here.
  rewrite IH by (intros b Hb; apply Hpq; by apply list_elem_of_further). reflexivity.
Qed.

Lemma filter_bool_all {A} (p : A -> bool) (l : list A) :
  (forall a, a ∈ l -> p a = true) -> List.filter p l = l.
Proof.
  induction l as [|a l IH]; intros Hp; [reflexivity|]. cbn [List.filter].
  rewrite (Hp a) by apply list_elem_of_here.
  rewrite IH by (intros b Hb; apply Hp; by apply list_elem_of_further). reflexivity.
Qed.

Lemma elem_of_column (c : string) (rs : list (gmap string value)) (v : value) :
  v ∈ column c rs <-> exists r, r ∈ rs /\ cell r c = v.
Proof.
  unfold column. rewrite list_elem_of_In, in_map_iff.
  split; intros (r & H1 & H2); exists r; split; try done; by apply list_elem_of_In.
Qed.

(** The rows of a selection by text methods, grouped by their distinct
    methods, are the rows of the selection. *)
Lemma groups_of_selection (sel : list (gmap string value)) :
  (forall r, r ∈ sel -> exists s, cell r "Method" = VStr s) ->
  flat_map (fun m => List.filter (method_is m) sel) (unique_from [] (column "Method" sel))
  ≡ₚ sel.
Proof.
  intros Htext. rewrite groups_perm.
  - rewrite filter_bool_all; [reflexivity|]. intros r Hr. apply bool_decide_eq_true.
    destruct (Htext r Hr) as [s Hs]. rewrite Hs.
    destruct (unique_from_text [] (column "Method" sel) s) as [?|?]; [|done..].
    apply elem_of_column. by exists r.
  - apply unique_from_NoDup.
  - intros m (r & Hr & <-)%unique_from_elem%elem_of_column. by apply Htext.
Qed.

Lemma zip_columns (a b : string) (rs : list (gmap string value)) :
  zip (column a rs) (column b rs) = List.map (fun r => (cell r a, cell r b)) rs.
Proof. induction rs as [|r rs IH]; [reflexivity|]. cbn. by rewrite <- IH. Qed.

Lemma plotted_timing_view (p : gmap string value -> bool) (mk : string)
    (rs : list (gmap string value)) :
  (forall r, r ∈ rs -> p r = true -> exists s, cell r "Method" = VStr s) ->
  plotted (timing_view p mk rs)
  = List.map measurement
      (flat_map (fun m => List.filter (method_is m) (List.filter p rs))
         (unique_from [] (column "Method" (List.filter p rs)))).
Proof.
  intros Htext. unfold plotted, timing_view. cbv zeta.
  assert (Hms : forall m, m ∈ unique_from [] (column "Method" (List.filter p rs)) ->
                          exists s, m = VStr s).
  { intros m (r & [Hr Hp]%elem_of_filter_bool & <-)%unique_from_elem%elem_of_column.
    by apply Htext. }
  induction (unique_from [] (column "Method" (List.filter p rs))) as [|m ms IH];
    [reflexivity|].
  cbn [List.map flat_map]. rewrite List.map_app.
  rewrite IH by (intros m' Hm'; apply Hms; by apply list_elem_of_further). f_equal.
  cbn [Plt.xdata Plt.ydata Plt.label]. rewrite zip_columns, List.map_map.
  destruct (Hms m) as [s ->]; [apply list_elem_of_here|].
  apply List.map_ext_in. intros r [_ Hr%method_is_text]%List.filter_In.
  unfold measurement. cbn [fst snd]. by rewrite Hr.
Qed.

Lemma timing_view_each_once (p : gmap string value -> bool) (mk : string)
    (rs : list (gmap string value)) :
  (forall r, r ∈ rs -> p r = true -> exists s, cell r "Method" = VStr s) ->
  NoDup (List.map Plt.label (timing_view p mk rs))
  /\ plotted (timing_view p mk rs) ≡ₚ List.map measurement (List.filter p rs)
  /\ well_formed_series (timing_view p mk rs).
Proof.
  intros Htext. split; [|split].
  - unfold timing_view. cbv zeta. rewrite List.map_map. cbn [Plt.label].
    rewrite List.map_id. apply unique_from_NoDup.
  - rewrite plotted_timing_view by exact Htext. apply Permutation_map.
    apply groups_of_selection. intros r [Hr Hp]%elem_of_filter_bool. by apply Htext.
  - unfold well_formed_series, timing_view. cbv zeta. apply Forall_forall.
    intros ln (m & <- & Hm)%list_elem_of_In%in_map_iff. cbn [Plt.xdata Plt.ydata].
    split; [|unfold column; by rewrite !length_map].
    apply list_elem_of_In, unique_from_elem, elem_of_column in Hm as (r & Hr & <-).
    pose proof Hr as [Hr' Hp]%elem_of_filter_bool.
    destruct (Htext r Hr' Hp) as [s Hs].
    assert (Hin : r ∈ List.filter (method_is (cell r "Method")) (List.filter p rs)).
    { apply elem_of_filter_bool. split; [exact Hr|]. rewrite Hs. by apply method_is_text. }
    destruct (List.filter _ (List.filter p rs)); [by apply elem_of_nil in Hin|done].
Qed.

End Grouping.

(** *** What a timing pass needs *)

Section TimingNeeds.
Context {rt : Runtime}.

Lemma mapM_result_first {A B} (f : A -> result B) (a : A) (l : list A) (e : exn) :
  f a = Raise e -> mapM f (a :: l) = Raise e.
Proof. intros Ha. cbn [mapM]. by rewrite Ha. Qed.

Lemma unique_from_nil_cons (v : value) (l : list value) :
  unique_from [] (v :: l) = v :: unique_from [v] l.
Proof. reflexivity. Qed.

(** With a row selected, the first round of the loop asks for Size, then
    for Mean_us. *)
Lemma timing_lines_missing (mk : string) (p : gmap string value -> bool) (d : DataFrame)
    (tM : dtype) :
  columns d !! "Method" = Some tM ->
  List.filter p (rows d) <> [] ->
  (columns d !! "Size" = None -> timing_lines mk (where_ p d) = Raise (KeyError "Size"))
  /\ (forall tS, columns d !! "Size" = Some tS -> columns d !! "Mean_us" = None ->
        timing_lines mk (where_ p d) = Raise (KeyError "Mean_us")).
Proof.
  intros HM Hsel. unfold timing_lines.
  rewrite (column_values (where_ p d) _ _ HM). cbn [mbind result_bind].
  unfold unique. cbn [values rows where_].
  destruct (List.filter p (rows d)) as [|r0 sel] eqn:Hf; [done|].
  change (column "Method" (r0 :: sel)) with (cell r0 "Method" :: column "Method" sel).
  rewrite unique_from_nil_cons.
  assert (Hser : forall m,
    timing_series (where_ p d) mk m
    = (x ← getitem (where_ (method_is m) (where_ p d)) "Size";
       y ← getitem (where_ (method_is m) (where_ p d)) "Mean_us";
       Ok [line_of mk m x y])).
  { intros m. unfold timing_series.
    rewrite (column_values (where_ p d) _ _ HM). cbn [mbind result_bind]. cbv zeta.
    rewrite eq_mask, loc_where. reflexivity. }
  split.
  - intros HS. erewrite mapM_result_first; [reflexivity|].
    rewrite Hser. by rewrite (getitem_missing (where_ _ (where_ p d)) "Size").
  - intros tS HS HU. erewrite mapM_result_first; [reflexivity|].
    rewrite Hser. rewrite (column_values (where_ _ (where_ p d)) _ _ HS).
    cbn [mbind result_bind].
    by rewrite (getitem_missing (where_ _ (where_ p d)) "Mean_us").
Qed.

Lemma timing_view_no_rows (p : gmap string value -> bool) (mk : string)
    (rs : list (gmap string value)) :
  List.filter p rs = [] -> timing_view p mk rs = [].
Proof. intros Hf. unfold timing_view. by rewrite Hf. Qed.

(** Whatever the columns, the lines of a timing pass that returns are
    those of [timing_view]. *)
Lemma timing_lines_Ok_view (mk : string) (p : gmap string value -> bool) (d : DataFrame)
    (ls : list Plt.Line) :
  timing_lines mk (where_ p d) = Ok ls -> ls = timing_view p mk (rows d).
Proof.
  destruct (columns d !! "Method") as [tM|] eqn:HM.
  2:{ unfold timing_lines. by rewrite (getitem_missing (where_ p d) "Method"). }
  destruct (List.filter p (rows d)) as [|r0 sel] eqn:Hf.
  - rewrite (timing_lines_no_rows mk p d tM HM Hf), (timing_view_no_rows p mk _ Hf).
    congruence.
  - assert (Hne : List.filter p (rows d) <> []) by (by rewrite Hf).
    destruct (timing_lines_missing mk p d tM HM Hne) as [HnoS HnoU].
    destruct (columns d !! "Size") as [tS|] eqn:HS; [|rewrite HnoS; done].
    destruct (columns d !! "Mean_us") as [tU|] eqn:HU; [|rewrite (HnoU tS); done].
    rewrite (timing_lines_view mk p d tM tS tU HM HS HU). congruence.
Qed.

Lemma fill_methods_Ok_text (d sel : DataFrame) :
  fill_methods d = Ok sel -> columns d !! "Method" = Some object_.
Proof.
  intros Hsel. destruct (columns d !! "Method") as [t|] eqn:HM.
  - destruct t; [done|..];
      (destruct (fill_methods_needs_text d _ HM) as [Hraise _]; [done|congruence]).
  - unfold fill_methods in Hsel. by rewrite getitem_missing in Hsel.
Qed.

Lemma foreach_methods_Ok_text (d sel : DataFrame) :
  foreach_methods d = Ok sel -> columns d !! "Method" = Some object_.
Proof.
  intros Hsel. destruct (columns d !! "Method") as [t|] eqn:HM.
  - destruct t; [done|..];
      (destruct (fill_methods_needs_text d _ HM) as [_ Hraise]; [done|congruence]).
  - unfold foreach_methods in Hsel. by rewrite getitem_missing in Hsel.
Qed.

Lemma fill_lines_Ok_view (d : DataFrame) (ls : list Plt.Line) :
  fill_lines d = Ok ls -> ls = timing_view (method_contains (lit "Fill")) "o" (rows d).
Proof.
  unfold fill_lines. destruct (fill_methods d) as [sel|e] eqn:Hsel; [|discriminate].
  pose proof (fill_methods_Ok_text _ _ Hsel) as HM.
  rewrite (fill_methods_rows _ HM) in Hsel. injection Hsel as <-.
  cbn [mbind result_bind]. apply timing_lines_Ok_view.
Qed.

Lemma foreach_lines_Ok_view (d : DataFrame) (ls : list Plt.Line) :
  foreach_lines d = Ok ls -> ls = timing_view (method_contains (lit "ForEach")) "s" (rows d).
Proof.
  unfold foreach_lines. destruct (foreach_methods d) as [sel|e] eqn:Hsel; [|discriminate].
  pose proof (foreach_methods_Ok_text _ _ Hsel) as HM.
  rewrite (foreach_methods_rows _ HM) in Hsel. injection Hsel as <-.
  cbn [mbind result_bind]. apply timing_lines_Ok_view.
Qed.

Lemma read_lines_Ok_view (d : DataFrame) (ls : list Plt.Line) :
  read_lines d = Ok ls
  -> ls = timing_view (method_in [lit "GetRow"; lit "GetColumn"]) "^" (rows d).
Proof.
  unfold read_lines. destruct (columns d !! "Method") as [t|] eqn:HM.
  - rewrite (read_methods_rows _ _ HM). cbn [mbind result_bind]. apply timing_lines_Ok_view.
  - unfold read_methods. by rewrite getitem_missing.
Qed.

Lemma finished_saved (name : string) (fig : Plt.Figure) (w : World) :
  Plt.saved (plt (finished name fig w)) !! name = Some fig.
Proof. cbn [finished plt Plt.saved]. apply lookup_insert_eq. Qed.

Lemma plots_each_once_view (p : gmap string value -> bool) (mk name : string) (w : World) :
  (forall r, p r = true -> exists s, cell r "Method" = VStr s) ->
  plots_each_once p name w
    (finished name (chart_of Plt.log (timing_view p mk (rows (df w)))) w).
Proof.
  intros Htext. eexists. split; [apply finished_saved|]. cbn [Plt.lines chart_of].
  apply timing_view_each_once. intros r _. apply Htext.
Qed.

Lemma method_contains_text (pat : pystr) (r : gmap string value) :
  method_contains pat r = true -> exists s, cell r "Method" = VStr s.
Proof. intros (s & Hs & _)%method_contains_spec. by exists s. Qed.

Lemma method_in_text (names : list pystr) (r : gmap string value) :
  method_in names r = true -> exists s, cell r "Method" = VStr s.
Proof. intros (s & Hs & _)%method_in_spec. by exists s. Qed.

(** X2. A timing pass that returns has saved a chart whose series have
    distinct labels, are drawn from at least one row each with as many
    sizes as times, and plot every selected measurement exactly once,
    under its own method. *)
Theorem timing_charts_plot_each_row_once (w w' : World) :
  (graph1 w = (Ok tt, w') ->
   plots_each_once (method_contains (lit "Fill")) "fill_comparison.png" w w')
  /\ (graph2 w = (Ok tt, w') ->
      plots_each_once (method_contains (lit "ForEach")) "foreach_comparison.png" w w')
  /\ (graph3 w = (Ok tt, w') ->
      plots_each_once (method_in [lit "GetRow"; lit "GetColumn"]) "read_operations.png" w w').
Proof.
  split; [|split]; intros Hrun.
  - pose proof (graph1_outcome w) as Hout. rewrite Hrun in Hout.
    apply pass_outcome_Ok in Hout as (ls & ->%fill_lines_Ok_view & ->).
    apply plots_each_once_view, method_contains_text.
  - pose proof (graph2_outcome w) as Hout. rewrite Hrun in Hout.
    apply pass_outcome_Ok in Hout as (ls & ->%foreach_lines_Ok_view & ->).
    apply plots_each_once_view, method_contains_text.
  - pose proof (graph3_outcome w) as Hout. rewrite Hrun in Hout.
    apply pass_outcome_Ok in Hout as (ls & ->%read_lines_Ok_view & ->).
    apply plots_each_once_view, method_in_text.
Qed.

End TimingNeeds.

(** *** The run, chart by chart *)

Section Run.
Context {rt : Runtime}.

Lemma passes_charts : Forall2 renders passes charts.
Proof.
  repeat constructor; intros w;
    [apply graph1_outcome|apply graph2_outcome|apply graph3_outcome|apply graph4_outcome].
Qed.

(** Passes that render the charts [cs] save the files of [draw cs], show
    their figures in order, and end as [draw cs] ends. *)
Lemma run_passes_draw (ps : list (M unit)) (cs : list chart) :
  Forall2 renders ps cs ->
  forall w, exists w',
    run_passes ps w = ((draw cs (df w)).2, w')
    /\ df w' = df w
    /\ Plt.saved (plt w') = files_after (draw cs (df w)).1 (Plt.saved (plt w))
    /\ Plt.shown (plt w') = Plt.shown (plt w) ++ List.map snd (draw cs (df w)).1.
Proof.
  induction 1 as [|p c ps cs Hp _ IH]; intros w.
  - exists w. cbn. by rewrite app_nil_r.
  - cbn [run_passes draw]. rewrite run_bind. specialize (Hp w). unfold pass_outcome in Hp.
    destruct (lines_of c (df w)) as [ls|e] eqn:Hls.
    + rewrite Hp.
      destruct (IH (finished (artifact c) {| Plt.lines := ls; Plt.yscale := axis c |} w))
        as (w' & Hrun & Hdf & Hsaved & Hshown).
      cbn [df finished] in Hrun, Hdf, Hsaved, Hshown. cbn [plt Plt.saved Plt.shown] in *.
      exists w'. destruct (draw cs (df w)) as [figs r]. cbn [fst snd] in *.
      split; [exact Hrun|]. split; [exact Hdf|]. split; [exact Hsaved|].
      rewrite Hshown. cbn [List.map snd finished plt Plt.shown]. by rewrite <- app_assoc.
    + destruct (p w) as [r0 w0]. cbn [fst snd] in Hp. destruct Hp as (-> & Hdf & Hsaved & Hshown).
      exists w0. cbn [fst snd files_after fold_left List.map]. by rewrite app_nil_r.
Qed.

Lemma run_passes_body (w : World) :
  body w = (add_Mean_us;; run_passes passes) w.
Proof.
  unfold body, passes. cbn [run_passes]. rewrite !run_bind.
  destruct (add_Mean_us w) as [[[]|e] w1]; [|reflexivity].
  rewrite !run_bind. destruct (graph1 w1) as [[[]|e] w2]; [|reflexivity].
  rewrite !run_bind. destruct (graph2 w2) as [[[]|e] w3]; [|reflexivity].
  rewrite !run_bind. destruct (graph3 w3) as [[[]|e] w4]; [|reflexivity].
  rewrite !run_bind. by destruct (graph4 w4) as [[[]|e] w5].
Qed.

Lemma add_Mean_us_normalized (w : World) (t : dtype) (vs : list float) :
  columns (df w) !! "Mean" = Some t ->
  mapM (fun r => convert_to_us (cell r "Mean")) (rows (df w)) = Ok vs ->
  add_Mean_us w = (Ok tt, {| df := normalized (df w) vs; plt := plt w |}).
Proof.
  intros HM Hvs. rewrite (add_Mean_us_run w t HM), Hvs.
  unfold normalized, Mean_us_dtype. by rewrite HM.
Qed.

(** The body on a table whose times convert: the charts are drawn from
    the normalized table. *)
Lemma body_draw (w : World) (t : dtype) (vs : list float) :
  columns (df w) !! "Mean" = Some t ->
  mapM (fun r => convert_to_us (cell r "Mean")) (rows (df w)) = Ok vs ->
  exists w',
    body w = ((draw charts (normalized (df w) vs)).2, w')
    /\ df w' = normalized (df w) vs
    /\ Plt.saved (plt w')
       = files_after (draw charts (normalized (df w) vs)).1 (Plt.saved (plt w))
    /\ Plt.shown (plt w')
       = Plt.shown (plt w) ++ List.map snd (draw charts (normalized (df w) vs)).1.
Proof.
  intros HM Hvs. rewrite run_passes_body, run_bind.
  rewrite (add_Mean_us_normalized w t vs HM Hvs).
  apply (run_passes_draw passes charts passes_charts
           {| df := normalized (df w) vs; plt := plt w |}).
Qed.

Lemma main_body (fs : gmap string DataFrame) (d : DataFrame) :
  fs !! report_csv = Some d ->
  main fs = Ran (body (world_of d)).1 (body (world_of d)).2.
Proof.
  intros Hd. unfold main, read_csv. rewrite Hd. fold (world_of d).
  by destruct (body (world_of d)).
Qed.

(** *** The normalized table *)

Lemma normalized_columns (d : DataFrame) (vs : list float) (c : string) :
  c <> "Mean_us" -> columns (normalized d vs) !! c = columns d !! c.
Proof. intros Hc. cbn [normalized columns]. by rewrite lookup_insert_ne. Qed.

Lemma cell_insert_ne (r : gmap string value) (c c' : string) (v : value) :
  c <> c' -> cell (<[c' := v]> r) c = cell r c.
Proof. intros Hc. unfold cell. by rewrite lookup_insert_ne. Qed.

Lemma existsb_zip_with {A B} (p : A -> bool) (f : A -> B -> A) (l : list A) (k : list B) :
  (forall a b, p (f a b) = p a) -> length k = length l ->
  existsb p (zip_with f l k) = existsb p l.
Proof.
  intros Hp. revert k. induction l as [|a l IH]; intros [|b k] Hlen; try done.
  cbn [zip_with existsb]. rewrite Hp, IH; [reflexivity|]. by injection Hlen.
Qed.

Lemma filter_nil_existsb {A} (p : A -> bool) (l : list A) :
  List.filter p l = [] <-> existsb p l = false.
Proof.
  induction l as [|a l IH]; [done|]. cbn [List.filter existsb].
  destruct (p a); [done|]. exact IH.
Qed.

Lemma method_contains_insert (pat : pystr) (r : gmap string value) (v : value) :
  method_contains pat (<["Mean_us" := v]> r) = method_contains pat r.
Proof. unfold method_contains. by rewrite cell_insert_ne. Qed.

Lemma method_in_insert (names : list pystr) (r : gmap string value) (v : value) :
  method_in names (<["Mean_us" := v]> r) = method_in names r.
Proof. unfold method_in. by rewrite cell_insert_ne. Qed.

Lemma allocated_present_insert (r : gmap string value) (v : value) :
  allocated_present (<["Mean_us" := v]> r) = allocated_present r.
Proof. unfold allocated_present. by rewrite cell_insert_ne. Qed.

End Run.

Section RunOutcomes.
Context {rt : Runtime}.

Lemma mapM_result_Forall2 {A B} (f : A -> result B) (l : list A) (k : list B) :
  Forall2 (fun a b => f a = Ok b) l k -> mapM f l = Ok k.
Proof.
  induction 1 as [|a b l k Hab _ IH]; [reflexivity|].
  cbn [mapM]. by rewrite Hab, IH.
Qed.

Lemma Forall2_length_Ok {A B} (f : A -> result B) (l : list A) (k : list B) :
  Forall2 (fun a b => f a = Ok b) l k -> length k = length l.
Proof. intros H. symmetry. by eapply Forall2_length. Qed.

(** X3. Once the table is loaded and every Mean converts, the run draws
    the four charts in order from the normalized table and stops at the
    first whose lines raise: it ends as that chart ends, the files are
    those of the charts before it, their figures are the ones shown, and
    the table is the normalized one. *)
Theorem run_draws_charts_in_order (fs : gmap string DataFrame) (d : DataFrame) (t : dtype)
    (vs : list float) :
  fs !! report_csv = Some d ->
  columns d !! "Mean" = Some t ->
  Forall2 (fun r v => convert_to_us (cell r "Mean") = Ok v) (rows d) vs ->
  exists w,
    main fs = Ran (draw charts (normalized d vs)).2 w
    /\ df w = normalized d vs
    /\ Plt.saved (plt w) = files_after (draw charts (normalized d vs)).1 ∅
    /\ Plt.shown (plt w) = List.map snd (draw charts (normalized d vs)).1.
Proof.
  intros Hd HM Hvs%mapM_result_Forall2. rewrite (main_body fs d Hd).
  destruct (body_draw (world_of d) t vs HM Hvs) as (w & Hrun & Hdf & Hsaved & Hshown).
  exists w. rewrite Hrun. by cbn [fst snd].
Qed.

Lemma main_Ran (fs : gmap string DataFrame) (r : result unit) (w : World) :
  main fs = Ran r w -> exists d, fs !! report_csv = Some d /\ body (world_of d) = (r, w).
Proof.
  unfold main, read_csv. destruct (fs !! report_csv) as [d|]; [|discriminate].
  fold (world_of d). destruct (body (world_of d)) as [r' w'] eqn:Hb. intros [= <- <-]. by exists d.
Qed.

(** X4. A run that returns has saved exactly the four charts of the table
    it leaves, each under its file name, the three timing charts on a
    logarithmic axis and the memory chart on a linear one, and has shown
    them in this order. *)
Theorem returned_run_saves_four_charts (fs : gmap string DataFrame) (w : World) :
  main fs = Ran (Ok tt) w ->
  exists l1 l2 l3 l4,
    fill_lines (df w) = Ok l1 /\ foreach_lines (df w) = Ok l2
    /\ read_lines (df w) = Ok l3 /\ memory_lines (df w) = Ok l4
    /\ Plt.saved (plt w)
       = <["memory_allocation.png" := chart_of Plt.linear l4]>
           (<["read_operations.png" := chart_of Plt.log l3]>
              (<["foreach_comparison.png" := chart_of Plt.log l2]>
                 (<["fill_comparison.png" := chart_of Plt.log l1]> ∅)))
    /\ Plt.shown (plt w)
       = [chart_of Plt.log l1; chart_of Plt.log l2; chart_of Plt.log l3;
          chart_of Plt.linear l4].
Proof.
  intros (d & Hd & Hbody)%main_Ran.
  pose proof (body_Ok _ _ Hbody) as ([t HM] & _ & _ & vs & Hvs%mapM_result_Forall2 & _).
  destruct (body_draw (world_of d) t vs HM Hvs) as (w' & Hrun & Hdf & Hsaved & Hshown).
  rewrite Hbody in Hrun. injection Hrun as Hr <-.
  cbn [df world_of] in *. rewrite Hdf.
  cbn [draw charts lines_of artifact axis] in Hr, Hsaved, Hshown.
  destruct (fill_lines _) as [l1|e]; [|discriminate].
  destruct (foreach_lines _) as [l2|e]; [|discriminate].
  destruct (read_lines _) as [l3|e]; [|discriminate].
  destruct (memory_lines _) as [l4|e]; [|discriminate].
  exists l1, l2, l3, l4. by repeat split.
Qed.

Lemma timing_lines_no_Size (mk : string) (p : gmap string value -> bool) (d : DataFrame)
    (tM : dtype) :
  columns d !! "Method" = Some tM -> columns d !! "Size" = None ->
  timing_lines mk (where_ p d)
  = if existsb p (rows d) then Raise (KeyError "Size") else Ok [].
Proof.
  intros HM HS. destruct (existsb p (rows d)) eqn:Hp.
  - apply (timing_lines_missing mk p d tM HM); [|exact HS].
    intros Hnil%filter_nil_existsb. congruence.
  - apply (timing_lines_no_rows mk p d tM HM). by apply filter_nil_existsb.
Qed.

Lemma existsb_charted (rs : list (gmap string value)) :
  existsb charted rs
  = existsb (method_contains (lit "Fill")) rs
    || existsb (method_contains (lit "ForEach")) rs
    || existsb (method_in [lit "GetRow"; lit "GetColumn"]) rs.
Proof.
  induction rs as [|r rs IH]; [reflexivity|]. cbn [existsb]. rewrite IH. unfold charted.
  destruct (method_contains (lit "Fill") r), (method_contains (lit "ForEach") r),
    (method_in _ r), (existsb (method_contains (lit "Fill")) rs),
    (existsb (method_contains (lit "ForEach")) rs); reflexivity.
Qed.

Lemma existsb_normalized (p : gmap string value -> bool) (d : DataFrame) (vs : list float) :
  (forall r v, p (<["Mean_us" := v]> r) = p r) -> length vs = length (rows d) ->
  existsb p (rows (normalized d vs)) = existsb p (rows d).
Proof.
  intros Hp Hlen. cbn [normalized rows]. apply existsb_zip_with; [|exact Hlen].
  intros r v. apply Hp.
Qed.

(** X5. On a report without a Size column, whose other columns are there
    and whose times convert, the run returns exactly when no timing chart
    selects a row; otherwise it raises the KeyError of Size. *)
Theorem missing_Size_fails_iff_charted (fs : gmap string DataFrame) (d : DataFrame)
    (tM tA : dtype) (vs : list float) :
  fs !! report_csv = Some d ->
  columns d !! "Size" = None ->
  columns d !! "Mean" = Some tM ->
  columns d !! "Method" = Some object_ ->
  columns d !! "Allocated" = Some tA ->
  Forall2 (fun r v => convert_to_us (cell r "Mean") = Ok v) (rows d) vs ->
  exists w,
    main fs = Ran (if existsb charted (rows d) then Raise (KeyError "Size") else Ok tt) w.
Proof.
  intros Hd HS HMean HM HA Hvs. pose proof (Forall2_length_Ok _ _ _ Hvs) as Hlen.
  apply mapM_result_Forall2 in Hvs. rewrite (main_body fs d Hd).
  destruct (body_draw (world_of d) tM vs HMean Hvs) as (w & Hrun & _).
  exists w. rewrite Hrun. cbn [fst snd df world_of]. f_equal.
  set (d1 := normalized d vs).
  assert (HM1 : columns d1 !! "Method" = Some object_) by (unfold d1; by rewrite normalized_columns).
  assert (HS1 : columns d1 !! "Size" = None) by (unfold d1; by rewrite normalized_columns).
  assert (HA1 : columns d1 !! "Allocated" = Some tA) by (unfold d1; by rewrite normalized_columns).
  rewrite existsb_charted.
  rewrite <- (existsb_normalized (method_contains (lit "Fill")) d vs)
    by (exact Hlen || apply method_contains_insert).
  rewrite <- (existsb_normalized (method_contains (lit "ForEach")) d vs)
    by (exact Hlen || apply method_contains_insert).
  rewrite <- (existsb_normalized (method_in [lit "GetRow"; lit "GetColumn"]) d vs)
    by (exact Hlen || apply method_in_insert).
  fold d1. cbn [draw charts lines_of artifact axis].
  unfold fill_lines, foreach_lines, read_lines.
  rewrite (fill_methods_rows _ HM1), (foreach_methods_rows _ HM1),
    (read_methods_rows _ _ HM1).
  cbn [mbind result_bind]. rewrite !(timing_lines_no_Size _ _ d1 object_ HM1 HS1).
  destruct (existsb (method_contains (lit "Fill")) (rows d1)) eqn:Hfill; [reflexivity|].
  destruct (existsb (method_contains (lit "ForEach")) (rows d1)); [reflexivity|].
  destruct (existsb (method_in _) (rows d1)); [reflexivity|].
  rewrite (memory_lines_no_rows d1 tA HM1 HA1); [reflexivity|].
  apply filter_nil_existsb. apply filter_nil_existsb in Hfill.
  apply not_true_is_false. intros (r & Hr & [Hf _]%andb_true_iff)%existsb_exists.
  assert (Hin : r ∈ List.filter (method_contains (lit "Fill")) (rows d1)).
  { apply elem_of_filter_bool. split; [by apply list_elem_of_In|exact Hf]. }
  rewrite Hfill in Hin. by apply elem_of_nil in Hin.
Qed.

Lemma normalized_Mean_us (d : DataFrame) (vs : list float) :
  columns (normalized d vs) !! "Mean_us" = Some (Mean_us_dtype d).
Proof. cbn [normalized columns]. apply lookup_insert_eq. Qed.

(** The timing charts of a normalized table with a text Method column
    and a Size column. *)
Lemma timing_charts_normalized (d : DataFrame) (tS : dtype) (vs : list float) :
  columns d !! "Method" = Some object_ ->
  columns d !! "Size" = Some tS ->
  fill_lines (normalized d vs)
  = Ok (timing_view (method_contains (lit "Fill")) "o" (rows (normalized d vs)))
  /\ foreach_lines (normalized d vs)
     = Ok (timing_view (method_contains (lit "ForEach")) "s" (rows (normalized d vs)))
  /\ read_lines (normalized d vs)
     = Ok (timing_view (method_in [lit "GetRow"; lit "GetColumn"]) "^"
             (rows (normalized d vs))).
Proof.
  intros HM HS.
  assert (HM1 : columns (normalized d vs) !! "Method" = Some object_)
    by (by rewrite normalized_columns).
  assert (HS1 : columns (normalized d vs) !! "Size" = Some tS)
    by (by rewrite normalized_columns).
  pose proof (normalized_Mean_us d vs) as HU.
  split; [|split].
  - by apply (fill_lines_view _ tS (Mean_us_dtype d)).
  - by apply (foreach_lines_view _ tS (Mean_us_dtype d)).
  - by apply (read_lines_view _ object_ tS (Mean_us_dtype d)).
Qed.

(** X6. On a report without an Allocated column, whose other columns are
    there and whose times convert, the run raises the KeyError of
    Allocated only after the three timing charts are saved and shown:
    they stay on disk, and there is no memory chart. *)
Theorem missing_Allocated_keeps_timing_charts (fs : gmap string DataFrame) (d : DataFrame)
    (tM tS : dtype) (vs : list float) :
  fs !! report_csv = Some d ->
  columns d !! "Allocated" = None ->
  columns d !! "Mean" = Some tM ->
  columns d !! "Method" = Some object_ ->
  columns d !! "Size" = Some tS ->
  Forall2 (fun r v => convert_to_us (cell r "Mean") = Ok v) (rows d) vs ->
  exists w f1 f2 f3,
    main fs = Ran (Raise (KeyError "Allocated")) w
    /\ f1 = chart_of Plt.log (timing_view (method_contains (lit "Fill")) "o" (rows (df w)))
    /\ f2 = chart_of Plt.log (timing_view (method_contains (lit "ForEach")) "s" (rows (df w)))
    /\ f3 = chart_of Plt.log (timing_view (method_in [lit "GetRow"; lit "GetColumn"]) "^"
                                (rows (df w)))
    /\ Plt.saved (plt w)
       = <["read_operations.png" := f3]>
           (<["foreach_comparison.png" := f2]> (<["fill_comparison.png" := f1]> ∅))
    /\ Plt.saved (plt w) !! "memory_allocation.png" = None
    /\ Plt.shown (plt w) = [f1; f2; f3].
Proof.
  intros Hd HA HMean HM HS Hvs%mapM_result_Forall2. rewrite (main_body fs d Hd).
  destruct (body_draw (world_of d) tM vs HMean Hvs) as (w & Hrun & Hdf & Hsaved & Hshown).
  cbn [df world_of] in *.
  destruct (timing_charts_normalized d tS vs HM HS) as (H1 & H2 & H3).
  assert (H4 : memory_lines (normalized d vs) = Raise (KeyError "Allocated")).
  { unfold memory_lines, allocated_data. rewrite getitem_missing; [reflexivity|].
    by rewrite normalized_columns. }
  cbn [draw charts lines_of artifact axis] in Hrun, Hsaved, Hshown.
  rewrite H1, H2, H3, H4 in Hrun, Hsaved, Hshown.
  cbn [fst snd files_after fold_left List.map] in Hrun, Hsaved, Hshown.
  exists w. do 3 eexists. rewrite Hrun, Hdf. cbn [fst snd].
  split; [reflexivity|]. do 3 (split; [reflexivity|]).
  split; [exact Hsaved|]. split; [|exact Hshown].
  rewrite Hsaved. by rewrite !lookup_insert_ne.
Qed.

Lemma mapM_result_raises {A B} (f : A -> result B) (l : list A) (a : A) (e : exn) :
  a ∈ l -> f a = Raise e -> (forall b e', f b = Raise e' -> e' = e) -> mapM f l = Raise e.
Proof.
  intros Ha Hfa Honly. induction l as [|b l IH]; [by apply elem_of_nil in Ha|].
  cbn [mapM]. destruct (f b) as [y|e'] eqn:Hb.
  - cbn [mbind result_bind]. rewrite IH; [reflexivity|].
    apply elem_of_cons in Ha as [->|Ha]; [congruence|exact Ha].
  - cbn [mbind result_bind]. f_equal. by apply (Honly b).
Qed.

Lemma convert_to_us_str (v : value) : convert_to_us v = convert_to_us (VStr (str v)).
Proof. reflexivity. Qed.

Lemma convert_to_us_raises (v : value) (e : exn) :
  convert_to_us v = Raise e -> e = ValueError.
Proof.
  rewrite convert_to_us_str, convert_to_us_branches.
  destruct (float_of_str _); [discriminate|congruence].
Qed.

(** X7. One Mean that is no number of ns, us, μs or ms stops the run in
    the normalization with a ValueError: the table is as loaded, without a
    Mean_us column of its own making, and no chart is drawn, saved or
    shown. *)
Theorem malformed_Mean_stops_run (fs : gmap string DataFrame) (d : DataFrame) (t : dtype)
    (r : gmap string value) :
  fs !! report_csv = Some d ->
  columns d !! "Mean" = Some t ->
  r ∈ rows d ->
  float_of_str (numeric_text (str (cell r "Mean"))) = None ->
  main fs = Ran (Raise ValueError) (world_of d).
Proof.
  intros Hd HM Hr Hbad. rewrite (main_body fs d Hd). unfold body. rewrite run_bind.
  rewrite (add_Mean_us_run (world_of d) t HM). cbn [df world_of].
  rewrite (mapM_result_raises _ (rows d) r ValueError Hr); [reflexivity| |].
  - rewrite convert_to_us_str, convert_to_us_branches. by rewrite Hbad.
  - intros b e'. apply convert_to_us_raises.
Qed.

Lemma kilobytes_raises (v : value) (e : exn) : kilobytes v = Raise e -> e = ValueError.
Proof.
  destruct v as [s|n|f]; cbn [kilobytes]; [|discriminate..].
  destruct (float_of_str _); [discriminate|congruence].
Qed.

(** The memory chart of rows whose allocations, where a Fill row has one,
    are numbers of bytes. *)
Lemma memory_view_Ok (rs : list (gmap string value)) :
  (forall r, r ∈ rs -> method_contains (lit "Fill") r = true -> allocated_present r = true ->
             exists x, kilobytes (cell r "Allocated") = Ok x) ->
  exists lm, memory_view rs = Ok lm.
Proof.
  intros Hkb. unfold memory_view. cbv zeta.
  destruct (mapM_result_Ok
              (memory_series_of (List.filter allocated_present rs))
              (unique_from [] (column "Method"
                                 (List.filter (method_contains (lit "Fill")) rs))))
    as (lss & -> & _); [|by eexists].
  intros m (r0 & [_ Hfill]%elem_of_filter_bool & <-)%unique_from_elem%elem_of_column.
  unfold memory_series_of.
  destruct (List.filter (method_is (cell r0 "Method")) (List.filter allocated_present rs))
    as [|g gs] eqn:Hdata; [by eexists|].
  destruct (mapM_result_Ok (fun r => kilobytes (cell r "Allocated")) (g :: gs))
    as (kb & -> & _); [|by eexists].
  rewrite <- Hdata.
  intros r [[Hr Hpresent]%elem_of_filter_bool Hm]%elem_of_filter_bool.
  apply (Hkb r Hr); [|exact Hpresent]. by apply (method_is_contains _ r r0).
Qed.

Lemma elem_of_normalized (d : DataFrame) (vs : list float) (r1 : gmap string value) :
  r1 ∈ rows (normalized d vs) ->
  exists r v, r ∈ rows d /\ r1 = <["Mean_us" := VFloat v]> r.
Proof.
  cbn [normalized rows]. intros (r & v & -> & Hr & _)%elem_of_zip_with.
  by exists r, v.
Qed.

(** X8. A well-formed report runs to the end: with a text Method column,
    a Size column, a Mean column whose cells convert and a text Allocated
    column whose cells, on the Fill rows that have one, are numbers of
    bytes, the run returns, leaves the normalized table, and saves and
    shows the three timing charts and the memory chart of its rows. *)
Theorem well_formed_report_runs (fs : gmap string DataFrame) (d : DataFrame) (tM tS : dtype)
    (vs : list float) :
  fs !! report_csv = Some d ->
  columns d !! "Mean" = Some tM ->
  columns d !! "Method" = Some object_ ->
  columns d !! "Size" = Some tS ->
  columns d !! "Allocated" = Some object_ ->
  Forall2 (fun r v => convert_to_us (cell r "Mean") = Ok v) (rows d) vs ->
  (forall r, r ∈ rows d -> method_contains (lit "Fill") r = true ->
             allocated_present r = true -> exists x, kilobytes (cell r "Allocated") = Ok x) ->
  exists w f1 f2 f3 lm,
    main fs = Ran (Ok tt) w
    /\ df w = normalized d vs
    /\ f1 = chart_of Plt.log (timing_view (method_contains (lit "Fill")) "o" (rows (df w)))
    /\ f2 = chart_of Plt.log (timing_view (method_contains (lit "ForEach")) "s" (rows (df w)))
    /\ f3 = chart_of Plt.log (timing_view (method_in [lit "GetRow"; lit "GetColumn"]) "^"
                                (rows (df w)))
    /\ memory_view (rows (df w)) = Ok lm
    /\ Plt.saved (plt w)
       = <["memory_allocation.png" := chart_of Plt.linear lm]>
           (<["read_operations.png" := f3]>
              (<["foreach_comparison.png" := f2]> (<["fill_comparison.png" := f1]> ∅)))
    /\ Plt.shown (plt w) = [f1; f2; f3; chart_of Plt.linear lm].
Proof.
  intros Hd HMean HM HS HA Hvs%mapM_result_Forall2 Hkb. rewrite (main_body fs d Hd).
  destruct (body_draw (world_of d) tM vs HMean Hvs) as (w & Hrun & Hdf & Hsaved & Hshown).
  cbn [df world_of] in *.
  destruct (timing_charts_normalized d tS vs HM HS) as (H1 & H2 & H3).
  destruct (memory_view_Ok (rows (normalized d vs))) as [lm Hlm].
  { intros r1 (r & v & Hr & ->)%elem_of_normalized.
    rewrite method_contains_insert, allocated_present_insert, cell_insert_ne by done.
    by apply Hkb. }
  assert (H4 : memory_lines (normalized d vs) = Ok lm).
  { rewrite (memory_lines_view _ tS); [exact Hlm|by rewrite normalized_columns..]. }
  cbn [draw charts lines_of artifact axis] in Hrun, Hsaved, Hshown.
  rewrite H1, H2, H3, H4 in Hrun, Hsaved, Hshown.
  cbn [fst snd files_after fold_left List.map] in Hrun, Hsaved, Hshown.
  exists w. do 3 eexists. exists lm. rewrite Hrun, Hdf. cbn [fst snd].
  split; [reflexivity|]. do 4 (split; [reflexivity|]).
  split; [exact Hlm|]. split; [exact Hsaved|exact Hshown].
Qed.

(** X9. A Method column that is not text stops the run at the first
    chart: [.str] raises AttributeError, and nothing is saved or shown. *)
Theorem numeric_Method_stops_first_chart (fs : gmap string DataFrame) (d : DataFrame)
    (tM t : dtype) (vs : list float) :
  fs !! report_csv = Some d ->
  columns d !! "Mean" = Some tM ->
  columns d !! "Method" = Some t -> t <> object_ ->
  Forall2 (fun r v => convert_to_us (cell r "Mean") = Ok v) (rows d) vs ->
  exists w,
    main fs = Ran (Raise AttributeError) w
    /\ df w = normalized d vs /\ Plt.saved (plt w) = ∅ /\ Plt.shown (plt w) = [].
Proof.
  intros Hd HMean HM Ht Hvs%mapM_result_Forall2. rewrite (main_body fs d Hd).
  destruct (body_draw (world_of d) tM vs HMean Hvs) as (w & Hrun & Hdf & Hsaved & Hshown).
  cbn [df world_of] in *.
  assert (H1 : fill_lines (normalized d vs) = Raise AttributeError).
  { unfold fill_lines.
    destruct (fill_methods_needs_text (normalized d vs) t) as [-> _];
      [by rewrite normalized_columns|exact Ht|reflexivity]. }
  cbn [draw charts lines_of artifact axis] in Hrun, Hsaved, Hshown.
  rewrite H1 in Hrun, Hsaved, Hshown.
  exists w. rewrite Hrun. by repeat split.
Qed.

End RunOutcomes.

(** *** The characters of a number *)

Section FloatAlphabet.
Context {rt : Runtime}.

Lemma float_char_digit (c : N) : is_digit c = true -> float_char c = true.
Proof. intros Hc. unfold float_char. by rewrite Hc. Qed.

Lemma float_char_sign (c : N) : c = 43 \/ c = 45 -> float_char c = true.
Proof. by intros [->| ->]. Qed.

Lemma transform_loop_foreign (s : pystr) (c : N) :
  c ∈ s -> foreign c -> exists c', c' ∈ transform_loop s /\ foreign c'.
Proof.
  intros Hc [Hlt Hbad]. induction s as [|x s IH]; [by apply elem_of_nil in Hc|].
  cbn [transform_loop]. destruct (x <? 127)%N eqn:Hx.
  - apply elem_of_cons in Hc as [->|Hc]; [exists x; split; [apply list_elem_of_here|done]|].
    destruct (IH Hc) as (c' & Hc' & Hf). exists c'. split; [by apply list_elem_of_further|done].
  - apply elem_of_cons in Hc as [->|Hc]; [apply N.ltb_ge in Hx; lia|].
    destruct (Py_UNICODE_ISSPACE x).
    + destruct (IH Hc) as (c' & Hc' & Hf). exists c'.
      split; [by apply list_elem_of_further|done].
    + destruct (Py_UNICODE_TODECIMAL x).
      * destruct (IH Hc) as (c' & Hc' & Hf). exists c'.
        split; [by apply list_elem_of_further|done].
      * exists 63. split; [apply list_elem_of_here|]. by split.
Qed.

Lemma transform_foreign (s : pystr) (c : N) :
  c ∈ s -> foreign c -> exists c', c' ∈ transform_decimal_and_space s /\ foreign c'.
Proof.
  intros Hc Hf. unfold transform_decimal_and_space.
  destruct (forallb _ s); [by exists c|by apply (transform_loop_foreign s c)].
Qed.

Lemma drop_underscores_elem (prev : N) (s t : pystr) (c : N) :
  drop_underscores prev s = Some t -> c ∈ s -> c <> 95 -> c ∈ t.
Proof.
  revert prev t. induction s as [|x s IH]; intros prev t Ht Hc Hne;
    [by apply elem_of_nil in Hc|].
  cbn [drop_underscores] in Ht. destruct (x =? 95)%N eqn:Hx.
  - apply N.eqb_eq in Hx as ->. destruct (is_digit prev); [|discriminate].
    apply elem_of_cons in Hc as [->|Hc]; [done|]. by apply (IH 95 t).
  - destruct ((prev =? 95)%N && negb (is_digit x)); [discriminate|].
    destruct (drop_underscores x s) as [t'|] eqn:Ht'; [|discriminate].
    injection Ht as <-. apply elem_of_cons in Hc as [->|Hc]; [apply list_elem_of_here|].
    apply list_elem_of_further. by apply (IH x t').
Qed.

Lemma without_underscores_elem (s t : pystr) (c : N) :
  without_underscores s = Some t -> c ∈ s -> c <> 95 -> c ∈ t.
Proof.
  unfold without_underscores. destruct (existsb _ s); [apply drop_underscores_elem|].
  by intros [= <-].
Qed.

Lemma skip_spaces_elem (s : pystr) (c : N) :
  c ∈ s -> Py_ISSPACE c = false -> c ∈ skip_spaces s.
Proof.
  intros Hc Hsp. induction s as [|x s IH]; [done|]. cbn [skip_spaces].
  destruct (Py_ISSPACE x) eqn:Hx; [|done].
  apply elem_of_cons in Hc as [->|Hc]; [congruence|by apply IH].
Qed.

Lemma elem_of_rev {A} (l : list A) (x : A) : x ∈ rev l <-> x ∈ l.
Proof. rewrite !list_elem_of_In. symmetry. apply in_rev. Qed.

Lemma trim_spaces_elem (s : pystr) (c : N) :
  c ∈ s -> Py_ISSPACE c = false -> c ∈ trim_spaces s.
Proof.
  intros Hc Hsp. unfold trim_spaces. rewrite elem_of_rev. apply skip_spaces_elem; [|done].
  rewrite elem_of_rev. by apply skip_spaces_elem.
Qed.

Lemma take_sign_cases (x : N) (r : pystr) :
  (x = 45 /\ take_sign (x :: r) = (true, r)) \/ (x = 43 /\ take_sign (x :: r) = (false, r))
  \/ take_sign (x :: r) = (false, x :: r).
Proof.
  destruct x as [|p]; [by right; right|].
  do 6 (try destruct p as [p|p|]); first [by right; right|by left|by right; left].
Qed.

Lemma take_sign_elem (s : pystr) (c : N) :
  c ∈ s -> float_char c = true \/ c ∈ (take_sign s).2.
Proof.
  intros Hc. destruct s as [|x r]; [by right|].
  destruct (take_sign_cases x r) as [[-> ->]|[[-> ->]| ->]]; [| |by right].
  - apply elem_of_cons in Hc as [->|Hc]; [by left|by right].
  - apply elem_of_cons in Hc as [->|Hc]; [by left|by right].
Qed.

Lemma span_digits_elem (s : pystr) (c : N) :
  c ∈ s -> float_char c = true \/ c ∈ (span_digits s).2.
Proof.
  induction s as [|x s IH]; intros Hc; [by right|]. cbn [span_digits].
  destruct (is_digit x) eqn:Hx; [|by right].
  destruct (span_digits s) as [ds r] eqn:Hs. cbn [snd] in *.
  apply elem_of_cons in Hc as [->|Hc]; [left; by apply float_char_digit|by apply IH].
Qed.

Lemma parse_exponent_chars (s : pystr) (e : Z) (c : N) :
  parse_exponent s = Some e -> c ∈ s -> float_char c = true.
Proof.
  unfold parse_exponent. destruct s as [|x r]; [by intros _ ?%elem_of_nil|].
  destruct ((x =? 101)%N || (x =? 69)%N) eqn:Hx; [|discriminate].
  intros Hparse [->|Hc]%elem_of_cons.
  { apply orb_true_iff in Hx as [->%N.eqb_eq| ->%N.eqb_eq]; reflexivity. }
  destruct (take_sign_elem r c Hc) as [?|Hc1]; [done|].
  destruct (take_sign r) as [neg r1]. cbn [snd] in Hc1.
  destruct (span_digits_elem r1 c Hc1) as [?|Hc2]; [done|].
  destruct (span_digits r1) as [[|d ds] [|y r2]]; try discriminate.
  by apply elem_of_nil in Hc2.
Qed.

Lemma point_cases (y : N) (r' : pystr) :
  (y = 46 /\ match y :: r' with 46 :: r'' => span_digits r'' | _ => ([], y :: r') end
             = span_digits r')
  \/ match y :: r' with 46 :: r'' => span_digits r'' | _ => ([], y :: r') end
     = ([], y :: r').
Proof.
  destruct y as [|p]; [by right|].
  do 6 (try destruct p as [p|p|]); first [by right|by left].
Qed.

Lemma parse_decimal_chars (s : pystr) (x : bool * Z * Z) (c : N) :
  parse_decimal s = Some x -> c ∈ s -> float_char c = true.
Proof.
  unfold parse_decimal. intros Hparse Hc.
  destruct (take_sign_elem s c Hc) as [?|Hc1]; [done|].
  destruct (take_sign s) as [neg r]. cbn [snd] in Hc1.
  destruct (span_digits_elem r c Hc1) as [?|Hc2]; [done|].
  destruct (span_digits r) as [ip r1]. cbn [snd] in Hc2.
  assert (Hfrac : forall fp r2,
    match r1 with 46 :: r' => span_digits r' | _ => ([], r1) end = (fp, r2) ->
    float_char c = true \/ c ∈ r2).
  { intros fp r2 Hfp. destruct r1 as [|y r']; [injection Hfp as <- <-; by right|].
    destruct (point_cases y r') as [[-> Hy]|Hy];
      [|pose proof (eq_trans (eq_sym Hy) Hfp) as Hfp'; clear Hfp; rename Hfp' into Hfp].
    - apply elem_of_cons in Hc2 as [->|Hc2]; [by left|].
      destruct (span_digits_elem r' c Hc2) as [?|Hc3]; [by left|].
      rewrite Hfp in Hc3. by right.
    - injection Hfp as <- <-. by right. }
  destruct (match r1 with 46 :: r' => span_digits r' | _ => ([], r1) end) as [fp r2].
  destruct (Hfrac fp r2 eq_refl) as [?|Hc3]; [done|].
  destruct (ip ++ fp); [discriminate|].
  destruct (parse_exponent r2) as [e|] eqn:He; [|discriminate].
  by apply (parse_exponent_chars r2 e).
Qed.

Lemma parse_inf_or_nan_chars (s : pystr) (f : float) (c : N) :
  parse_inf_or_nan s = Some f -> c ∈ s -> float_char c = true.
Proof.
  unfold parse_inf_or_nan. intros Hparse Hc.
  destruct (take_sign_elem s c Hc) as [?|Hc1]; [done|].
  destruct (take_sign s) as [neg r]. cbn [snd] in Hc1.
  assert (Hlow : Py_TOLOWER c ∈ List.map Py_TOLOWER r).
  { apply list_elem_of_In, in_map, list_elem_of_In, Hc1. }
  assert (Hletters : forall l : pystr, Py_TOLOWER c ∈ l ->
            forallb (fun x => existsb (N.eqb x) (lit "einfinityan")) l = true ->
            float_char c = true).
  { intros l Hl%list_elem_of_In Hsub. unfold float_char.
    rewrite forallb_forall in Hsub. rewrite (Hsub _ Hl). apply orb_true_r. }
  destruct (decide _) as [[Heq|Heq]|_].
  - rewrite Heq in Hlow. by apply (Hletters _ Hlow).
  - rewrite Heq in Hlow. by apply (Hletters _ Hlow).
  - destruct (decide _) as [Heq|_]; [|discriminate].
    rewrite Heq in Hlow. by apply (Hletters _ Hlow).
Qed.

(** A text with an ASCII character that no number contains is no number. *)
Lemma float_of_str_foreign (s : pystr) (c : N) :
  c ∈ s -> foreign c -> float_of_str s = None.
Proof.
  intros Hc Hf. destruct (transform_foreign s c Hc Hf) as (c' & Hc' & [Hlt Hbad]).
  unfold float_of_str.
  destruct (without_underscores _) as [t|] eqn:Ht; [|reflexivity].
  assert (Hne : c' <> 95) by (intros ->; done).
  pose proof (without_underscores_elem _ t c' Ht Hc' Hne) as Hct.
  assert (Hsp : Py_ISSPACE c' = false).
  { unfold float_char in Hbad. by destruct (is_digit c'), (Py_ISSPACE c'). }
  pose proof (trim_spaces_elem t c' Hct Hsp) as Hcu. cbv zeta.
  destruct (parse_decimal (trim_spaces t)) as [[[neg m] e]|] eqn:Hdec.
  - pose proof (parse_decimal_chars _ _ c' Hdec Hcu). congruence.
  - destruct (parse_inf_or_nan (trim_spaces t)) as [f|] eqn:Hinf; [|reflexivity].
    pose proof (parse_inf_or_nan_chars _ _ c' Hinf Hcu). congruence.
Qed.

End FloatAlphabet.

(** *** Whitespace and units in a Mean *)

Section Units.
Context {rt : Runtime}.

Lemma lstrip_spaces (a s : pystr) :
  forallb Py_UNICODE_ISSPACE a = true -> lstrip (a ++ s) = lstrip s.
Proof.
  induction a as [|c a IH]; [done|]. cbn [forallb app lstrip].
  intros [-> Ha]%andb_true_iff. by apply IH.
Qed.

Lemma lstrip_app (s b : pystr) :
  lstrip (s ++ b) = match lstrip s with [] => lstrip b | _ => lstrip s ++ b end.
Proof.
  induction s as [|c s IH]; [reflexivity|]. cbn [app lstrip].
  by destruct (Py_UNICODE_ISSPACE c).
Qed.

Lemma forallb_rev {A} (p : A -> bool) (l : list A) :
  forallb p l = true -> forallb p (rev l) = true.
Proof. rewrite !forallb_forall. intros Hp x Hx%in_rev. by apply Hp. Qed.

Lemma rstrip_spaces (s b : pystr) :
  forallb Py_UNICODE_ISSPACE b = true -> rstrip (s ++ b) = rstrip s.
Proof.
  intros Hb. unfold rstrip. rewrite rev_app_distr, lstrip_spaces; [done|].
  by apply forallb_rev.
Qed.

Lemma lstrip_all_spaces (b : pystr) :
  forallb Py_UNICODE_ISSPACE b = true -> lstrip b = [].
Proof. intros Hb. rewrite <- (app_nil_r b). by rewrite lstrip_spaces. Qed.

Lemma strip_spaces (a s b : pystr) :
  forallb Py_UNICODE_ISSPACE a = true -> forallb Py_UNICODE_ISSPACE b = true ->
  strip (a ++ s ++ b) = strip s.
Proof.
  intros Ha Hb. unfold strip. rewrite lstrip_spaces by exact Ha. rewrite lstrip_app.
  destruct (lstrip s) as [|c t] eqn:Hs; [by rewrite lstrip_all_spaces|].
  by rewrite rstrip_spaces.
Qed.

(** X10. Whitespace around a Mean does not count: the text converts as
    the text without it does, to the same number or to the same error. *)
Theorem convert_to_us_ignores_outer_whitespace (a s b : pystr) :
  forallb Py_UNICODE_ISSPACE a = true -> forallb Py_UNICODE_ISSPACE b = true ->
  convert_to_us (VStr (a ++ s ++ b)) = convert_to_us (VStr s).
Proof.
  intros Ha Hb. unfold convert_to_us. cbn [str]. by rewrite (strip_spaces a s b Ha Hb).
Qed.

Lemma lstrip_elem (s : pystr) (c : N) :
  c ∈ s -> Py_UNICODE_ISSPACE c = false -> c ∈ lstrip s.
Proof.
  intros Hc Hsp. induction s as [|x s IH]; [done|]. cbn [lstrip].
  destruct (Py_UNICODE_ISSPACE x) eqn:Hx; [|done].
  apply elem_of_cons in Hc as [->|Hc]; [congruence|by apply IH].
Qed.

Lemma strip_elem (s : pystr) (c : N) :
  c ∈ s -> Py_UNICODE_ISSPACE c = false -> c ∈ strip s.
Proof.
  intros Hc Hsp. unfold strip, rstrip. rewrite elem_of_rev. apply lstrip_elem; [|done].
  rewrite elem_of_rev. by apply lstrip_elem.
Qed.

(** What [replace] passes over belongs to an occurrence of [old]: a
    code point that is not in [old] stays. *)
Lemma replace_from_elem (old new : pystr) (k : nat) (s : pystr) (c : N) :
  old <> [] -> c ∉ old -> Forall (fun x => x ∈ old) (take k s) ->
  c ∈ s -> c ∈ replace_from old new k s.
Proof.
  intros Hold Hc. revert k. induction s as [|x s IH]; intros k Hk Hin; [done|].
  cbn [replace_from]. destruct k as [|k].
  - destruct (startswith old (x :: s)) eqn:Hstart.
    + apply startswith_spec in Hstart as [b Hb]. destruct old as [|o old']; [done|].
      injection Hb as -> ->. apply elem_of_app. right.
      apply elem_of_cons in Hin as [->|Hin]; [by destruct Hc; apply list_elem_of_here|].
      apply IH; [|exact Hin].
      replace (length (o :: old') - 1)%nat with (length old') by (cbn [length]; lia).
      rewrite take_app_length. apply Forall_forall. intros y Hy.
      by apply list_elem_of_further.
    + apply elem_of_cons in Hin as [->|Hin]; [apply list_elem_of_here|].
      apply list_elem_of_further, IH; [constructor|exact Hin].
  - cbn [take] in Hk. apply Forall_cons in Hk as [Hx Hk].
    apply elem_of_cons in Hin as [->|Hin]; [done|]. by apply IH.
Qed.

Lemma replace_elem (old new s : pystr) (c : N) :
  old <> [] -> c ∉ old -> c ∈ s -> c ∈ replace old new s.
Proof.
  intros Hold Hc Hin. unfold replace. destruct old as [|o old']; [done|].
  apply replace_from_elem; [done|exact Hc|constructor|exact Hin].
Qed.

Lemma remove_separators_elem (s : pystr) (c : N) :
  c <> 44 -> c ∈ s -> c ∈ remove_separators s.
Proof.
  intros Hc Hin. apply replace_elem; [done| |exact Hin].
  by intros ->%list_elem_of_singleton.
Qed.

Lemma foreign_not_n (c : N) : foreign c -> c <> 110.
Proof. by intros [_ Hf] ->. Qed.

Lemma foreign_not_mu (c : N) : foreign c -> c <> 956.
Proof. intros [Hlt _] ->. lia. Qed.

(** X12. A Mean in another unit is rejected, never misread: a text with
    an ASCII character that no number contains, other than whitespace, the
    comma and the letters s, u, m of the units, raises ValueError; and when
    the text names none of ns, us, μs, ms, any such character other than
    whitespace and the comma does. *)
Theorem convert_to_us_rejects_other_units (s : pystr) (c : N) :
  c ∈ s -> foreign c -> Py_UNICODE_ISSPACE c = false -> c <> 44 ->
  c ∉ lit "sum" \/ detect_unit (strip s) = Bare ->
  convert_to_us (VStr s) = Raise ValueError.
Proof.
  intros Hc Hf Hsp Hcomma Hunit. rewrite convert_to_us_branches.
  rewrite (float_of_str_foreign (numeric_text s) c); [reflexivity| |exact Hf].
  unfold numeric_text. cbv zeta. apply remove_separators_elem; [exact Hcomma|].
  pose proof (strip_elem s c Hc Hsp) as Ht.
  destruct Hunit as [Hsum| ->]; [|exact Ht].
  pose proof (foreign_not_n c Hf) as Hn. pose proof (foreign_not_mu c Hf) as Hmu.
  assert (Hs : c <> 115) by (intros ->; apply Hsum; vm_compute; set_solver).
  assert (Hu : c <> 117) by (intros ->; apply Hsum; vm_compute; set_solver).
  assert (Hm : c <> 109) by (intros ->; apply Hsum; vm_compute; set_solver).
  assert (Hpair : forall a b, c <> a -> c <> b -> c ∉ [a; b]).
  { intros a b Ha Hb [?|[?|?%elem_of_nil]%elem_of_cons]%elem_of_cons; done. }
  destruct (detect_unit (strip s)); cbn [strip_unit]; [| | |exact Ht].
  - apply replace_elem; [done|by apply Hpair|exact Ht].
  - apply replace_elem; [done|by apply Hpair|].
    apply replace_elem; [done|by apply Hpair|exact Ht].
  - apply replace_elem; [done|by apply Hpair|exact Ht].
Qed.

Lemma contains_head_absent (o : N) (old s : pystr) :
  o ∉ s -> contains (o :: old) s = false.
Proof.
  intros Ho. apply not_true_is_false. intros (a & b & ->)%contains_spec.
  apply Ho, elem_of_app. right. apply list_elem_of_here.
Qed.

Lemma contains_suffix (old x : pystr) : contains old (x ++ old) = true.
Proof. apply contains_spec. exists x, []. by rewrite app_nil_r. Qed.

Lemma replace_from_skip_all (old new : pystr) (k : nat) (s : pystr) :
  (length s <= k)%nat -> replace_from old new k s = [].
Proof.
  revert k. induction s as [|x s IH]; intros k Hk; [reflexivity|].
  cbn [length] in Hk. destruct k as [|k]; [lia|]. cbn [replace_from]. apply IH. lia.
Qed.

(** A unit name at the end of a text without its first letter goes, and
    nothing else. *)
Lemma replace_suffix (o : N) (old x : pystr) :
  o ∉ x -> replace (o :: old) [] (x ++ o :: old) = x.
Proof.
  intros Ho. unfold replace. induction x as [|c x IH].
  - cbn [app replace_from]. replace (startswith (o :: old) (o :: old)) with true
      by (symmetry; apply startswith_spec; exists []; by rewrite app_nil_r).
    cbn [app]. apply replace_from_skip_all. cbn [length]. lia.
  - cbn [app replace_from].
    replace (startswith (o :: old) (c :: x ++ o :: old)) with false.
    + f_equal. apply IH. intros Hx. apply Ho. by apply list_elem_of_further.
    + symmetry. apply not_true_is_false. intros [b Hb]%startswith_spec.
      injection Hb as -> _. apply Ho, list_elem_of_here.
Qed.

Lemma strip_unit_suffix (x u : pystr) (c : N) :
  lstrip x = x -> Py_UNICODE_ISSPACE c = false ->
  match u with o :: _ => Py_UNICODE_ISSPACE o = false | [] => True end ->
  strip (x ++ u ++ [c]) = x ++ u ++ [c].
Proof.
  intros Hx Hc Hu. unfold strip.
  assert (Hl : lstrip (x ++ u ++ [c]) = x ++ u ++ [c]).
  { rewrite lstrip_app, Hx. destruct x as [|y x]; [|reflexivity].
    destruct u as [|o u]; cbn [app lstrip]; [by rewrite Hc|by rewrite Hu]. }
  rewrite Hl. unfold rstrip. rewrite !app_assoc, rev_app_distr. cbn [rev app lstrip].
  rewrite Hc. change (c :: rev (x ++ u)) with (rev [c] ++ rev (x ++ u)).
  by rewrite <- rev_app_distr, rev_involutive.
Qed.

Lemma unit_letters_absent (x : pystr) (c : N) :
  (forall y, y ∈ x -> y ∉ unit_letters) -> c ∈ unit_letters -> c ∉ x.
Proof. intros Hx Hc Hin. by apply (Hx c Hin). Qed.

Lemma no_unit_letters (x : pystr) :
  forallb (fun c => forallb (fun u => negb (c =? u)%N) unit_letters) x = true ->
  forall c, c ∈ x -> c ∉ unit_letters.
Proof.
  rewrite forallb_forall. intros Hx c Hc%list_elem_of_In Hu%list_elem_of_In.
  specialize (Hx c Hc). rewrite forallb_forall in Hx. specialize (Hx c Hu).
  by rewrite N.eqb_refl in Hx.
Qed.

(** X11. A number followed by a unit name converts by its unit: for a
    text [x] without the letters of the unit names and without leading
    whitespace, [x] with us or μs converts as its number does, with ns to
    that number divided by 1000, with ms to that number times 1000; the
    number is [x] without its commas, and is rejected in all four or in
    none. *)
Theorem convert_to_us_scales_by_suffix (x : pystr) :
  (forall c, c ∈ x -> c ∉ unit_letters) -> lstrip x = x ->
  let number := float_new (VStr (remove_separators x)) in
  convert_to_us (VStr (x ++ lit "us")) = number
  /\ convert_to_us (VStr (x ++ mu_s)) = number
  /\ convert_to_us (VStr (x ++ lit "ns"))
     = scaled (fun y => float_div y (float_of_int 1000)) number
  /\ convert_to_us (VStr (x ++ lit "ms"))
     = scaled (fun y => float_mul y (float_of_int 1000)) number.
Proof.
  intros Hx Hl number.
  assert (Hn : 110 ∉ x) by (apply (unit_letters_absent x 110 Hx); vm_compute; set_solver).
  assert (Hu : 117 ∉ x) by (apply (unit_letters_absent x 117 Hx); vm_compute; set_solver).
  assert (Hm : 109 ∉ x) by (apply (unit_letters_absent x 109 Hx); vm_compute; set_solver).
  assert (Hmu : 956 ∉ x) by (apply (unit_letters_absent x 956 Hx); vm_compute; set_solver).
  assert (Hstrip : forall o, Py_UNICODE_ISSPACE o = false ->
            strip (x ++ [o; 115]) = x ++ [o; 115]).
  { intros o Ho. by apply (strip_unit_suffix x [o] 115). }
  assert (Habsent : forall o o' : N, o ∉ x -> o <> o' -> o <> 115 ->
            contains [o; 115] (x ++ [o'; 115]) = false).
  { intros o o' Ho Hne Hs. apply contains_head_absent.
    intros [?|[?|[?|?%elem_of_nil]%elem_of_cons]%elem_of_cons]%elem_of_app; done. }
  unfold convert_to_us. cbn [str].
  change (lit "us") with [117; 115]. change (lit "ns") with [110; 115].
  change (lit "ms") with [109; 115]. change mu_s with [956; 115].
  rewrite !Hstrip by done.
  split; [|split; [|split]].
  - rewrite (Habsent 110 117) by done. rewrite contains_suffix. cbn [orb].
    rewrite replace_suffix by done.
    rewrite (replace_absent [956; 115]) by (done || by apply contains_head_absent).
    reflexivity.
  - rewrite (Habsent 110 956), (Habsent 117 956) by done. rewrite contains_suffix.
    cbn [orb]. rewrite (replace_absent [117; 115]) by (done || by apply Habsent).
    rewrite replace_suffix by done. reflexivity.
  - rewrite contains_suffix. rewrite replace_suffix by done. reflexivity.
  - rewrite (Habsent 110 109), (Habsent 117 109) by done.
    rewrite (contains_head_absent 956) by
      (intros [?|[?|[?|?%elem_of_nil]%elem_of_cons]%elem_of_cons]%elem_of_app; done).
    cbn [orb]. rewrite contains_suffix. rewrite replace_suffix by done. reflexivity.
Qed.

(** *** The normalizer, step by step *)

Lemma remove_separators_filter (t : pystr) :
  remove_separators t = List.filter (fun c => negb (c =? 44)%N) t.
Proof.
  unfold remove_separators, replace. change (lit ",") with [44].
  induction t as [|c t IH]; [reflexivity|]. cbn [replace_from startswith List.filter].
  rewrite andb_true_r, (N.eqb_sym 44 c). destruct (c =? 44)%N; cbn [negb length app].
  - exact IH.
  - by rewrite IH.
Qed.

Lemma strip_sub (s : pystr) (c : N) : c ∈ strip s -> c ∈ s.
Proof.
  intros Hc. destruct (strip_spec s) as (a & b & Hs & _). rewrite Hs.
  apply elem_of_app. right. apply elem_of_app. by left.
Qed.

Lemma numeric_text_spaces (a s b : pystr) :
  forallb Py_UNICODE_ISSPACE a = true -> forallb Py_UNICODE_ISSPACE b = true ->
  numeric_text (a ++ s ++ b) = numeric_text s.
Proof. intros Ha Hb. unfold numeric_text. by rewrite (strip_spaces a s b Ha Hb). Qed.

(** The unit letters are absent from a text that has none. *)
Lemma unit_free (x : pystr) :
  (forall c, c ∈ x -> c ∉ unit_letters) ->
  (110 ∉ x) /\ (117 ∉ x) /\ (109 ∉ x) /\ (956 ∉ x).
Proof.
  intros Hx. repeat split; intros Hin; apply (Hx _ Hin); apply list_elem_of_In;
    vm_compute; tauto.
Qed.

(** A text without unit letters names no unit. *)
Lemma detect_unit_free (t : pystr) :
  (forall c, c ∈ t -> c ∉ unit_letters) -> detect_unit t = Bare.
Proof.
  intros (Hn & Hu & Hm & Hmu)%unit_free. unfold detect_unit.
  change (lit "ns") with [110; 115]. change (lit "us") with [117; 115].
  change (lit "ms") with [109; 115]. change mu_s with [956; 115].
  by rewrite !contains_head_absent.
Qed.

(** A number followed by a unit name: the unit that is found, and the
    text that is parsed. *)
Lemma suffix_unit_text (x : pystr) :
  (forall c, c ∈ x -> c ∉ unit_letters) -> lstrip x = x ->
  (detect_unit (strip (x ++ lit "ns")) = Nanoseconds
   /\ numeric_text (x ++ lit "ns") = remove_separators x)
  /\ (detect_unit (strip (x ++ lit "us")) = Microseconds
      /\ numeric_text (x ++ lit "us") = remove_separators x)
  /\ (detect_unit (strip (x ++ mu_s)) = Microseconds
      /\ numeric_text (x ++ mu_s) = remove_separators x)
  /\ (detect_unit (strip (x ++ lit "ms")) = Milliseconds
      /\ numeric_text (x ++ lit "ms") = remove_separators x).
Proof.
  intros (Hn & Hu & Hm & Hmu)%unit_free Hl.
  assert (Hstrip : forall o, Py_UNICODE_ISSPACE o = false ->
            strip (x ++ [o; 115]) = x ++ [o; 115]).
  { intros o Ho. by apply (strip_unit_suffix x [o] 115). }
  assert (Habsent : forall o o' : N, o ∉ x -> o <> o' -> o <> 115 ->
            contains [o; 115] (x ++ [o'; 115]) = false).
  { intros o o' Ho Hne Hs. apply contains_head_absent.
    intros [?|[?|[?|?%elem_of_nil]%elem_of_cons]%elem_of_cons]%elem_of_app; done. }
  unfold numeric_text, detect_unit. cbv zeta.
  change (lit "us") with [117; 115]. change (lit "ns") with [110; 115].
  change (lit "ms") with [109; 115]. change mu_s with [956; 115].
  rewrite !Hstrip by done.
  assert (Hlits : lit "ns" = [110; 115] /\ lit "us" = [117; 115]
                  /\ lit "ms" = [109; 115] /\ mu_s = [956; 115]) by done.
  destruct Hlits as (Ens & Eus & Ems & Emu).
  split; [|split; [|split]].
  - rewrite contains_suffix. cbn [strip_unit]. rewrite Ens.
    by rewrite replace_suffix.
  - rewrite (Habsent 110 117) by done. rewrite contains_suffix. cbn [orb strip_unit].
    rewrite Eus, Emu. rewrite replace_suffix by done.
    by rewrite (replace_absent [956; 115]) by (done || by apply contains_head_absent).
  - rewrite (Habsent 110 956), (Habsent 117 956) by done. rewrite contains_suffix.
    cbn [orb strip_unit]. rewrite Eus, Emu.
    rewrite (replace_absent [117; 115]) by (done || by apply Habsent).
    by rewrite replace_suffix.
  - rewrite (Habsent 110 109), (Habsent 117 109) by done.
    rewrite (contains_head_absent 956) by
      (intros [?|[?|[?|?%elem_of_nil]%elem_of_cons]%elem_of_cons]%elem_of_app; done).
    cbn [orb]. rewrite contains_suffix. cbn [strip_unit]. rewrite Ems.
    by rewrite replace_suffix.
Qed.

(** C1. For every Mean string the normalizer strips the surrounding
    whitespace, looks for "ns", then "us" or "μs", then "ms", parses the
    text without the unit and without "," as a float, and divides by 1000,
    keeps, or multiplies by 1000; without a unit the text without "," is
    the number of microseconds. The conversion is the normalizer written
    from these words; what is stripped is all the whitespace at both ends
    and nothing else; the units are looked for in this order; removing the
    separators drops every "," and keeps the rest; and a number [x] under
    whitespace [a] and [b] converts, with each unit name after it, to
    [float] of [x] without its commas, divided by 1000 for ns, unchanged
    for us and μs, times 1000 for ms, and unchanged without a unit. *)
Theorem convert_to_us_normalizes :
  (forall mean, convert_to_us (VStr mean) = normalize_timing_unit mean)
  /\ (forall mean, exists a b,
        mean = a ++ strip mean ++ b
        /\ forallb Py_UNICODE_ISSPACE a = true /\ forallb Py_UNICODE_ISSPACE b = true
        /\ match strip mean with c :: _ => Py_UNICODE_ISSPACE c = false | [] => True end
        /\ match rev (strip mean) with c :: _ => Py_UNICODE_ISSPACE c = false | [] => True end)
  /\ (forall t,
        (contains (lit "ns") t = true -> detect_unit t = Nanoseconds)
        /\ (contains (lit "ns") t = false ->
            contains (lit "us") t = true \/ contains mu_s t = true ->
            detect_unit t = Microseconds)
        /\ (contains (lit "ns") t = false -> contains (lit "us") t = false ->
            contains mu_s t = false -> contains (lit "ms") t = true ->
            detect_unit t = Milliseconds)
        /\ (contains (lit "ns") t = false -> contains (lit "us") t = false ->
            contains mu_s t = false -> contains (lit "ms") t = false ->
            detect_unit t = Bare))
  /\ (forall t, remove_separators t = List.filter (fun c => negb (c =? 44)%N) t)
  /\ (forall a x b,
        forallb Py_UNICODE_ISSPACE a = true -> forallb Py_UNICODE_ISSPACE b = true ->
        (forall c, c ∈ x -> c ∉ unit_letters) -> lstrip x = x ->
        let number := float_new (VStr (List.filter (fun c => negb (c =? 44)%N) x)) in
        convert_to_us (VStr (a ++ (x ++ lit "ns") ++ b))
        = scaled (fun y => float_div y (float_of_int 1000)) number
        /\ convert_to_us (VStr (a ++ (x ++ lit "us") ++ b)) = number
        /\ convert_to_us (VStr (a ++ (x ++ mu_s) ++ b)) = number
        /\ convert_to_us (VStr (a ++ (x ++ lit "ms") ++ b))
           = scaled (fun y => float_mul y (float_of_int 1000)) number
        /\ (rstrip x = x -> convert_to_us (VStr (a ++ x ++ b)) = number)).
Proof.
  split; [intros mean; unfold normalize_timing_unit; apply convert_to_us_branches|].
  split; [apply strip_spec|]. split; [|split; [apply remove_separators_filter|]].
  - intros t. unfold detect_unit. repeat split.
    + by intros ->.
    + intros -> [-> | ->]; [reflexivity|]. by rewrite orb_true_r.
    + by intros -> -> -> ->.
    + by intros -> -> -> ->.
  - intros a x b Ha Hb Hx Hl number.
    assert (Hconv : forall s u,
      detect_unit (strip s) = u /\ numeric_text s = remove_separators x ->
      convert_to_us (VStr (a ++ s ++ b)) = scaled (to_microseconds u) number).
    { intros s u [Hu Hnum]. rewrite convert_to_us_branches.
      rewrite (numeric_text_spaces a s b Ha Hb), (strip_spaces a s b Ha Hb), Hu, Hnum. unfold number, scaled.
      rewrite <- remove_separators_filter. cbn [float_new].
      by destruct (float_of_str _). }
    assert (Hsame : scaled (fun y => y) number = number).
    { unfold scaled. by destruct number. }
    destruct (suffix_unit_text x Hx Hl) as (Hns & Hus & Hmu & Hms).
    split; [exact (Hconv _ _ Hns)|]. split; [rewrite (Hconv _ _ Hus); exact Hsame|].
    split; [rewrite (Hconv _ _ Hmu); exact Hsame|]. split; [exact (Hconv _ _ Hms)|].
    intros Hr. rewrite (Hconv x Bare); [exact Hsame|].
    assert (Hs : strip x = x) by (unfold strip; by rewrite Hl).
    split.
    + apply detect_unit_free. intros c Hc%strip_sub. by apply Hx.
    + unfold numeric_text. cbv zeta. rewrite Hs, (detect_unit_free x Hx). reflexivity.
Qed.

End Units.

(** *** What the memory chart needs *)

Section MemoryNeeds.
Context {rt : Runtime}.

Lemma mapM_result_only {A B} (f : A -> result B) (l : list A) (e e' : exn) :
  (forall b e0, f b = Raise e0 -> e0 = e) -> mapM f l = Raise e' -> e' = e.
Proof.
  intros Honly. induction l as [|a l IH]; [discriminate|]. cbn [mapM].
  destruct (f a) as [y|e0] eqn:Ha; cbn [mbind result_bind].
  - destruct (mapM f l) as [k|e1]; [discriminate|]. intros [= <-]. by apply IH.
  - intros [= <-]. by apply (Honly a).
Qed.

(** The method of a Fill row is one of the methods the memory pass loops
    over. *)
Lemma fill_method_looped (rs : list (gmap string value)) (r : gmap string value) :
  r ∈ rs -> method_contains (lit "Fill") r = true ->
  cell r "Method"
  ∈ unique_from [] (column "Method" (List.filter (method_contains (lit "Fill")) rs)).
Proof.
  intros Hr Hfill. destruct (method_contains_text _ _ Hfill) as [s Hs]. rewrite Hs.
  destruct (unique_from_text []
              (column "Method" (List.filter (method_contains (lit "Fill")) rs)) s)
    as [?|?]; [|done..].
  apply elem_of_column. exists r. split; [|exact Hs]. by apply elem_of_filter_bool.
Qed.

Lemma kilobytes_foreign (s : pystr) (c : N) :
  c ∈ s -> foreign c -> c ∉ lit " B," -> kilobytes (VStr s) = Raise ValueError.
Proof.
  intros Hc Hf Hout. cbn [kilobytes].
  rewrite (float_of_str_foreign _ c); [reflexivity| |exact Hf].
  assert (Hsp : c <> 32) by (intros ->; apply Hout; vm_compute; set_solver).
  assert (HB : c <> 66) by (intros ->; apply Hout; vm_compute; set_solver).
  assert (Hcomma : c <> 44) by (intros ->; apply Hout; vm_compute; set_solver).
  apply remove_separators_elem; [exact Hcomma|].
  apply replace_elem; [done| |exact Hc]. rewrite lit_sp_B.
  intros [?|[?|?%elem_of_nil]%elem_of_cons]%elem_of_cons; done.
Qed.

Lemma memory_series_of_raises (present : list (gmap string value)) (m : value) (e : exn) :
  memory_series_of present m = Raise e -> e = ValueError.
Proof.
  unfold memory_series_of. destruct (List.filter _ present) as [|g gs]; [discriminate|].
  destruct (mapM _ (g :: gs)) as [kb|e'] eqn:Hkb; [discriminate|].
  cbn [mbind result_bind]. intros [= <-].
  apply (mapM_result_only _ _ ValueError e' (fun b => kilobytes_raises _) Hkb).
Qed.

Lemma pass_outcome_Raise (name : string) (sc : Plt.scale) (w : World)
    (out : result unit * World) (e : exn) :
  pass_outcome name sc (Raise e) w out -> out.1 = Raise e /\ same_files w out.2.
Proof. done. Qed.

(** X13. The memory chart takes bytes only. On a table with text Method
    and Allocated columns and a Size column, one Fill row whose Allocated
    has an ASCII character that no number contains, other than the space,
    the B and the comma, stops the pass with a ValueError before anything
    is saved: so does the K of an allocation in KB. *)
Theorem memory_chart_needs_bytes (w : World) (tS : dtype) (r : gmap string value)
    (s : pystr) (c : N) :
  columns (df w) !! "Method" = Some object_ ->
  columns (df w) !! "Allocated" = Some object_ ->
  columns (df w) !! "Size" = Some tS ->
  r ∈ rows (df w) -> method_contains (lit "Fill") r = true ->
  cell r "Allocated" = VStr s ->
  c ∈ s -> foreign c -> c ∉ lit " B," ->
  (graph4 w).1 = Raise ValueError /\ same_files w (graph4 w).2.
Proof.
  intros HM HA HS Hr Hfill Hs Hc Hf Hout.
  apply (pass_outcome_Raise "memory_allocation.png" Plt.linear).
  assert (Hlines : memory_lines (df w) = Raise ValueError); [|rewrite <- Hlines; apply graph4_outcome].
  rewrite (memory_lines_view _ tS HM HA HS). unfold memory_view. cbv zeta.
  rewrite (mapM_result_raises _ _ (cell r "Method") ValueError); [reflexivity| | |].
  - by apply fill_method_looped.
  - unfold memory_series_of.
    assert (Hin : r ∈ List.filter (method_is (cell r "Method"))
                       (List.filter allocated_present (rows (df w)))).
    { apply elem_of_filter_bool. split.
      - apply elem_of_filter_bool. split; [exact Hr|].
        unfold allocated_present. by rewrite Hs.
      - destruct (method_contains_text _ _ Hfill) as [t Ht]. rewrite Ht.
        by apply method_is_text. }
    destruct (List.filter _ (List.filter allocated_present _)) as [|g gs];
      [by apply elem_of_nil in Hin|].
    rewrite (mapM_result_raises _ _ r ValueError Hin); [reflexivity| |].
    + rewrite Hs. by apply (kilobytes_foreign s c).
    + intros b e0. apply kilobytes_raises.
  - intros m e0. apply memory_series_of_raises.
Qed.

Lemma allocated_kb_not_text (d : DataFrame) (t : dtype) :
  columns d !! "Allocated" = Some t -> t <> object_ ->
  allocated_kb d = Raise AttributeError.
Proof.
  intros HA Ht. unfold allocated_kb. rewrite (column_values d _ _ HA).
  cbn [mbind result_bind]. unfold str_replace, str_accessor. cbn [dtype_of].
  by destruct t.
Qed.

Lemma memory_series_not_text (d : DataFrame) (tM t : dtype)
    (p : gmap string value -> bool) (method : value) :
  columns d !! "Method" = Some tM ->
  columns d !! "Allocated" = Some t -> t <> object_ ->
  memory_series (where_ p d) method
  = match List.filter (method_is method) (List.filter p (rows d)) with
    | [] => Ok []
    | _ => Raise AttributeError
    end.
Proof.
  intros HM HA Ht. unfold memory_series.
  rewrite (column_values (where_ p d) _ _ HM). cbn [mbind result_bind]. cbv zeta.
  cbn [rows where_]. rewrite eq_mask.
  change (loc (where_ p d) (List.map (method_is method) (List.filter p (rows d))))
    with (loc (where_ p d) (List.map (method_is method) (rows (where_ p d)))).
  rewrite loc_where. rewrite (empty_where _ (where_ p d) _ _ HM). cbn [rows where_].
  destruct (List.filter (method_is method) (List.filter p (rows d))) as [|r rs];
    [reflexivity|].
  cbn [negb]. by rewrite (allocated_kb_not_text (where_ _ (where_ p d)) t HA Ht).
Qed.

(** X14. The memory chart needs a text Allocated column. When pandas has
    read the column as numbers, one Fill row with an allocation stops the
    pass: [.str] raises AttributeError before anything is saved. *)
Theorem numeric_Allocated_stops_memory_chart (w : World) (t : dtype)
    (r : gmap string value) :
  columns (df w) !! "Method" = Some object_ ->
  columns (df w) !! "Allocated" = Some t -> t <> object_ ->
  r ∈ rows (df w) -> method_contains (lit "Fill") r = true -> allocated_present r = true ->
  (graph4 w).1 = Raise AttributeError /\ same_files w (graph4 w).2.
Proof.
  intros HM HA Ht Hr Hfill Hpresent.
  apply (pass_outcome_Raise "memory_allocation.png" Plt.linear).
  assert (Hlines : memory_lines (df w) = Raise AttributeError);
    [|rewrite <- Hlines; apply graph4_outcome].
  unfold memory_lines.
  rewrite (allocated_data_rows _ _ HA), (fill_methods_rows _ HM). cbn [mbind result_bind].
  rewrite (column_values (where_ _ (df w)) _ _ HM). cbn [mbind result_bind].
  unfold unique. cbn [values rows where_].
  rewrite (mapM_result_raises _ _ (cell r "Method") AttributeError); [reflexivity| | |].
  - by apply fill_method_looped.
  - rewrite (memory_series_not_text _ object_ t _ _ HM HA Ht).
    assert (Hin : r ∈ List.filter (method_is (cell r "Method"))
                       (List.filter allocated_present (rows (df w)))).
    { apply elem_of_filter_bool. split; [by apply elem_of_filter_bool|].
      destruct (method_contains_text _ _ Hfill) as [s Hs]. rewrite Hs.
      by apply method_is_text. }
    destruct (List.filter _ (List.filter allocated_present _));
      [by apply elem_of_nil in Hin|reflexivity].
  - intros m e0. rewrite (memory_series_not_text _ object_ t _ _ HM HA Ht).
    destruct (List.filter _ (List.filter allocated_present _)); [discriminate|congruence].
Qed.

End MemoryNeeds.

(** *** The memory chart, row by row *)

Section MemoryRows.
Context {rt : Runtime}.

Lemma mapM_result_app {A B} (f : A -> result B) (l1 l2 : list A) (k1 k2 : list B) :
  mapM f l1 = Ok k1 -> mapM f l2 = Ok k2 -> mapM f (l1 ++ l2) = Ok (k1 ++ k2).
Proof.
  revert k1. induction l1 as [|a l1 IH]; intros k1; [by intros [= <-]|].
  cbn [mapM app]. destruct (f a) as [b|e]; [|discriminate]. cbn [mbind result_bind].
  destruct (mapM f l1) as [k|e] eqn:Hk; [|discriminate]. intros [= <-] H2.
  by rewrite (IH k eq_refl H2).
Qed.

Lemma mapM_result_elem {A B} (f : A -> result B) (l : list A) (k : list B) (a : A) :
  mapM f l = Ok k -> a ∈ l -> exists b, f a = Ok b.
Proof.
  revert k. induction l as [|x l IH]; intros k Hk Ha; [by apply elem_of_nil in Ha|].
  cbn [mapM] in Hk. destruct (f x) as [b|e] eqn:Hx; [|discriminate].
  cbn [mbind result_bind] in Hk. destruct (mapM f l) as [k'|e] eqn:Hk'; [|discriminate].
  apply elem_of_cons in Ha as [->|Ha]; [by exists b|by apply (IH k')].
Qed.

(** Conversions that succeed on a list succeed on its permutations, with
    the same results up to order. *)
Lemma mapM_result_perm {A B} (f : A -> result B) (l l' : list A) (k : list B) :
  l ≡ₚ l' -> mapM f l = Ok k -> exists k', mapM f l' = Ok k' /\ k ≡ₚ k'.
Proof.
  intros Hperm. revert k. induction Hperm as [|a l l' _ IH|a b l|l1 l2 l3 _ IH1 _ IH2];
    intros k Hk.
  - exists k. by split.
  - cbn [mapM] in *. destruct (f a) as [y|e]; [|discriminate].
    cbn [mbind result_bind] in *. destruct (mapM f l) as [k0|e]; [|discriminate].
    injection Hk as <-. destruct (IH k0 eq_refl) as (k' & -> & Hk').
    exists (y :: k'). split; [reflexivity|by constructor].
  - cbn [mapM] in *. destruct (f a) as [ya|e]; destruct (f b) as [yb|e'];
      cbn [mbind result_bind] in *; try discriminate.
    destruct (mapM f l) as [k0|e]; [|discriminate]. injection Hk as <-.
    exists (ya :: yb :: k0). split; [reflexivity|apply perm_swap].
  - destruct (IH1 k Hk) as (k2 & Hk2 & Hp2). destruct (IH2 k2 Hk2) as (k3 & Hk3 & Hp3).
    exists k3. split; [exact Hk3|by etrans].
Qed.

Lemma filter_bool_filter {A} (p q : A -> bool) (l : list A) :
  List.filter p (List.filter q l) = List.filter (fun a => q a && p a) l.
Proof.
  induction l as [|a l IH]; [reflexivity|]. cbn [List.filter].
  destruct (q a); cbn [List.filter andb]; by rewrite IH.
Qed.

(** The rows with an allocation whose method the pass loops over are the
    Fill rows with an allocation. *)
Lemma looped_with_allocation (rs : list (gmap string value)) :
  List.filter (fun r => bool_decide
     (cell r "Method"
      ∈ unique_from [] (column "Method" (List.filter (method_contains (lit "Fill")) rs))))
    (List.filter allocated_present rs)
  = List.filter fill_with_allocation rs.
Proof.
  rewrite filter_bool_filter. apply filter_bool_ext. intros r Hr. unfold fill_with_allocation.
  rewrite andb_comm. f_equal.
  destruct (method_contains (lit "Fill") r) eqn:Hfill.
  - apply bool_decide_eq_true_2. by apply fill_method_looped.
  - apply bool_decide_eq_false_2.
    intros (r0 & [_ Hfill0]%elem_of_filter_bool & Heq)%unique_from_elem%elem_of_column.
    assert (method_contains (lit "Fill") r = true); [|congruence].
    apply (method_is_contains _ r r0 Hfill0).
    destruct (method_contains_text _ _ Hfill0) as [s Hs]. rewrite Hs in *.
    by apply method_is_text.
Qed.

Lemma allocation_Ok (r : gmap string value) (k : float) :
  kilobytes (cell r "Allocated") = Ok k ->
  allocation r = Ok (cell r "Method", cell r "Size", VFloat k).
Proof. intros Hk. unfold allocation. by rewrite Hk. Qed.

(** One round of the memory loop: the points of the rows of the method,
    under its label; a series only if there is a row. *)
Lemma memory_series_of_points (present : list (gmap string value)) (s : pystr)
    (ls : list Plt.Line) :
  memory_series_of present (VStr s) = Ok ls ->
  exists pts,
    mapM allocation (List.filter (method_is (VStr s)) present) = Ok pts
    /\ plotted ls = pts
    /\ well_formed_series ls
    /\ (ls = [] \/ List.map Plt.label ls = [VStr s]).
Proof.
  unfold memory_series_of.
  destruct (List.filter (method_is (VStr s)) present) as [|g gs] eqn:Hdata.
  { intros [= <-]. exists []. repeat split; [constructor|by left]. }
  destruct (mapM _ (g :: gs)) as [kb|e] eqn:Hkb; [|discriminate].
  cbn [mbind result_bind]. intros [= <-].
  assert (Hmethod : Forall (fun r => cell r "Method" = VStr s) (g :: gs)).
  { rewrite <- Hdata. apply Forall_forall. intros r [_ Hr]%elem_of_filter_bool.
    by apply method_is_text. }
  exists (List.map (fun rk => (VStr s, cell rk.1 "Size", VFloat rk.2)) (zip (g :: gs) kb)).
  split; [|split; [|split]].
  - clear Hdata. revert kb Hkb Hmethod. induction (g :: gs) as [|r l IH]; intros kb Hkb Hm.
    + by injection Hkb as <-.
    + cbn [mapM] in Hkb.
      destruct (kilobytes (cell r "Allocated")) as [k|e] eqn:Hk; [|discriminate].
      cbn [mbind result_bind] in Hkb.
      destruct (mapM (fun r => kilobytes (cell r "Allocated")) l) as [kb'|e] eqn:Hkb';
        [|discriminate].
      injection Hkb as <-. apply Forall_cons in Hm as [Hr Hm].
      change (mapM allocation (r :: l))
        with (allocation r ≫= fun y => mapM allocation l ≫= fun k0 => mret (y :: k0)).
      rewrite (allocation_Ok r k Hk), (IH kb' eq_refl Hm). cbn. by rewrite Hr.
  - unfold plotted. cbn [flat_map Plt.xdata Plt.ydata Plt.label]. rewrite app_nil_r.
    change (cell g "Size" :: column "Size" gs) with (column "Size" (g :: gs)).
    generalize (g :: gs). clear. intros l. unfold column. revert kb.
    induction l as [|r l IH]; intros [|k kb]; try reflexivity.
    cbn. f_equal. apply IH.
  - constructor; [|constructor]. cbn [Plt.xdata Plt.ydata]. split; [done|].
    change (cell g "Size" :: column "Size" gs) with (column "Size" (g :: gs)).
    unfold column. rewrite !length_map. symmetry. by apply (mapM_result_length _ _ _ Hkb).
  - by right.
Qed.

Lemma memory_view_points (present : list (gmap string value)) (ms : list value)
    (lss : list (list Plt.Line)) :
  (forall m, m ∈ ms -> exists s, m = VStr s) -> NoDup ms ->
  mapM (memory_series_of present) ms = Ok lss ->
  exists pts,
    mapM allocation (flat_map (fun m => List.filter (method_is m) present) ms) = Ok pts
    /\ plotted (concat lss) = pts
    /\ well_formed_series (concat lss)
    /\ List.map Plt.label (concat lss) `sublist_of` ms
    /\ NoDup (List.map Plt.label (concat lss)).
Proof.
  intros Htext Hnodup. revert lss.
  induction Hnodup as [|m ms Hm Hnodup IH]; intros lss Hlss.
  { injection Hlss as <-. exists []. repeat split; constructor. }
  cbn [mapM] in Hlss. destruct (Htext m) as [s ->]; [apply list_elem_of_here|].
  destruct (memory_series_of present (VStr s)) as [ls|e] eqn:Hls; [|discriminate].
  cbn [mbind result_bind] in Hlss.
  destruct (mapM _ ms) as [lss'|e] eqn:Hlss'; [|discriminate]. injection Hlss as <-.
  destruct (IH (fun m' Hm' => Htext m' (list_elem_of_further _ _ _ Hm')) lss' eq_refl)
    as (pts' & Hpts' & Hplot' & Hwf' & Hsub' & Hnd').
  destruct (memory_series_of_points present s ls Hls) as (pts & Hpts & Hplot & Hwf & Hlab).
  exists (pts ++ pts'). cbn [flat_map concat].
  split; [by apply mapM_result_app|]. split; [|split; [|split]].
  - unfold plotted in *. by rewrite flat_map_app, Hplot, Hplot'.
  - by apply Forall_app.
  - rewrite List.map_app. destruct Hlab as [->| ->]; cbn [List.map app].
    + by apply sublist_cons.
    + by apply sublist_skip.
  - rewrite List.map_app. destruct Hlab as [->| ->]; cbn [List.map app]; [exact Hnd'|].
    constructor; [|exact Hnd']. intros Hin. apply Hm. by apply (elem_of_sublist _ _ _ Hin Hsub').
Qed.

(** X15. A memory pass that returns, on a table with text Method and
    Allocated columns and a Size column, has saved a chart on a linear
    axis whose series have distinct labels, each also a label of the Fill
    chart and in the same order, are drawn from at least one row each,
    and plot, in kilobytes, the allocation of every Fill row that has one,
    exactly once; the other rows are not plotted. *)
Theorem memory_chart_plots_each_row_once (w w' : World) (tS : dtype) :
  columns (df w) !! "Method" = Some object_ ->
  columns (df w) !! "Allocated" = Some object_ ->
  columns (df w) !! "Size" = Some tS ->
  graph4 w = (Ok tt, w') ->
  exists fig pts,
    Plt.saved (plt w') !! "memory_allocation.png" = Some fig
    /\ Plt.yscale fig = Plt.linear
    /\ NoDup (List.map Plt.label (Plt.lines fig))
    /\ List.map Plt.label (Plt.lines fig)
       `sublist_of` List.map Plt.label
                      (timing_view (method_contains (lit "Fill")) "o" (rows (df w)))
    /\ well_formed_series (Plt.lines fig)
    /\ mapM allocation (List.filter fill_with_allocation (rows (df w))) = Ok pts
    /\ plotted (Plt.lines fig) ≡ₚ pts.
Proof.
  intros HM HA HS Hrun. pose proof (graph4_outcome w) as Hout. rewrite Hrun in Hout.
  apply pass_outcome_Ok in Hout as (ls & Hls & ->).
  rewrite (memory_lines_view _ tS HM HA HS) in Hls. unfold memory_view in Hls.
  cbv zeta in Hls.
  set (ms := unique_from [] (column "Method"
               (List.filter (method_contains (lit "Fill")) (rows (df w))))) in *.
  destruct (mapM _ ms) as [lss|e] eqn:Hlss; [|discriminate].
  cbn [mbind result_bind] in Hls. injection Hls as <-.
  assert (Htext : forall m, m ∈ ms -> exists s, m = VStr s).
  { intros m (r & [_ Hr]%elem_of_filter_bool & <-)%unique_from_elem%elem_of_column.
    by apply (method_contains_text (lit "Fill")). }
  pose proof (unique_from_NoDup [] (column "Method"
               (List.filter (method_contains (lit "Fill")) (rows (df w))))) as Hnodup.
  destruct (memory_view_points _ ms lss Htext Hnodup Hlss)
    as (pts & Hpts & Hplot & Hwf & Hsub & Hnd).
  assert (Hgroups :
    flat_map (fun m => List.filter (method_is m)
                         (List.filter allocated_present (rows (df w)))) ms
    ≡ₚ List.filter fill_with_allocation (rows (df w))).
  { rewrite <- looped_with_allocation. by apply groups_perm. }
  destruct (mapM_result_perm allocation _ _ pts Hgroups Hpts) as (pts' & Hpts' & Hperm).
  exists {| Plt.lines := concat lss; Plt.yscale := Plt.linear |}, pts'.
  split; [apply finished_saved|]. cbn [Plt.lines Plt.yscale].
  split; [reflexivity|]. split; [exact Hnd|]. split.
  - unfold timing_view. cbv zeta. rewrite List.map_map. cbn [Plt.label].
    by rewrite List.map_id.
  - split; [exact Hwf|]. split; [exact Hpts'|]. by rewrite Hplot.
Qed.

End MemoryRows.

(** *** The properties on example tables *)

(** C7, as stated, fails: the header has no Size, and the script returns
    after it has saved four charts. *)
Lemma report_without_Size_is_rendered :
  columns report_without_Size !! "Size" = None
  /\ exists w, main (rt := ascii_runtime) {[ report_csv := report_without_Size ]} = Ran (Ok tt) w
       /\ dom (Plt.saved (plt w))
          = {[ "fill_comparison.png"; "foreach_comparison.png";
               "read_operations.png"; "memory_allocation.png" ]}.
Proof.
  split; [reflexivity|]. eexists. split; [vm_compute; reflexivity|].
  vm_compute. reflexivity.
Qed.

#[local] Existing Instance ascii_runtime.

(** C5, as stated, fails: no row of this report has a Method, pandas reads
    the column as float64, and the selections raise where the claim has
    them leave the rows out. *)
Lemma missing_Methods_are_not_excluded :
  columns report_missing_methods !! "Method" = Some float64
  /\ List.map (fun r => cell r "Method") (rows report_missing_methods) = [NaN; NaN]
  /\ fill_methods report_missing_methods = Raise AttributeError
  /\ foreach_methods report_missing_methods = Raise AttributeError.
Proof. repeat split; vm_compute; reflexivity. Qed.

(** C8, as stated, fails: no row of this loaded and normalized report has
    a Method that contains "Fill", and the Fill pass raises without a
    chart. *)
Lemma numbered_methods_have_no_empty_chart :
  List.filter (method_contains (lit "Fill"))
    (rows (df (add_Mean_us (world_of report_numbered_methods)).2)) = []
  /\ exists w', graph1 (add_Mean_us (world_of report_numbered_methods)).2
                = (Raise AttributeError, w')
       /\ Plt.saved (plt w') = ∅.
Proof.
  split; [vm_compute; reflexivity|]. eexists. split; vm_compute; reflexivity.
Qed.

(** The end-to-end scenario of the specification: the Fill chart plots
    (100, 50.0) for "Fill_100" and (200, 100.0) for "Fill_200", the memory
    chart (100, 1.0) and (200, 2.0) kilobytes. *)
Example end_to_end_scenario :
  exists w, main {[ report_csv := scenario_report ]} = Ran (Ok tt) w
    /\ Plt.saved (plt w) !! "fill_comparison.png"
       = Some {| Plt.lines :=
                   [ {| Plt.xdata := [VInt 100]; Plt.ydata := [VFloat (float_of_int 50)];
                        Plt.marker := "o"; Plt.label := VStr (lit "Fill_100") |};
                     {| Plt.xdata := [VInt 200]; Plt.ydata := [VFloat (float_of_int 100)];
                        Plt.marker := "o"; Plt.label := VStr (lit "Fill_200") |} ];
                 Plt.yscale := Plt.log |}
    /\ Plt.saved (plt w) !! "memory_allocation.png"
       = Some {| Plt.lines :=
                   [ {| Plt.xdata := [VInt 100]; Plt.ydata := [VFloat (float_of_int 1)];
                        Plt.marker := "o"; Plt.label := VStr (lit "Fill_100") |};
                     {| Plt.xdata := [VInt 200]; Plt.ydata := [VFloat (float_of_int 2)];
                        Plt.marker := "o"; Plt.label := VStr (lit "Fill_200") |} ];
                 Plt.yscale := Plt.linear |}.
Proof. eexists. split; [vm_compute; reflexivity|]. split; vm_compute; reflexivity. Qed.

(** C1 on " 1,234.5 ns  ": the whitespace, the unit and the comma go, and
    1234.5 is divided by 1000. *)
Lemma convert_to_us_normalizes_witness :
  convert_to_us (VStr (lit " " ++ (lit "1,234.5 " ++ lit "ns") ++ lit "  "))
  = scaled (fun y => float_div y (float_of_int 1000)) (float_new (VStr (lit "1234.5 ")))
  /\ float_new (VStr (lit "1234.5 "))
     = Ok (float_div (float_of_int 12345) (float_of_int 10)).
Proof.
  split; [|vm_compute; reflexivity].
  destruct convert_to_us_normalizes as (_ & _ & _ & _ & Hnumber).
  destruct (Hnumber (lit " ") (lit "1,234.5 ") (lit "  ")) as (Hns & _).
  - reflexivity.
  - reflexivity.
  - by apply no_unit_letters.
  - reflexivity.
  - exact Hns.
Defined.

(** C6 on "1,234us", which is a number of microseconds, and on "fast",
    which is none. *)
Lemma convert_to_us_fails_iff_witness :
  float_of_str (numeric_text (lit "1,234us")) = Some (float_of_int 1234)
  /\ convert_to_us (VStr (lit "1,234us")) = Ok (float_of_int 1234)
  /\ float_of_str (numeric_text (lit "fast")) = None
  /\ convert_to_us (VStr (lit "fast")) = Raise ValueError.
Proof.
  assert (Hnum : float_of_str (numeric_text (lit "1,234us")) = Some (float_of_int 1234))
    by (vm_compute; reflexivity).
  assert (Hbad : float_of_str (numeric_text (lit "fast")) = None)
    by (vm_compute; reflexivity).
  split; [exact Hnum|]. split.
  - apply (proj2 (convert_to_us_fails_iff (lit "1,234us")) _ Hnum).
  - split; [exact Hbad|].
    apply (proj1 (convert_to_us_fails_iff (lit "fast"))). by split.
Defined.

(** C10 on the example report: its second row has no Mean. *)
Lemma missing_Mean_gives_NaN_witness :
  columns (df (world_of example_report)) !! "Mean" = Some object_
  /\ (forall r, r ∈ rows (df (world_of example_report)) -> cell r "Mean" <> NaN ->
                exists x, convert_to_us (cell r "Mean") = Ok x)
  /\ exists w', add_Mean_us (world_of example_report) = (Ok tt, w')
       /\ exists r', rows (df w') !! 1%nat = Some r' /\ r' !! "Mean_us" = Some NaN.
Proof.
  assert (Hcol : columns (df (world_of example_report)) !! "Mean" = Some object_)
    by (vm_compute; reflexivity).
  assert (Hrest : forall r, r ∈ rows (df (world_of example_report)) -> cell r "Mean" <> NaN ->
                            exists x, convert_to_us (cell r "Mean") = Ok x).
  { intros r Hr Hne. cbn [df world_of rows example_report] in Hr.
    rewrite !elem_of_cons in Hr. destruct Hr as [->|[->|[->|Hnil]]].
    - eexists. vm_compute. reflexivity.
    - exfalso. apply Hne. vm_compute. reflexivity.
    - eexists. vm_compute. reflexivity.
    - by apply not_elem_of_nil in Hnil. }
  split; [exact Hcol|]. split; [exact Hrest|].
  destruct missing_Mean_gives_NaN as (_ & _ & _ & Hpass).
  destruct (Hpass (world_of example_report) object_ Hcol Hrest) as (w' & Hrun & _ & Hnan).
  exists w'. split; [exact Hrun|].
  apply (Hnan 1%nat (report_row "Fill_100" 200 NaN (VStr (lit "2,048 B")))).
  - reflexivity.
  - vm_compute. reflexivity.
Defined.

(** C4 on the example report: the row of "GetRow" is selected. *)
Lemma read_methods_exact_witness :
  columns example_report !! "Method" = Some object_
  /\ read_methods example_report
     = Ok (where_ (method_in [lit "GetRow"; lit "GetColumn"]) example_report)
  /\ rows (where_ (method_in [lit "GetRow"; lit "GetColumn"]) example_report)
     = [report_row "GetRow" 100 (VStr (lit "1,000ns")) NaN].
Proof.
  assert (Hcol : columns example_report !! "Method" = Some object_)
    by (vm_compute; reflexivity).
  split; [exact Hcol|]. split.
  - apply (proj1 (read_methods_exact example_report object_ Hcol)).
  - vm_compute. reflexivity.
Defined.

(** C5 on the example report: two Fill rows, no ForEach row. *)
Lemma fill_foreach_methods_exact_witness :
  columns example_report !! "Method" = Some object_
  /\ fill_methods example_report = Ok (where_ (method_contains (lit "Fill")) example_report)
  /\ foreach_methods example_report
     = Ok (where_ (method_contains (lit "ForEach")) example_report)
  /\ List.map (fun r => cell r "Size")
       (rows (where_ (method_contains (lit "Fill")) example_report)) = [VInt 100; VInt 200]
  /\ rows (where_ (method_contains (lit "ForEach")) example_report) = [].
Proof.
  assert (Hcol : columns example_report !! "Method" = Some object_)
    by (vm_compute; reflexivity).
  destruct (fill_foreach_methods_exact example_report Hcol) as (Hfill & Hforeach & _).
  split; [exact Hcol|]. split; [exact Hfill|]. split; [exact Hforeach|].
  split; vm_compute; reflexivity.
Defined.

(** C3 on the example report: one series, of 1.0 and 2.0 kilobytes. *)
Lemma memory_allocation_view_witness :
  columns (df example_world) !! "Method" = Some object_
  /\ columns (df example_world) !! "Allocated" = Some object_
  /\ columns (df example_world) !! "Size" = Some int64
  /\ graph4 example_world
     = (Ok tt,
        finished "memory_allocation.png"
          {| Plt.lines :=
               [ {| Plt.xdata := [VInt 100; VInt 200];
                    Plt.ydata := [VFloat (float_of_int 1); VFloat (float_of_int 2)];
                    Plt.marker := "o"; Plt.label := VStr (lit "Fill_100") |} ];
             Plt.yscale := Plt.linear |} example_world).
Proof.
  assert (HM : columns (df example_world) !! "Method" = Some object_)
    by (vm_compute; reflexivity).
  assert (HA : columns (df example_world) !! "Allocated" = Some object_)
    by (vm_compute; reflexivity).
  assert (HS : columns (df example_world) !! "Size" = Some int64)
    by (vm_compute; reflexivity).
  split; [exact HM|]. split; [exact HA|]. split; [exact HS|].
  destruct (proj1 memory_allocation_view example_world int64 HM HA HS) as (_ & Hdraw & _).
  apply Hdraw. vm_compute. reflexivity.
Defined.

(** C8 on a report that no chart selects: four charts without lines; and
    the read chart of a report whose methods are numbers. *)
Lemma no_matching_rows_no_series_witness :
  columns (df (world_of unselected_report)) !! "Method" = Some object_
  /\ columns (df (world_of unselected_report)) !! "Allocated" = Some object_
  /\ List.filter (method_contains (lit "Fill")) (rows unselected_report) = []
  /\ List.filter (method_contains (lit "ForEach")) (rows unselected_report) = []
  /\ List.filter (method_in [lit "GetRow"; lit "GetColumn"]) (rows unselected_report) = []
  /\ graph1 (world_of unselected_report)
     = (Ok tt, finished "fill_comparison.png"
                 {| Plt.lines := []; Plt.yscale := Plt.log |} (world_of unselected_report))
  /\ graph2 (world_of unselected_report)
     = (Ok tt, finished "foreach_comparison.png"
                 {| Plt.lines := []; Plt.yscale := Plt.log |} (world_of unselected_report))
  /\ graph3 (world_of unselected_report)
     = (Ok tt, finished "read_operations.png"
                 {| Plt.lines := []; Plt.yscale := Plt.log |} (world_of unselected_report))
  /\ graph4 (world_of unselected_report)
     = (Ok tt, finished "memory_allocation.png"
                 {| Plt.lines := []; Plt.yscale := Plt.linear |} (world_of unselected_report))
  /\ columns (df (world_of report_numbered_methods)) !! "Method" = Some int64
  /\ graph3 (world_of report_numbered_methods)
     = (Ok tt, finished "read_operations.png"
                 {| Plt.lines := []; Plt.yscale := Plt.log |}
                 (world_of report_numbered_methods)).
Proof.
  assert (HM : columns (df (world_of unselected_report)) !! "Method" = Some object_)
    by (vm_compute; reflexivity).
  assert (HA : columns (df (world_of unselected_report)) !! "Allocated" = Some object_)
    by (vm_compute; reflexivity).
  assert (HN : columns (df (world_of report_numbered_methods)) !! "Method" = Some int64)
    by (vm_compute; reflexivity).
  destruct (no_matching_rows_no_series (world_of unselected_report)) as [Htext H3].
  destruct (Htext HM) as (H1 & H2 & H4).
  split; [exact HM|]. split; [exact HA|].
  split; [vm_compute; reflexivity|]. split; [vm_compute; reflexivity|].
  split; [vm_compute; reflexivity|].
  split; [apply H1; vm_compute; reflexivity|].
  split; [apply H2; vm_compute; reflexivity|].
  split; [apply (H3 object_ HM); vm_compute; reflexivity|].
  split; [apply (H4 object_ HA); vm_compute; reflexivity|].
  split; [exact HN|].
  apply (proj2 (no_matching_rows_no_series (world_of report_numbered_methods)) int64 HN).
  vm_compute. reflexivity.
Defined.

(** C9 on the example report: Graph 1 and Graph 4 in both orders. *)
Lemma render_passes_read_only_witness :
  exists w1 w2,
    run_passes [graph1; graph4] example_world = (Ok tt, w1)
    /\ run_passes [graph4; graph1] example_world = (Ok tt, w2)
    /\ df w1 = df example_world /\ df w2 = df example_world
    /\ Plt.saved (plt w2) = Plt.saved (plt w1).
Proof.
  assert (Hrun : run_passes [graph1; graph4] example_world
                 = (Ok tt, (run_passes [graph1; graph4] example_world).2))
    by (vm_compute; reflexivity).
  assert (Hall : Forall (fun p => p ∈ passes) [graph1; graph4]).
  { repeat constructor; unfold passes; rewrite !elem_of_cons; auto. }
  destruct (proj2 (proj2 render_passes_read_only) [graph1; graph4] [graph4; graph1]
              example_world _ Hall (perm_swap _ _ _) Hrun) as (w2 & H2 & Hd1 & Hd2 & Hs).
  exists (run_passes [graph1; graph4] example_world).2, w2. auto.
Defined.

(** C7 without a file, and under a header without Mean. *)
Lemma load_report_outcomes_witness :
  main ∅ = NotLoaded FileNotFoundError
  /\ columns report_without_Mean !! "Mean" = None
  /\ main {[ report_csv := report_without_Mean ]}
     = Ran (Raise (KeyError "Mean")) (world_of report_without_Mean).
Proof.
  split; [apply (proj1 (load_report_outcomes ∅)); reflexivity|].
  assert (Hcol : columns report_without_Mean !! "Mean" = None) by (vm_compute; reflexivity).
  split; [exact Hcol|].
  destruct (proj2 (load_report_outcomes {[ report_csv := report_without_Mean ]})
              report_without_Mean) as (_ & HMean & _).
  - vm_compute. reflexivity.
  - apply HMean. exact Hcol.
Defined.

(** *** The further properties on example tables *)

(** X1 on the example report: one Fill series, whose second time is
    missing. *)
Lemma timing_charts_view_witness :
  columns (df example_world) !! "Method" = Some object_
  /\ columns (df example_world) !! "Size" = Some int64
  /\ columns (df example_world) !! "Mean_us" = Some float64
  /\ graph1 example_world
     = (Ok tt,
        finished "fill_comparison.png"
          {| Plt.lines :=
               [ {| Plt.xdata := [VInt 100; VInt 200];
                    Plt.ydata := [VFloat (float_of_int 50); NaN];
                    Plt.marker := "o"; Plt.label := VStr (lit "Fill_100") |} ];
             Plt.yscale := Plt.log |} example_world).
Proof.
  assert (HM : columns (df example_world) !! "Method" = Some object_)
    by (vm_compute; reflexivity).
  assert (HS : columns (df example_world) !! "Size" = Some int64)
    by (vm_compute; reflexivity).
  assert (HU : columns (df example_world) !! "Mean_us" = Some float64)
    by (vm_compute; reflexivity).
  split; [exact HM|]. split; [exact HS|]. split; [exact HU|].
  destruct (timing_charts_view example_world int64 float64 HM HS HU) as (H1 & _).
  rewrite H1. vm_compute. reflexivity.
Defined.

(** X2 on the example report: the Fill chart and the read chart. *)
Lemma timing_charts_plot_each_row_once_witness :
  plots_each_once (method_contains (lit "Fill")) "fill_comparison.png"
    example_world (graph1 example_world).2
  /\ plots_each_once (method_in [lit "GetRow"; lit "GetColumn"]) "read_operations.png"
       example_world (graph3 example_world).2.
Proof.
  split.
  - apply (proj1 (timing_charts_plot_each_row_once example_world _)).
    vm_compute. reflexivity.
  - apply (proj2 (proj2 (timing_charts_plot_each_row_once example_world _))).
    vm_compute. reflexivity.
Defined.

(** X3 on the example report, whose times are 50, none and 1
    microseconds: the four charts are drawn; and on a report without rows,
    whose Mean_us column keeps the object dtype of Mean. *)
Lemma run_draws_charts_in_order_witness :
  (exists w,
     main {[ report_csv := example_report ]} = Ran (Ok tt) w
     /\ List.map fst (draw charts (df w)).1
        = [ "fill_comparison.png"; "foreach_comparison.png"; "read_operations.png";
            "memory_allocation.png" ]
     /\ Plt.shown (plt w) = List.map snd (draw charts (df w)).1)
  /\ (exists w,
        main {[ report_csv := rowless_report ]} = Ran (Ok tt) w
        /\ columns (df w) !! "Mean_us" = Some object_
        /\ rows (df w) = []).
Proof.
  split.
  - destruct (run_draws_charts_in_order {[ report_csv := example_report ]} example_report
                object_ [float_of_int 50; nan; float_of_int 1])
      as (w & Hrun & Hdf & _ & Hshown).
    + vm_compute. reflexivity.
    + vm_compute. reflexivity.
    + repeat constructor; vm_compute; reflexivity.
    + exists w. rewrite Hdf. split; [|split].
      * rewrite Hrun. reflexivity.
      * vm_compute. reflexivity.
      * exact Hshown.
  - destruct (run_draws_charts_in_order {[ report_csv := rowless_report ]} rowless_report
                object_ []) as (w & Hrun & Hdf & _).
    + vm_compute. reflexivity.
    + vm_compute. reflexivity.
    + constructor.
    + exists w. rewrite Hdf. split; [|split].
      * rewrite Hrun. reflexivity.
      * vm_compute. reflexivity.
      * reflexivity.
Defined.

(** X4 on the scenario of the specification. *)
Lemma returned_run_saves_four_charts_witness :
  exists w l1 l2 l3 l4,
    main {[ report_csv := scenario_report ]} = Ran (Ok tt) w
    /\ Plt.shown (plt w)
       = [chart_of Plt.log l1; chart_of Plt.log l2; chart_of Plt.log l3;
          chart_of Plt.linear l4].
Proof.
  assert (Hrun : main {[ report_csv := scenario_report ]}
                 = Ran (Ok tt) (body (world_of scenario_report)).2)
    by (vm_compute; reflexivity).
  destruct (returned_run_saves_four_charts _ _ Hrun)
    as (l1 & l2 & l3 & l4 & _ & _ & _ & _ & _ & Hshown).
  exists (body (world_of scenario_report)).2, l1, l2, l3, l4. by split.
Defined.

(** X5 on two reports without Size: one that no chart selects a row of,
    and the example report, which has Fill rows. *)
Lemma missing_Size_fails_iff_charted_witness :
  (exists w, main {[ report_csv := report_without_Size ]} = Ran (Ok tt) w)
  /\ (exists w, main {[ report_csv := example_without_Size ]}
                = Ran (Raise (KeyError "Size")) w).
Proof.
  split.
  - destruct (missing_Size_fails_iff_charted {[ report_csv := report_without_Size ]}
                report_without_Size object_ object_ [float_of_int 1]) as [w Hw].
    + vm_compute. reflexivity.
    + vm_compute. reflexivity.
    + vm_compute. reflexivity.
    + vm_compute. reflexivity.
    + vm_compute. reflexivity.
    + repeat constructor; vm_compute; reflexivity.
    + exists w. rewrite Hw. reflexivity.
  - destruct (missing_Size_fails_iff_charted {[ report_csv := example_without_Size ]}
                example_without_Size object_ object_
                [float_of_int 50; nan; float_of_int 1]) as [w Hw].
    + vm_compute. reflexivity.
    + vm_compute. reflexivity.
    + vm_compute. reflexivity.
    + vm_compute. reflexivity.
    + vm_compute. reflexivity.
    + repeat constructor; vm_compute; reflexivity.
    + exists w. rewrite Hw. reflexivity.
Defined.

(** X6 on the example report without its Allocated column. *)
Lemma missing_Allocated_keeps_timing_charts_witness :
  exists w,
    main {[ report_csv := report_without_Allocated ]} = Ran (Raise (KeyError "Allocated")) w
    /\ dom (Plt.saved (plt w))
       = {[ "fill_comparison.png"; "foreach_comparison.png"; "read_operations.png" ]}.
Proof.
  destruct (missing_Allocated_keeps_timing_charts
              {[ report_csv := report_without_Allocated ]} report_without_Allocated
              object_ int64 [float_of_int 50; nan; float_of_int 1])
    as (w & f1 & f2 & f3 & Hrun & _ & _ & _ & Hsaved & _).
  - vm_compute. reflexivity.
  - vm_compute. reflexivity.
  - vm_compute. reflexivity.
  - vm_compute. reflexivity.
  - vm_compute. reflexivity.
  - repeat constructor; vm_compute; reflexivity.
  - exists w. split; [exact Hrun|]. rewrite Hsaved. rewrite !dom_insert_L, dom_empty_L.
    set_solver.
Defined.

(** X7 on a report whose second Mean is the word "fast". *)
Lemma malformed_Mean_stops_run_witness :
  main {[ report_csv := report_with_word ]}
  = Ran (Raise ValueError) (world_of report_with_word).
Proof.
  apply (malformed_Mean_stops_run _ report_with_word object_
           (report_row "Fill_200" 200 (VStr (lit "fast")) (VStr (lit "2,048 B")))).
  - vm_compute. reflexivity.
  - vm_compute. reflexivity.
  - apply list_elem_of_further, list_elem_of_here.
  - vm_compute. reflexivity.
Defined.

(** X8 on the scenario of the specification, and on a report without
    rows, whose Mean_us column keeps the object dtype of Mean. *)
Lemma well_formed_report_runs_witness :
  (exists w, main {[ report_csv := scenario_report ]} = Ran (Ok tt) w
     /\ df w = normalized scenario_report [float_of_int 50; float_of_int 100]
     /\ columns (df w) !! "Mean_us" = Some float64)
  /\ (exists w, main {[ report_csv := rowless_report ]} = Ran (Ok tt) w
        /\ df w = normalized rowless_report []
        /\ columns (df w) !! "Mean_us" = Some object_).
Proof.
  split.
  - destruct (well_formed_report_runs {[ report_csv := scenario_report ]} scenario_report
                object_ int64 [float_of_int 50; float_of_int 100])
      as (w & f1 & f2 & f3 & lm & Hrun & Hdf & _).
    + vm_compute. reflexivity.
    + vm_compute. reflexivity.
    + vm_compute. reflexivity.
    + vm_compute. reflexivity.
    + vm_compute. reflexivity.
    + repeat constructor; vm_compute; reflexivity.
    + intros r Hr _ _. cbn [rows scenario_report] in Hr.
      rewrite !elem_of_cons in Hr. destruct Hr as [->|[->|Hnil]].
      * eexists. vm_compute. reflexivity.
      * eexists. vm_compute. reflexivity.
      * by apply not_elem_of_nil in Hnil.
    + exists w. split; [exact Hrun|]. split; [exact Hdf|]. rewrite Hdf.
      vm_compute. reflexivity.
  - destruct (well_formed_report_runs {[ report_csv := rowless_report ]} rowless_report
                object_ int64 []) as (w & f1 & f2 & f3 & lm & Hrun & Hdf & _).
    + vm_compute. reflexivity.
    + vm_compute. reflexivity.
    + vm_compute. reflexivity.
    + vm_compute. reflexivity.
    + vm_compute. reflexivity.
    + constructor.
    + intros r Hr. by apply elem_of_nil in Hr.
    + exists w. split; [exact Hrun|]. split; [exact Hdf|]. rewrite Hdf.
      vm_compute. reflexivity.
Defined.

(** X9 on a report whose methods are numbers. *)
Lemma numeric_Method_stops_first_chart_witness :
  exists w, main {[ report_csv := report_numbered_methods ]} = Ran (Raise AttributeError) w
    /\ Plt.saved (plt w) = ∅.
Proof.
  destruct (numeric_Method_stops_first_chart {[ report_csv := report_numbered_methods ]}
              report_numbered_methods object_ int64 [float_of_int 50])
    as (w & Hrun & _ & Hsaved & _).
  - vm_compute. reflexivity.
  - vm_compute. reflexivity.
  - vm_compute. reflexivity.
  - discriminate.
  - repeat constructor; vm_compute; reflexivity.
  - exists w. by split.
Defined.

(** X10 on " 50us  ". *)
Lemma convert_to_us_ignores_outer_whitespace_witness :
  convert_to_us (VStr (lit " " ++ lit "50us" ++ lit "  ")) = convert_to_us (VStr (lit "50us")).
Proof. apply convert_to_us_ignores_outer_whitespace; reflexivity. Defined.

(** X11 on "1,234.5 ", the number of a BenchmarkDotNet time. *)
Lemma convert_to_us_scales_by_suffix_witness :
  convert_to_us (VStr (lit "1,234.5 " ++ lit "ns"))
  = scaled (fun y => float_div y (float_of_int 1000))
      (float_new (VStr (remove_separators (lit "1,234.5 "))))
  /\ float_new (VStr (remove_separators (lit "1,234.5 ")))
     = Ok (float_div (float_of_int 12345) (float_of_int 10)).
Proof.
  split; [|vm_compute; reflexivity].
  apply (convert_to_us_scales_by_suffix (lit "1,234.5 ")); [|reflexivity].
  by apply no_unit_letters.
Defined.

(** X12 on a time in seconds. *)
Lemma convert_to_us_rejects_other_units_witness :
  convert_to_us (VStr (lit "1.5 s")) = Raise ValueError.
Proof.
  apply (convert_to_us_rejects_other_units (lit "1.5 s") 115).
  - apply list_elem_of_In. vm_compute. tauto.
  - split; [reflexivity|reflexivity].
  - reflexivity.
  - discriminate.
  - right. vm_compute. reflexivity.
Defined.

(** X13 on a report with an allocation of "1.02 KB". *)
Lemma memory_chart_needs_bytes_witness :
  (graph4 (world_of report_in_kilobytes)).1 = Raise ValueError
  /\ same_files (world_of report_in_kilobytes) (graph4 (world_of report_in_kilobytes)).2.
Proof.
  apply (memory_chart_needs_bytes (world_of report_in_kilobytes) int64
           (report_row "Fill_100" 100 (VStr (lit "50us")) (VStr (lit "1.02 KB")))
           (lit "1.02 KB") 75).
  - vm_compute. reflexivity.
  - vm_compute. reflexivity.
  - vm_compute. reflexivity.
  - apply list_elem_of_here.
  - vm_compute. reflexivity.
  - vm_compute. reflexivity.
  - apply list_elem_of_In. vm_compute. tauto.
  - split; reflexivity.
  - rewrite list_elem_of_In. vm_compute. intros [?|[?|[?|[]]]]; discriminate.
Defined.

(** X14 on a report whose allocations are bare numbers. *)
Lemma numeric_Allocated_stops_memory_chart_witness :
  (graph4 (world_of report_numeric_allocated)).1 = Raise AttributeError
  /\ same_files (world_of report_numeric_allocated)
       (graph4 (world_of report_numeric_allocated)).2.
Proof.
  apply (numeric_Allocated_stops_memory_chart (world_of report_numeric_allocated) int64
           (report_row "Fill_100" 100 (VStr (lit "50us")) (VInt 1024))).
  - vm_compute. reflexivity.
  - vm_compute. reflexivity.
  - discriminate.
  - apply list_elem_of_here.
  - vm_compute. reflexivity.
  - vm_compute. reflexivity.
Defined.

(** X15 on the example report: both Fill rows have an allocation. *)
Lemma memory_chart_plots_each_row_once_witness :
  exists fig pts,
    Plt.saved (plt (graph4 example_world).2) !! "memory_allocation.png" = Some fig
    /\ mapM allocation (List.filter fill_with_allocation (rows (df example_world))) = Ok pts
    /\ plotted (Plt.lines fig) ≡ₚ pts.
Proof.
  destruct (memory_chart_plots_each_row_once example_world (graph4 example_world).2 int64)
    as (fig & pts & Hsaved & _ & _ & _ & _ & Hpts & Hperm).
  - vm_compute. reflexivity.
  - vm_compute. reflexivity.
  - vm_compute. reflexivity.
  - vm_compute. reflexivity.
  - exists fig, pts. by repeat split.
Defined.
